(** * ReVK: the frame loop and swapchain lifecycle of [VkBase]

    A shallow embedding of [src/Core/VK/VkBase.cc] and [src/Common/Json.h].

    The program is single-threaded C++ that drives the Vulkan and GLFW
    APIs.  Every call into those APIs is kept as an [Event] of the run's
    trace, and everything the outside answers (result codes, framebuffer
    sizes, window events, the images of a new swapchain) is read from a
    [World] script, in call order.  A call whose answer is not in the
    script has not returned yet: the run is [Blocked] there.  A failed
    assertion ends the run as [Fatal].

    The source is written for both builds.  The world says which one
    runs ([ndebug]): with [NDEBUG] defined, [BOOST_ASSERT_MSG] expands to
    nothing and the debug messenger is neither set up nor cleaned up. *)

From Stdlib Require Import ZArith QArith Lia.
From stdpp Require Import base option list strings gmap.

Local Open Scope Z_scope.
Local Open Scope list_scope.

(** ** Handles and result codes *)

(** Vulkan handles are opaque; the driver hands them out. *)
Definition Handle := N.
Definition VK_NULL_HANDLE : Handle := 0%N.

(** The [VkResult] codes the program can meet. *)
Inductive VkResult : Set :=
| VK_SUCCESS
| VK_NOT_READY
| VK_TIMEOUT
| VK_SUBOPTIMAL_KHR
| VK_ERROR_OUT_OF_DATE_KHR
| VK_ERROR_OUT_OF_HOST_MEMORY
| VK_ERROR_OUT_OF_DEVICE_MEMORY
| VK_ERROR_DEVICE_LOST
| VK_ERROR_SURFACE_LOST_KHR.

Definition VkResult_eqb (a b : VkResult) : bool :=
  match a, b with
  | VK_SUCCESS, VK_SUCCESS
  | VK_NOT_READY, VK_NOT_READY
  | VK_TIMEOUT, VK_TIMEOUT
  | VK_SUBOPTIMAL_KHR, VK_SUBOPTIMAL_KHR
  | VK_ERROR_OUT_OF_DATE_KHR, VK_ERROR_OUT_OF_DATE_KHR
  | VK_ERROR_OUT_OF_HOST_MEMORY, VK_ERROR_OUT_OF_HOST_MEMORY
  | VK_ERROR_OUT_OF_DEVICE_MEMORY, VK_ERROR_OUT_OF_DEVICE_MEMORY
  | VK_ERROR_DEVICE_LOST, VK_ERROR_DEVICE_LOST
  | VK_ERROR_SURFACE_LOST_KHR, VK_ERROR_SURFACE_LOST_KHR => true
  | _, _ => false
  end.

(** ** The members of [VkBase] *)

(** Addresses the program stores in [submitInfo]: each is the address of a
    member of the application object, or of an element of [drawCmdBuffers]. *)
Inductive Ptr : Set :=
| NullPtr
| AddrPresentComplete
| AddrRenderComplete
| AddrSubmitPipelineStages
| AddrDrawCmdBuffer (index : N).

Record VkSubmitInfo : Set := mkSubmitInfo {
  pWaitDstStageMask : Ptr;
  waitSemaphoreCount : N;
  pWaitSemaphores : Ptr;
  signalSemaphoreCount : N;
  pSignalSemaphores : Ptr;
  commandBufferCount : N;
  pCommandBuffers : Ptr
}.

Record Semaphores : Set := mkSemaphores {
  presentComplete : Handle;
  renderComplete : Handle
}.

Record DepthStencil : Set := mkDepthStencil {
  ds_image : Handle;
  ds_memory : Handle;
  ds_view : Handle
}.

Record VkExtent2D : Set := mkExtent { ext_width : Z; ext_height : Z }.

Record Swapchain : Set := mkSwapchain {
  images : list Handle;
  views : list Handle;
  extent : VkExtent2D;
  sc_physicalDevice : Handle
}.

Record Device : Set := mkDevice {
  physicalDevice : Handle;
  logicalDevice : Handle
}.

Record Config : Set := mkConfig {
  AppName : string;
  Width : Z;
  Height : Z
}.

Record VkFramebufferCreateInfo : Set := mkFramebufferCreateInfo {
  fci_renderPass : Handle;
  fci_attachments : list Handle;
  fci_width : Z;
  fci_height : Z;
  fci_layers : Z
}.

Record VkBase : Set := mkVkBase {
  config : Config;
  window : Handle;
  instance : Handle;
  swapchain : Swapchain;
  device : Device;
  queue : Handle;
  semaphores : Semaphores;
  submitInfo : VkSubmitInfo;
  drawCmdBuffers : list Handle;
  currentBuffer : N;
  isFramebufferResized : bool;
  framebuffers : list Handle;
  depthStencil : DepthStencil;
  renderPass : Handle;
  pipelineCache : Handle;
  cmdPool : Handle;
  waitFences : list Handle;
  descriptorPool : Handle
}.

(** A default-constructed application object. *)
Definition VkBase_default : VkBase :=
  mkVkBase (mkConfig "" 0 0) 0%N 0%N
    (mkSwapchain [] [] (mkExtent 0 0) 0%N) (mkDevice 0%N 0%N) 0%N
    (mkSemaphores 0%N 0%N)
    (mkSubmitInfo NullPtr 0 NullPtr 0 NullPtr 0 NullPtr)
    [] 0%N false [] (mkDepthStencil 0%N 0%N 0%N) 0%N 0%N 0%N [] 0%N.

Definition set_config v a := mkVkBase v (window a) (instance a) (swapchain a) (device a) (queue a) (semaphores a) (submitInfo a) (drawCmdBuffers a) (currentBuffer a) (isFramebufferResized a) (framebuffers a) (depthStencil a) (renderPass a) (pipelineCache a) (cmdPool a) (waitFences a) (descriptorPool a).
Definition set_window v a := mkVkBase (config a) v (instance a) (swapchain a) (device a) (queue a) (semaphores a) (submitInfo a) (drawCmdBuffers a) (currentBuffer a) (isFramebufferResized a) (framebuffers a) (depthStencil a) (renderPass a) (pipelineCache a) (cmdPool a) (waitFences a) (descriptorPool a).
Definition set_instance v a := mkVkBase (config a) (window a) v (swapchain a) (device a) (queue a) (semaphores a) (submitInfo a) (drawCmdBuffers a) (currentBuffer a) (isFramebufferResized a) (framebuffers a) (depthStencil a) (renderPass a) (pipelineCache a) (cmdPool a) (waitFences a) (descriptorPool a).
Definition set_swapchain v a := mkVkBase (config a) (window a) (instance a) v (device a) (queue a) (semaphores a) (submitInfo a) (drawCmdBuffers a) (currentBuffer a) (isFramebufferResized a) (framebuffers a) (depthStencil a) (renderPass a) (pipelineCache a) (cmdPool a) (waitFences a) (descriptorPool a).
Definition set_device v a := mkVkBase (config a) (window a) (instance a) (swapchain a) v (queue a) (semaphores a) (submitInfo a) (drawCmdBuffers a) (currentBuffer a) (isFramebufferResized a) (framebuffers a) (depthStencil a) (renderPass a) (pipelineCache a) (cmdPool a) (waitFences a) (descriptorPool a).
Definition set_queue v a := mkVkBase (config a) (window a) (instance a) (swapchain a) (device a) v (semaphores a) (submitInfo a) (drawCmdBuffers a) (currentBuffer a) (isFramebufferResized a) (framebuffers a) (depthStencil a) (renderPass a) (pipelineCache a) (cmdPool a) (waitFences a) (descriptorPool a).
Definition set_semaphores v a := mkVkBase (config a) (window a) (instance a) (swapchain a) (device a) (queue a) v (submitInfo a) (drawCmdBuffers a) (currentBuffer a) (isFramebufferResized a) (framebuffers a) (depthStencil a) (renderPass a) (pipelineCache a) (cmdPool a) (waitFences a) (descriptorPool a).
Definition set_submitInfo v a := mkVkBase (config a) (window a) (instance a) (swapchain a) (device a) (queue a) (semaphores a) v (drawCmdBuffers a) (currentBuffer a) (isFramebufferResized a) (framebuffers a) (depthStencil a) (renderPass a) (pipelineCache a) (cmdPool a) (waitFences a) (descriptorPool a).
Definition set_drawCmdBuffers v a := mkVkBase (config a) (window a) (instance a) (swapchain a) (device a) (queue a) (semaphores a) (submitInfo a) v (currentBuffer a) (isFramebufferResized a) (framebuffers a) (depthStencil a) (renderPass a) (pipelineCache a) (cmdPool a) (waitFences a) (descriptorPool a).
Definition set_currentBuffer v a := mkVkBase (config a) (window a) (instance a) (swapchain a) (device a) (queue a) (semaphores a) (submitInfo a) (drawCmdBuffers a) v (isFramebufferResized a) (framebuffers a) (depthStencil a) (renderPass a) (pipelineCache a) (cmdPool a) (waitFences a) (descriptorPool a).
Definition set_isFramebufferResized v a := mkVkBase (config a) (window a) (instance a) (swapchain a) (device a) (queue a) (semaphores a) (submitInfo a) (drawCmdBuffers a) (currentBuffer a) v (framebuffers a) (depthStencil a) (renderPass a) (pipelineCache a) (cmdPool a) (waitFences a) (descriptorPool a).
Definition set_framebuffers v a := mkVkBase (config a) (window a) (instance a) (swapchain a) (device a) (queue a) (semaphores a) (submitInfo a) (drawCmdBuffers a) (currentBuffer a) (isFramebufferResized a) v (depthStencil a) (renderPass a) (pipelineCache a) (cmdPool a) (waitFences a) (descriptorPool a).
Definition set_depthStencil v a := mkVkBase (config a) (window a) (instance a) (swapchain a) (device a) (queue a) (semaphores a) (submitInfo a) (drawCmdBuffers a) (currentBuffer a) (isFramebufferResized a) (framebuffers a) v (renderPass a) (pipelineCache a) (cmdPool a) (waitFences a) (descriptorPool a).
Definition set_renderPass v a := mkVkBase (config a) (window a) (instance a) (swapchain a) (device a) (queue a) (semaphores a) (submitInfo a) (drawCmdBuffers a) (currentBuffer a) (isFramebufferResized a) (framebuffers a) (depthStencil a) v (pipelineCache a) (cmdPool a) (waitFences a) (descriptorPool a).
Definition set_pipelineCache v a := mkVkBase (config a) (window a) (instance a) (swapchain a) (device a) (queue a) (semaphores a) (submitInfo a) (drawCmdBuffers a) (currentBuffer a) (isFramebufferResized a) (framebuffers a) (depthStencil a) (renderPass a) v (cmdPool a) (waitFences a) (descriptorPool a).
Definition set_cmdPool v a := mkVkBase (config a) (window a) (instance a) (swapchain a) (device a) (queue a) (semaphores a) (submitInfo a) (drawCmdBuffers a) (currentBuffer a) (isFramebufferResized a) (framebuffers a) (depthStencil a) (renderPass a) (pipelineCache a) v (waitFences a) (descriptorPool a).
Definition set_waitFences v a := mkVkBase (config a) (window a) (instance a) (swapchain a) (device a) (queue a) (semaphores a) (submitInfo a) (drawCmdBuffers a) (currentBuffer a) (isFramebufferResized a) (framebuffers a) (depthStencil a) (renderPass a) (pipelineCache a) (cmdPool a) v (descriptorPool a).

(** ** The outside world *)

(** What one call of [Swapchain::Create] produced: how many images the
    surface gave and the extent it settled on, or [None] when the surface
    has no format or no present mode (a fatal assertion). *)
Definition SwapchainAnswer : Set := option (nat * VkExtent2D).

Record World : Type := mkWorld {
  (** successive answers of [glfwGetFramebufferSize] *)
  fbSizes : list (Z * Z);
  (** successive returns of [glfwWaitEvents]: [true] when the events it
      processed included a framebuffer resize, so [OnResized] ran *)
  windowEvents : list bool;
  (** successive answers of [Swapchain::AcquiredNextImage]: the status and
      the image index written through the out-parameter, if one was *)
  acquires : list (VkResult * option N);
  (** successive answers of [Swapchain::QueuePresent] *)
  presents : list VkResult;
  (** successive results of every other call whose [VkResult] the program
      inspects, in call order *)
  vkResults : list VkResult;
  (** successive answers of [Swapchain::Create] *)
  swapchainCreates : list SwapchainAnswer;
  (** what [vkEnumeratePhysicalDevices] reports *)
  physicalDevices : list Handle;
  (** what [CalcDeviceScore] computes for a device; finite [float] scores,
      each as the rational it denotes *)
  deviceScore : Handle -> Q;
  (** the framebuffer objects the driver holds, each with the parameters
      it was created from *)
  framebufferObjects : gmap Handle VkFramebufferCreateInfo;
  (** the next handle the driver hands out *)
  nextHandle : N;
  (** the build: [true] when the program was compiled with [NDEBUG]
      defined *)
  ndebug : bool
}.

Definition set_fbSizes v w := mkWorld v (windowEvents w) (acquires w) (presents w) (vkResults w) (swapchainCreates w) (physicalDevices w) (deviceScore w) (framebufferObjects w) (nextHandle w) (ndebug w).
Definition set_windowEvents v w := mkWorld (fbSizes w) v (acquires w) (presents w) (vkResults w) (swapchainCreates w) (physicalDevices w) (deviceScore w) (framebufferObjects w) (nextHandle w) (ndebug w).
Definition set_acquires v w := mkWorld (fbSizes w) (windowEvents w) v (presents w) (vkResults w) (swapchainCreates w) (physicalDevices w) (deviceScore w) (framebufferObjects w) (nextHandle w) (ndebug w).
Definition set_presents v w := mkWorld (fbSizes w) (windowEvents w) (acquires w) v (vkResults w) (swapchainCreates w) (physicalDevices w) (deviceScore w) (framebufferObjects w) (nextHandle w) (ndebug w).
Definition set_vkResults v w := mkWorld (fbSizes w) (windowEvents w) (acquires w) (presents w) v (swapchainCreates w) (physicalDevices w) (deviceScore w) (framebufferObjects w) (nextHandle w) (ndebug w).
Definition set_swapchainCreates v w := mkWorld (fbSizes w) (windowEvents w) (acquires w) (presents w) (vkResults w) v (physicalDevices w) (deviceScore w) (framebufferObjects w) (nextHandle w) (ndebug w).
Definition set_framebufferObjects v w := mkWorld (fbSizes w) (windowEvents w) (acquires w) (presents w) (vkResults w) (swapchainCreates w) (physicalDevices w) (deviceScore w) v (nextHandle w) (ndebug w).
Definition set_nextHandle v w := mkWorld (fbSizes w) (windowEvents w) (acquires w) (presents w) (vkResults w) (swapchainCreates w) (physicalDevices w) (deviceScore w) (framebufferObjects w) v (ndebug w).

(** The state of a run: the application object and what is left of the
    world's script. *)
Record St : Type := mkSt { app : VkBase; world : World }.

(** ** Events: the API calls of a run, in order *)

(** An event is listed when the call is made, with the arguments that
    matter here.  [glfwGetFramebufferSize] alone is listed when it returns,
    with the size it reported. *)
Inductive Event : Type :=
| EvGetFramebufferSize (width height : Z)
| EvWaitEvents
| EvCreateInstance (appName : string)
| EvDebugMessengerSetup
| EvEnumeratePhysicalDevices
| EvSwapchainInit (physical : Handle)
| EvDeviceInit (physical : Handle)
| EvCreateLogicalDevice (physical : Handle)
| EvGetDeviceQueue
| EvCreateSemaphore
| EvDestroySemaphore (semaphore : Handle)
| EvSwapchainCreate (width height : Z)
| EvSwapchainDestroy
| EvCreateCommandPool
| EvDestroyCommandPool (pool : Handle)
| EvAllocateCommandBuffers (count : nat)
| EvFreeCommandBuffers (buffers : list Handle)
| EvCreateFence
| EvDestroyFence (fence : Handle)
| EvImageCreate (width height : Z)
| EvImageViewCreate (image : Handle)
| EvDestroyImageView (view : Handle)
| EvDestroyImage (image : Handle)
| EvFreeMemory (memory : Handle)
| EvCreateRenderPass
| EvDestroyRenderPass (pass : Handle)
| EvCreatePipelineCache
| EvDestroyPipelineCache (cache : Handle)
| EvDestroyDescriptorPool (pool : Handle)
| EvCreateFramebuffer (info : VkFramebufferCreateInfo)
| EvDestroyFramebuffer (framebuffer : Handle)
| EvBuildCommandBuffers
| EvViewChanged
| EvAcquireNextImage
| EvQueueSubmit (info : VkSubmitInfo)
| EvQueuePresent (imageIndex : N)
| EvQueueWaitIdle
| EvDeviceWaitIdle
| EvDeviceDestroy
| EvDebugMessengerCleanup
| EvDestroyInstance
(** not an API call: the assignment [isFramebufferResized = false] *)
| EvResizeFlagCleared.

(** ** The monad of runs *)

Inductive Res (A : Type) : Type :=
| Done (a : A) (s : St)
| Fatal (s : St)
| Blocked (s : St).
Arguments Done {A} a s.
Arguments Fatal {A} s.
Arguments Blocked {A} s.

Definition M (A : Type) : Type := St -> list Event * Res A.

Definition ret {A} (a : A) : M A := fun s => ([], Done a s).

Definition bind {A B} (m : M A) (f : A -> M B) : M B :=
  fun s =>
    match m s with
    | (t, Done a s1) => let '(t', r) := f a s1 in (t ++ t', r)
    | (t, Fatal s1) => (t, Fatal s1)
    | (t, Blocked s1) => (t, Blocked s1)
    end.

Notation "'let*' x ':=' m 'in' k" := (bind m (fun x => k))
  (at level 10, x pattern, m at level 100, k at level 200).
Notation "m ';;' k" := (bind m (fun _ => k))
  (at level 100, k at level 200, right associativity).

Definition emit (e : Event) : M unit := fun s => ([e], Done tt s).
Definition fatal {A} : M A := fun s => ([], Fatal s).
Definition block {A} : M A := fun s => ([], Blocked s).
Definition gets {A} (f : VkBase -> A) : M A := fun s => ([], Done (f (app s)) s).
Definition modify (f : VkBase -> VkBase) : M unit :=
  fun s => ([], Done tt (mkSt (f (app s)) (world s))).
Definition asks {A} (f : World -> A) : M A := fun s => ([], Done (f (world s)) s).
Definition tell_world (f : World -> World) : M unit :=
  fun s => ([], Done tt (mkSt (app s) (f (world s)))).

(** The trace, the final state and the completion of a run. *)
Definition trace {A} (r : list Event * Res A) : list Event := fst r.
Definition final {A} (r : list Event * Res A) : St :=
  match snd r with Done _ s | Fatal s | Blocked s => s end.
Definition returned {A} (r : list Event * Res A) : bool :=
  match snd r with Done _ _ => true | _ => false end.

(** [for (auto &x : xs) body(x)] *)
Fixpoint for_each {A} (xs : list A) (body : A -> M unit) : M unit :=
  match xs with
  | [] => ret tt
  | x :: xs' => body x ;; for_each xs' body
  end.

(** A fresh handle from the driver. *)
Definition fresh : M Handle :=
  let* h := asks nextHandle in
  tell_world (set_nextHandle (N.succ h)) ;;
  ret h.

Fixpoint fresh_n (n : nat) : M (list Handle) :=
  match n with
  | O => ret []
  | S n' => let* h := fresh in let* hs := fresh_n n' in ret (h :: hs)
  end.

(** The next result code of the script, for a call that returns one the
    program looks at. *)
Definition next_vkResult : M VkResult :=
  let* rs := asks vkResults in
  match rs with
  | [] => block
  | r :: rs' => tell_world (set_vkResults rs') ;; ret r
  end.

(** ** Assertions *)

(** Modelled from the spec: the macro [VK_CHECK_RESULT] of [VK/Common.h],
    which is not among the sources.  Any status other than success is an
    unrecoverable error that ends the process at the point of detection. *)
Definition VK_CHECK_RESULT (r : VkResult) : M unit :=
  match r with VK_SUCCESS => ret tt | _ => fatal end.

(** Boost's [BOOST_ASSERT_MSG]: in a build that keeps assertions (no
    [NDEBUG]) a false condition ends the process; with [NDEBUG] the macro
    expands to nothing. *)
Definition BOOST_ASSERT_MSG (cond : bool) : M unit :=
  let* release := asks ndebug in
  if release then ret tt
  else if cond then ret tt else fatal.

(** ** [std::vector] and [std::multimap] *)

(** [v.resize(n)]: keep the first [n] elements, pad with null handles. *)
Definition vector_resize (n : nat) (v : list Handle) : list Handle :=
  take n v ++ replicate (n - length v) VK_NULL_HANDLE.

(** A [std::multimap<float, VkPhysicalDevice>] as its sequence of entries
    in iteration order: keys ascending, equal keys in insertion order. *)
Definition multimap : Type := list (Q * Handle).

(** [m.emplace(k, v)]: the entry goes after every entry whose key is not
    greater than [k]. *)
Fixpoint multimap_emplace (k : Q) (v : Handle) (m : multimap) : multimap :=
  match m with
  | [] => [(k, v)]
  | (k', v') :: m' =>
      if Qle_bool k' k then (k', v') :: multimap_emplace k v m'
      else (k, v) :: (k', v') :: m'
  end.

(** [*m.rbegin()]: the last entry. *)
Definition multimap_rbegin (m : multimap) : option (Q * Handle) := last m.

(** ** GLFW *)

Definition OnResized : M unit := modify (set_isFramebufferResized true).

Definition glfwGetFramebufferSize : M (Z * Z) :=
  let* sizes := asks fbSizes in
  match sizes with
  | [] => block
  | (w, h) :: rest =>
      tell_world (set_fbSizes rest) ;;
      emit (EvGetFramebufferSize w h) ;;
      ret (w, h)
  end.

(** [glfwWaitEvents] sleeps until an event is queued, then runs the
    callbacks of the queued events; [OnResized] is one of them. *)
Definition glfwWaitEvents : M unit :=
  emit EvWaitEvents ;;
  let* evs := asks windowEvents in
  match evs with
  | [] => block
  | resized :: rest =>
      tell_world (set_windowEvents rest) ;;
      if resized then OnResized else ret tt
  end.

(** ** Vulkan calls *)

(** A call whose result the program inspects. *)
Definition vk_call (e : Event) : M VkResult := emit e ;; next_vkResult.

(** The program does not look at the result of [vkDeviceWaitIdle]. *)
Definition vkDeviceWaitIdle : M unit := emit EvDeviceWaitIdle.

Definition vkGetDeviceQueue : M unit :=
  emit EvGetDeviceQueue ;;
  let* h := fresh in
  modify (set_queue h).

Definition vkCreateFramebuffer (info : VkFramebufferCreateInfo) (i : nat) : M VkResult :=
  let* r := vk_call (EvCreateFramebuffer info) in
  match r with
  | VK_SUCCESS =>
      let* h := fresh in
      tell_world (fun w => set_framebufferObjects (<[h := info]> (framebufferObjects w)) w) ;;
      modify (fun a => set_framebuffers (<[i := h]> (framebuffers a)) a) ;;
      ret r
  | _ => ret r
  end.

Definition vkDestroyFramebuffer (fb : Handle) : M unit :=
  emit (EvDestroyFramebuffer fb) ;;
  tell_world (fun w => set_framebufferObjects (delete fb (framebufferObjects w)) w).

(** ** The swapchain *)

(** Modelled from the spec: [Swapchain::Create] of [VK/Swapchain.h], which
    is not among the sources.  It replaces the chain by a new one: the
    surface decides the number of images and the extent, there is one view
    per image, and a surface with no format or no present mode is a fatal
    assertion. *)
Definition Swapchain_Create (width height : Z) : M unit :=
  emit (EvSwapchainCreate width height) ;;
  let* answers := asks swapchainCreates in
  match answers with
  | [] => block
  | None :: _ => fatal
  | Some (n, ext) :: rest =>
      tell_world (set_swapchainCreates rest) ;;
      let* imgs := fresh_n n in
      let* vws := fresh_n n in
      modify (fun a =>
        set_swapchain (mkSwapchain imgs vws ext (sc_physicalDevice (swapchain a))) a)
  end.

(** Modelled from the spec: [Swapchain::AcquiredNextImage].  It returns the
    status of the acquisition and writes the index of the acquired image
    through its last argument, [&currentBuffer]. *)
Definition Swapchain_AcquiredNextImage : M VkResult :=
  emit EvAcquireNextImage ;;
  let* answers := asks acquires in
  match answers with
  | [] => block
  | (r, index) :: rest =>
      tell_world (set_acquires rest) ;;
      match index with
      | Some i => modify (set_currentBuffer i)
      | None => ret tt
      end ;;
      ret r
  end.

(** Modelled from the spec: [Swapchain::QueuePresent], which returns the
    status of the presentation of image [imageIndex]. *)
Definition Swapchain_QueuePresent (imageIndex : N) : M VkResult :=
  emit (EvQueuePresent imageIndex) ;;
  let* answers := asks presents in
  match answers with
  | [] => block
  | r :: rest => tell_world (set_presents rest) ;; ret r
  end.

(** Modelled from the spec: [Swapchain::Init], which binds the chain to the
    chosen physical device and creates the surface of the window. *)
Definition Swapchain_Init (physical : Handle) : M unit :=
  emit (EvSwapchainInit physical) ;;
  modify (fun a =>
    set_swapchain (mkSwapchain (images (swapchain a)) (views (swapchain a))
                     (extent (swapchain a)) physical) a).

(** Modelled from the spec: [Swapchain::Destroy]. *)
Definition Swapchain_Destroy : M unit := emit EvSwapchainDestroy.

(** ** The device *)

(** Modelled from the spec: [Device::Init] records the physical device. *)
Definition Device_Init (physical : Handle) : M unit :=
  emit (EvDeviceInit physical) ;;
  modify (fun a => set_device (mkDevice physical (logicalDevice (device a))) a).

(** Modelled from the spec: [Device::CreateLogicalDevice] creates the
    logical device of the recorded physical device and returns the status. *)
Definition Device_CreateLogicalDevice : M VkResult :=
  let* d := gets device in
  let* r := vk_call (EvCreateLogicalDevice (physicalDevice d)) in
  match r with
  | VK_SUCCESS =>
      let* h := fresh in
      modify (set_device (mkDevice (physicalDevice d) h)) ;;
      ret r
  | _ => ret r
  end.

(** Modelled from the spec: [Image::Create] and [ImageView::Create]; a
    failure of the underlying API calls is fatal. *)
Definition Image_Create (width height : Z) : M (Handle * Handle) :=
  let* r := vk_call (EvImageCreate width height) in
  VK_CHECK_RESULT r ;;
  let* image := fresh in
  let* memory := fresh in
  ret (image, memory).

Definition ImageView_Create (image : Handle) : M Handle :=
  let* r := vk_call (EvImageViewCreate image) in
  VK_CHECK_RESULT r ;;
  fresh.

(** ** [VkBase]: creation and destruction of the fixed objects *)

(** [0.0000001f], the nearest [float]: 14073749 * 2^-47. *)
Definition score_threshold : Q := 14073749 # (2 ^ 47).

(** [CreateInstance] fills the create-info (application name, the
    extensions GLFW asks for, the validation layers) and creates the
    instance; the call and the check of its result are kept. *)
Definition CreateInstance (appName : string) : M unit :=
  let* r := vk_call (EvCreateInstance appName) in
  match r with
  | VK_SUCCESS => let* h := fresh in modify (set_instance h)
  | _ => ret tt
  end ;;
  VK_CHECK_RESULT r.

(** The log line under [#if !defined(NDEBUG)] is not kept. *)
Definition SelectPhysicalDevice : M Handle :=
  emit EvEnumeratePhysicalDevices ;;
  let* size := asks (fun w => length (physicalDevices w)) in
  BOOST_ASSERT_MSG (negb (Nat.eqb size 0)) ;;
  emit EvEnumeratePhysicalDevices ;;
  let* devices := asks physicalDevices in
  let* CalcDeviceScore := asks deviceScore in
  let scores :=
    foldl (fun m dev => multimap_emplace (CalcDeviceScore dev) dev m) [] devices in
  match multimap_rbegin scores with
  | Some (best, dev) =>
      BOOST_ASSERT_MSG (Qle_bool score_threshold best) ;;
      ret dev
  | None =>
      (* [devices] is empty: reached with [NDEBUG] only, where the first
         assertion is gone.  [scores.rbegin()] of an empty map is then
         dereferenced, which is undefined behaviour; the run ends here and
         nothing is stated about what would follow. *)
      fatal
  end.

Definition CreateSwapchain (w h : Z) : M unit := Swapchain_Create w h.

Definition CreatePipelineCache : M unit :=
  let* r := vk_call EvCreatePipelineCache in
  match r with
  | VK_SUCCESS => let* h := fresh in modify (set_pipelineCache h)
  | _ => ret tt
  end ;;
  VK_CHECK_RESULT r.

Definition CreateCommandPool : M unit :=
  let* r := vk_call EvCreateCommandPool in
  match r with
  | VK_SUCCESS => let* h := fresh in modify (set_cmdPool h)
  | _ => ret tt
  end ;;
  VK_CHECK_RESULT r.

Definition vkAllocateCommandBuffers (count : nat) : M VkResult :=
  let* r := vk_call (EvAllocateCommandBuffers count) in
  match r with
  | VK_SUCCESS =>
      let* hs := fresh_n count in
      modify (set_drawCmdBuffers hs) ;;
      ret r
  | _ => ret r
  end.

Definition CreateCommandBuffers : M unit :=
  let* n := gets (fun a => length (images (swapchain a))) in
  modify (fun a => set_drawCmdBuffers (vector_resize n (drawCmdBuffers a)) a) ;;
  let* count := gets (fun a => length (drawCmdBuffers a)) in
  let* r := vkAllocateCommandBuffers count in
  VK_CHECK_RESULT r.

Definition DestroyCommandBuffers : M unit :=
  let* bufs := gets drawCmdBuffers in
  emit (EvFreeCommandBuffers bufs).

Definition vkCreateSemaphore (store : Handle -> Semaphores -> Semaphores) : M VkResult :=
  let* r := vk_call EvCreateSemaphore in
  match r with
  | VK_SUCCESS =>
      let* h := fresh in
      modify (fun a => set_semaphores (store h (semaphores a)) a) ;;
      ret r
  | _ => ret r
  end.

Definition CreateSemaphores : M unit :=
  let* r := vkCreateSemaphore (fun h s => mkSemaphores h (renderComplete s)) in
  VK_CHECK_RESULT r ;;
  let* r := vkCreateSemaphore (fun h s => mkSemaphores (presentComplete s) h) in
  VK_CHECK_RESULT r ;;
  (* submitInfo = Initializer::SubmitInfo(), then the five assignments *)
  modify (set_submitInfo
    (mkSubmitInfo AddrSubmitPipelineStages 1 AddrPresentComplete
                  1 AddrRenderComplete 0 NullPtr)).

Fixpoint CreateFence_loop (n i : nat) : M unit :=
  match n with
  | O => ret tt
  | S n' =>
      let* r := vk_call EvCreateFence in
      match r with
      | VK_SUCCESS =>
          let* h := fresh in
          modify (fun a => set_waitFences (<[i := h]> (waitFences a)) a)
      | _ => ret tt
      end ;;
      VK_CHECK_RESULT r ;;
      CreateFence_loop n' (S i)
  end.

Definition CreateFence : M unit :=
  let* n := gets (fun a => length (drawCmdBuffers a)) in
  modify (fun a => set_waitFences (vector_resize n (waitFences a)) a) ;;
  let* count := gets (fun a => length (waitFences a)) in
  CreateFence_loop count 0.

Definition DestroySyncObjects : M unit :=
  let* fences := gets waitFences in
  for_each fences (fun fence => emit (EvDestroyFence fence)) ;;
  let* sem := gets semaphores in
  emit (EvDestroySemaphore (renderComplete sem)) ;;
  emit (EvDestroySemaphore (presentComplete sem)).

Definition DestroyDepthStencil : M unit :=
  let* ds := gets depthStencil in
  emit (EvDestroyImageView (ds_view ds)) ;;
  emit (EvDestroyImage (ds_image ds)) ;;
  emit (EvFreeMemory (ds_memory ds)).

(** [FindSupportedDepthFormat] is a query of the device; the format it
    gives is passed on to the two creations and is not kept here. *)
Definition SetupDepthStencil : M unit :=
  let* ext := gets (fun a => extent (swapchain a)) in
  let* (image, memory) := Image_Create (ext_width ext) (ext_height ext) in
  modify (fun a => set_depthStencil (mkDepthStencil image memory (ds_view (depthStencil a))) a) ;;
  let* view := ImageView_Create image in
  modify (fun a =>
    set_depthStencil (mkDepthStencil (ds_image (depthStencil a))
                        (ds_memory (depthStencil a)) view) a).

(** The loop of [SetupFramebuffers]: [n] iterations are left, the next one
    is iteration [i].  [attachments[0]] is rewritten before each call;
    [create] points to the array, so each call sees the current view. *)
Fixpoint SetupFramebuffers_loop (pass depthView : Handle) (ext : VkExtent2D)
    (n i : nat) : M unit :=
  match n with
  | O => ret tt
  | S n' =>
      let* vws := gets (fun a => views (swapchain a)) in
      let info :=
        mkFramebufferCreateInfo pass [default VK_NULL_HANDLE (vws !! i); depthView]
          (ext_width ext) (ext_height ext) 1 in
      let* r := vkCreateFramebuffer info i in
      VK_CHECK_RESULT r ;;
      SetupFramebuffers_loop pass depthView ext n' (S i)
  end.

Definition SetupFramebuffers : M unit :=
  let* depthView := gets (fun a => ds_view (depthStencil a)) in
  let* pass := gets renderPass in
  let* ext := gets (fun a => extent (swapchain a)) in
  let* n := gets (fun a => length (views (swapchain a))) in
  modify (fun a => set_framebuffers (vector_resize n (framebuffers a)) a) ;;
  let* count := gets (fun a => length (framebuffers a)) in
  SetupFramebuffers_loop pass depthView ext count 0.

(** [SetupRenderPass] describes two attachments, one subpass and two
    subpass dependencies, and creates the render pass from them; the call
    and the check of its result are kept. *)
Definition SetupRenderPass : M unit :=
  let* r := vk_call EvCreateRenderPass in
  match r with
  | VK_SUCCESS => let* h := fresh in modify (set_renderPass h)
  | _ => ret tt
  end ;;
  VK_CHECK_RESULT r.

(** The virtual hooks, as [VkBase] defines them: empty bodies.  The call
    is kept in the trace. *)
Definition BuildCommandBuffers : M unit := emit EvBuildCommandBuffers.
Definition ViewChanged : M unit := emit EvViewChanged.

Definition OnPostInit : M unit :=
  let* width := gets (fun a => Width (config a)) in
  let* height := gets (fun a => Height (config a)) in
  CreateSwapchain width height ;;
  CreateCommandPool ;;
  CreateCommandBuffers ;;
  CreateFence ;;
  SetupDepthStencil ;;
  SetupRenderPass ;;
  CreatePipelineCache ;;
  SetupFramebuffers.

(** [debugMessenger.Setup(instance)] and [debugMessenger.Cleanup(instance)],
    both under [#if !defined(NDEBUG)]. *)
Definition DebugMessenger_Setup : M unit :=
  let* release := asks ndebug in
  if release then ret tt else emit EvDebugMessengerSetup.

Definition DebugMessenger_Cleanup : M unit :=
  let* release := asks ndebug in
  if release then ret tt else emit EvDebugMessengerCleanup.

Definition OnInit (conf : Config) (hwnd : Handle) : M unit :=
  modify (set_config conf) ;;
  modify (set_window hwnd) ;;
  let* appName := gets (fun a => AppName (config a)) in
  CreateInstance appName ;;
  DebugMessenger_Setup ;;
  let* physical := SelectPhysicalDevice in
  Swapchain_Init physical ;;
  Device_Init physical ;;
  let* r := Device_CreateLogicalDevice in
  VK_CHECK_RESULT r ;;
  vkGetDeviceQueue ;;
  CreateSemaphores ;;
  OnPostInit.

Definition OnPreDestroy : M unit := ret tt.

Definition OnDestroy : M unit :=
  OnPreDestroy ;;
  Swapchain_Destroy ;;
  let* pool := gets descriptorPool in
  (if N.eqb pool VK_NULL_HANDLE then ret tt else emit (EvDestroyDescriptorPool pool)) ;;
  DestroyCommandBuffers ;;
  let* pass := gets renderPass in
  emit (EvDestroyRenderPass pass) ;;
  let* fbs := gets framebuffers in
  for_each fbs vkDestroyFramebuffer ;;
  DestroyDepthStencil ;;
  let* cache := gets pipelineCache in
  emit (EvDestroyPipelineCache cache) ;;
  let* pool := gets cmdPool in
  emit (EvDestroyCommandPool pool) ;;
  DestroySyncObjects ;;
  emit EvDeviceDestroy ;;
  DebugMessenger_Cleanup ;;
  emit EvDestroyInstance.

(** ** [VkBase]: the resize path *)

(** The loop [while (width == 0 || height == 0)] of [ResizeWindow].  Every
    iteration takes one answer of [glfwGetFramebufferSize] from the script,
    so a fuel equal to the number of answers left is never the reason the
    loop stops (lemma [while_minimized_fuel] below). *)
Fixpoint while_minimized (fuel : nat) (width height : Z) : M (Z * Z) :=
  if (width =? 0) || (height =? 0) then
    match fuel with
    | O => block
    | S fuel' =>
        let* (w, h) := glfwGetFramebufferSize in
        glfwWaitEvents ;;
        while_minimized fuel' w h
    end
  else ret (width, height).

Definition ResizeWindow : M unit :=
  let* (width, height) := glfwGetFramebufferSize in
  let* fuel := asks (fun w => length (fbSizes w)) in
  let* (width, height) := while_minimized fuel width height in
  vkDeviceWaitIdle ;;
  Swapchain_Create width height ;;
  DestroyDepthStencil ;;
  SetupDepthStencil ;;
  let* fbs := gets framebuffers in
  for_each fbs vkDestroyFramebuffer ;;
  SetupFramebuffers ;;
  DestroyCommandBuffers ;;
  CreateCommandBuffers ;;
  BuildCommandBuffers ;;
  vkDeviceWaitIdle ;;
  ViewChanged.

(** ** [VkBase]: the frame *)

Definition is_stale (result : VkResult) : bool :=
  VkResult_eqb result VK_ERROR_OUT_OF_DATE_KHR || VkResult_eqb result VK_SUBOPTIMAL_KHR.

Definition PrepareFrame : M unit :=
  let* result := Swapchain_AcquiredNextImage in
  if is_stale result then
    ResizeWindow (* followed by [return], the last statement of the body *)
  else
    VK_CHECK_RESULT result.

Definition vkQueueSubmit : M VkResult :=
  let* info := gets submitInfo in
  vk_call (EvQueueSubmit info).

Definition vkQueueWaitIdle : M VkResult := vk_call EvQueueWaitIdle.

Definition SubmitFrame : M unit :=
  let* index := gets currentBuffer in
  let* result := Swapchain_QueuePresent index in
  let* resized := gets isFramebufferResized in
  if is_stale result || resized then
    modify (set_isFramebufferResized false) ;;
    emit EvResizeFlagCleared ;;
    ResizeWindow
  else
    VK_CHECK_RESULT result ;;
    let* r := vkQueueWaitIdle in
    VK_CHECK_RESULT r.

Definition RenderFrame : M unit :=
  PrepareFrame ;;
  modify (fun a =>
    let si := submitInfo a in
    set_submitInfo
      (mkSubmitInfo (pWaitDstStageMask si) (waitSemaphoreCount si) (pWaitSemaphores si)
         (signalSemaphoreCount si) (pSignalSemaphores si)
         1 (AddrDrawCmdBuffer (currentBuffer a))) a) ;;
  let* r := vkQueueSubmit in
  VK_CHECK_RESULT r ;;
  SubmitFrame.

Definition OnRender : M unit := RenderFrame.

Definition WaitIdle : M unit := vkDeviceWaitIdle.

(** [n] successive calls of [OnRender], as the application's main loop
    makes them. *)
Fixpoint frames (n : nat) : M unit :=
  match n with
  | O => ret tt
  | S n' => OnRender ;; frames n'
  end.

(** * Reasoning about runs *)

(** ** Running a [bind] whose head is a primitive *)

Lemma bind_ret {A B} (a : A) (f : A -> M B) s : bind (ret a) f s = f a s.
Proof. unfold bind, ret. destruct (f a s) as [t r]. reflexivity. Qed.

Lemma bind_gets {A B} (g : VkBase -> A) (f : A -> M B) s :
  bind (gets g) f s = f (g (app s)) s.
Proof. unfold bind, gets. destruct (f _ s) as [t r]. reflexivity. Qed.

Lemma bind_asks {A B} (g : World -> A) (f : A -> M B) s :
  bind (asks g) f s = f (g (world s)) s.
Proof. unfold bind, asks. destruct (f _ s) as [t r]. reflexivity. Qed.

Lemma bind_modify {B} (g : VkBase -> VkBase) (f : unit -> M B) s :
  bind (modify g) f s = f tt (mkSt (g (app s)) (world s)).
Proof. unfold bind, modify. destruct (f _ _) as [t r]. reflexivity. Qed.

Lemma bind_tell_world {B} (g : World -> World) (f : unit -> M B) s :
  bind (tell_world g) f s = f tt (mkSt (app s) (g (world s))).
Proof. unfold bind, tell_world. destruct (f _ _) as [t r]. reflexivity. Qed.

Lemma bind_emit {B} (e : Event) (f : unit -> M B) s :
  bind (emit e) f s = (e :: trace (f tt s), snd (f tt s)).
Proof. unfold bind, emit, trace. destruct (f _ _) as [t r]. reflexivity. Qed.

Lemma bind_fatal {A B} (f : A -> M B) s : bind fatal f s = ([], Fatal s).
Proof. reflexivity. Qed.

Lemma bind_block {A B} (f : A -> M B) s : bind block f s = ([], Blocked s).
Proof. reflexivity. Qed.

Lemma bind_assoc {A B C} (m : M A) (f : A -> M B) (g : B -> M C) s :
  bind (bind m f) g s = bind m (fun a => bind (f a) g) s.
Proof.
  unfold bind. destruct (m s) as [t [a s1 | s1 | s1]]; try reflexivity.
  destruct (f a s1) as [t1 [b s2 | s2 | s2]]; try reflexivity.
  destruct (g b s2) as [t2 r]. rewrite app_assoc. reflexivity.
Qed.

(** The trace and the result of a [bind], from those of its parts. *)
Lemma bind_run {A B} (m : M A) (f : A -> M B) s :
  bind m f s =
    match snd (m s) with
    | Done a s1 => (trace (m s) ++ trace (f a s1), snd (f a s1))
    | Fatal s1 => (trace (m s), Fatal s1)
    | Blocked s1 => (trace (m s), Blocked s1)
    end.
Proof.
  unfold bind, trace. destruct (m s) as [t [a s1 | s1 | s1]]; try reflexivity.
  simpl. destruct (f a s1); reflexivity.
Qed.

Lemma bind_Done {A B} (m : M A) (f : A -> M B) s t b s' :
  bind m f s = (t, Done b s') ->
  exists t1 a s1 t2,
    m s = (t1, Done a s1) /\ f a s1 = (t2, Done b s') /\ t = t1 ++ t2.
Proof.
  unfold bind. destruct (m s) as [t1 [a s1 | s1 | s1]]; try discriminate.
  destruct (f a s1) as [t2 r] eqn:E. intros [= <- ->].
  exists t1, a, s1, t2. auto.
Qed.

Lemma bind_ext {A B} (m : M A) (f g : A -> M B) s :
  (forall a s1, f a s1 = g a s1) -> bind m f s = bind m g s.
Proof.
  intros H. unfold bind. destruct (m s) as [t [a s1 | s1 | s1]]; try reflexivity.
  rewrite H. reflexivity.
Qed.

Lemma bind_Done_intro {A B} (m : M A) (f : A -> M B) s t1 a s1 t2 r :
  m s = (t1, Done a s1) -> f a s1 = (t2, r) -> bind m f s = (t1 ++ t2, r).
Proof. unfold bind. intros -> ->. reflexivity. Qed.

Lemma run_eta {A} (x : list Event * Res A) : x = (trace x, snd x).
Proof. destruct x; reflexivity. Qed.

Lemma cons_run_Done {A} (e : Event) (x : list Event * Res A) t a s' :
  (e :: trace x, snd x) = (t, Done a s') ->
  exists t0, t = e :: t0 /\ x = (t0, Done a s').
Proof. destruct x as [t0 r]. simpl. intros [= <- ->]. eauto. Qed.

Create Rewrite HintDb run.
#[local] Hint Rewrite @bind_ret @bind_gets @bind_asks @bind_modify @bind_tell_world
  @bind_emit @bind_fatal @bind_block @bind_assoc : run.

(** Primitives that end a block, where no [bind] follows. *)
Lemma run_ret {A} (a : A) s : ret a s = ([], Done a s).
Proof. reflexivity. Qed.
Lemma run_emit e s : emit e s = ([e], Done tt s).
Proof. reflexivity. Qed.
Lemma run_modify g s : modify g s = ([], Done tt (mkSt (g (app s)) (world s))).
Proof. reflexivity. Qed.
Lemma run_fatal {A} s : @fatal A s = ([], Fatal s).
Proof. reflexivity. Qed.
Lemma run_block {A} s : @block A s = ([], Blocked s).
Proof. reflexivity. Qed.

#[local] Hint Rewrite @run_ret run_emit run_modify @run_fatal @run_block : run.

(** ** Taking apart a run that returned *)

Create Rewrite HintDb inv.
#[local] Hint Rewrite @bind_ret @bind_gets @bind_asks @bind_modify @bind_tell_world
  @bind_fatal @bind_block @bind_assoc @run_ret run_modify @run_fatal @run_block : inv.

Lemma bind_emit_Done {B} e (f : unit -> M B) s t b s' :
  bind (emit e) f s = (t, Done b s') ->
  exists t0, t = e :: t0 /\ f tt s = (t0, Done b s').
Proof. rewrite bind_emit. apply cons_run_Done. Qed.

Ltac state_simpl H :=
  cbn [app world fbSizes windowEvents acquires presents vkResults swapchainCreates
       physicalDevices deviceScore framebufferObjects nextHandle ndebug
       set_fbSizes set_windowEvents set_acquires set_presents set_vkResults
       set_swapchainCreates set_framebufferObjects set_nextHandle] in H.

(** Run a hypothesis [H : m s = (t, Done a s')] through the primitives at
    the head of [m], splitting on what the script answered. *)
Ltac run_inv H :=
  repeat first
    [ progress (autorewrite with inv in H)
    | progress (state_simpl H)
    | discriminate H
    | match goal with
      | Hb : ndebug (world ?s) = _ |- _ =>
          match type of H with context [ndebug (world s)] => rewrite Hb in H end
      end
    | let t0 := fresh "t" in
      apply bind_emit_Done in H; destruct H as (t0 & -> & H)
    | match type of H with
      | bind (match ?x with _ => _ end) _ _ = _ => destruct x eqn:?
      | (match ?x with _ => _ end) _ = _ => destruct x eqn:?
      | emit _ _ = _ => rewrite run_emit in H
      end ].

(** Split [H : bind m f s = (t, Done b s')] at its head [m], whose run is
    named [H1]. *)
Ltac bind_inv H H1 :=
  let t1 := fresh "t" in
  let a := fresh "a" in
  let s1 := fresh "s" in
  let t2 := fresh "t" in
  apply bind_Done in H; destruct H as (t1 & a & s1 & t2 & H1 & H & ->);
  try (match type of a with unit => destruct a end).

(** ** What every run of a computation keeps

    [preserves R E m]: whatever the world answers and however the run
    ends, the final state is related to the first by [R] and every event
    of the trace satisfies [E]. *)

Section Preserves.
Context (R : St -> St -> Prop) `{!PreOrder R} (E : Event -> Prop).

Definition preserves {A} (m : M A) : Prop :=
  forall s, R s (final (m s)) /\ Forall E (trace (m s)).

Lemma preserves_ret {A} (a : A) : preserves (ret a).
Proof. intros s. split; [reflexivity | constructor]. Qed.

Lemma preserves_fatal {A} : preserves (@fatal A).
Proof. intros s. split; [reflexivity | constructor]. Qed.

Lemma preserves_block {A} : preserves (@block A).
Proof. intros s. split; [reflexivity | constructor]. Qed.

Lemma preserves_gets {A} (g : VkBase -> A) : preserves (gets g).
Proof. intros s. split; [reflexivity | constructor]. Qed.

Lemma preserves_asks {A} (g : World -> A) : preserves (asks g).
Proof. intros s. split; [reflexivity | constructor]. Qed.

Lemma preserves_emit (e : Event) : E e -> preserves (emit e).
Proof. intros He s. split; [reflexivity | repeat constructor; exact He]. Qed.

Lemma preserves_modify (g : VkBase -> VkBase) :
  (forall s, R s (mkSt (g (app s)) (world s))) -> preserves (modify g).
Proof. intros Hg s. split; [apply Hg | constructor]. Qed.

Lemma preserves_tell_world (g : World -> World) :
  (forall s, R s (mkSt (app s) (g (world s)))) -> preserves (tell_world g).
Proof. intros Hg s. split; [apply Hg | constructor]. Qed.

Lemma preserves_bind {A B} (m : M A) (f : A -> M B) :
  preserves m -> (forall a, preserves (f a)) -> preserves (bind m f).
Proof.
  intros Hm Hf s. destruct (Hm s) as [HR HE].
  rewrite bind_run. unfold final, trace in *.
  destruct (m s) as [t [a s1 | s1 | s1]]; simpl in *; auto.
  destruct (Hf a s1) as [HR' HE']. unfold final, trace in *.
  destruct (f a s1) as [t' r']; simpl in *.
  split; [etransitivity; eassumption | apply Forall_app; auto].
Qed.

Lemma preserves_for_each {A} (xs : list A) (body : A -> M unit) :
  (forall x, preserves (body x)) -> preserves (for_each xs body).
Proof.
  intros Hb. induction xs as [| x xs IH]; simpl.
  - apply preserves_ret.
  - apply preserves_bind; auto.
Qed.
End Preserves.

Lemma preserves_weaken (R R' : St -> St -> Prop) (E E' : Event -> Prop)
    {A} (m : M A) :
  (forall s s', R s s' -> R' s s') -> (forall e, E e -> E' e) ->
  preserves R E m -> preserves R' E' m.
Proof.
  intros HR HE Hm s. destruct (Hm s) as [H1 H2]. split; [auto |].
  eapply Forall_impl; eauto.
Qed.

(** One step of a proof of [preserves], by the shape of the computation. *)
Ltac preserves_step :=
  lazymatch goal with
  | |- PreOrder _ => exact _
  | |- forall _, _ => intros ?
  | |- preserves _ _ (bind _ _) => apply preserves_bind
  | |- preserves _ _ (ret _) => apply preserves_ret
  | |- preserves _ _ fatal => apply preserves_fatal
  | |- preserves _ _ block => apply preserves_block
  | |- preserves _ _ (gets _) => apply preserves_gets
  | |- preserves _ _ (asks _) => apply preserves_asks
  | |- preserves _ _ (emit _) => apply preserves_emit
  | |- preserves _ _ (modify _) => apply preserves_modify
  | |- preserves _ _ (tell_world _) => apply preserves_tell_world
  | |- preserves _ _ (for_each _ _) => apply preserves_for_each
  | |- preserves _ _ (match ?x with _ => _ end) => destruct x
  | |- preserves _ _ (let _ := _ in _) => cbv zeta
  end.

(** The projections of the state that a computation leaves alone. *)
Definition same_on {X} (proj : St -> X) (s s' : St) : Prop := proj s' = proj s.

#[local] Instance same_on_preorder {X} (proj : St -> X) : PreOrder (same_on proj).
Proof.
  split.
  - intros s. reflexivity.
  - intros s1 s2 s3 H1 H2. unfold same_on in *. congruence.
Qed.

(** ** What the resize path keeps *)

(** The members that [ResizeWindow] never assigns. *)
Definition kept_by_resize (a : VkBase) :=
  (config a, window a, instance a, device a, queue a, semaphores a,
   submitInfo a, currentBuffer a, renderPass a, pipelineCache a, cmdPool a,
   waitFences a, descriptorPool a).

(** [ResizeWindow] keeps those members, and it never clears the resize
    flag (a window event received while it waits may set it). *)
Definition resize_frame (s s' : St) : Prop :=
  kept_by_resize (app s') = kept_by_resize (app s) /\
  (isFramebufferResized (app s) = true -> isFramebufferResized (app s') = true).

#[local] Instance resize_frame_preorder : PreOrder resize_frame.
Proof.
  split.
  - intros s. split; auto.
  - intros s1 s2 s3 [H1 H1'] [H2 H2']. split; [congruence | auto].
Qed.

(** The calls [ResizeWindow] can make. *)
Definition resize_event (e : Event) : bool :=
  match e with
  | EvGetFramebufferSize _ _ | EvWaitEvents | EvDeviceWaitIdle
  | EvSwapchainCreate _ _
  | EvDestroyImageView _ | EvDestroyImage _ | EvFreeMemory _
  | EvImageCreate _ _ | EvImageViewCreate _
  | EvDestroyFramebuffer _ | EvCreateFramebuffer _
  | EvFreeCommandBuffers _ | EvAllocateCommandBuffers _
  | EvBuildCommandBuffers | EvViewChanged => true
  | _ => false
  end.

Create HintDb frame.

(** Unfold the functions of the program that are not loops. *)
Ltac unfold_program :=
  unfold OnRender, RenderFrame, SubmitFrame, PrepareFrame, ResizeWindow,
    OnInit, OnPostInit, OnDestroy, CreateInstance, CreateSwapchain,
    CreatePipelineCache, CreateCommandPool, CreateCommandBuffers,
    DestroyCommandBuffers, CreateSemaphores, CreateFence, DestroySyncObjects,
    DestroyDepthStencil, SetupDepthStencil, SetupFramebuffers, SetupRenderPass,
    OnPreDestroy, WaitIdle, BuildCommandBuffers, ViewChanged, vkQueueSubmit, vkQueueWaitIdle,
    vkAllocateCommandBuffers, vkCreateSemaphore, vkCreateFramebuffer,
    vkDestroyFramebuffer, vkDeviceWaitIdle, vkGetDeviceQueue,
    Swapchain_Create, Swapchain_AcquiredNextImage, Swapchain_QueuePresent,
    Swapchain_Init, Swapchain_Destroy, Device_Init, Device_CreateLogicalDevice,
    Image_Create, ImageView_Create, glfwGetFramebufferSize, glfwWaitEvents,
    OnResized, SelectPhysicalDevice, DebugMessenger_Setup, DebugMessenger_Cleanup,
    vk_call, next_vkResult, fresh, VK_CHECK_RESULT, BOOST_ASSERT_MSG.

Ltac frame_side :=
  lazymatch goal with
  | |- resize_frame _ _ => split; [reflexivity | simpl; auto]
  | |- same_on _ _ _ => reflexivity
  | |- @eq bool _ _ => reflexivity
  | |- _ => idtac
  end.

Ltac preserves_steps :=
  repeat first [ preserves_step; frame_side | solve [auto with frame] ].

Ltac preserves_auto := unfold_program; preserves_steps.

Abbreviation resize_ok := (preserves resize_frame (fun e => resize_event e = true)).

Lemma resize_ok_fresh_n n : resize_ok (fresh_n n).
Proof. induction n; simpl; preserves_auto. Qed.
#[local] Hint Resolve resize_ok_fresh_n : frame.

Lemma resize_ok_while_minimized fuel w h : resize_ok (while_minimized fuel w h).
Proof.
  revert w h. induction fuel as [| fuel IH]; intros w h; simpl; preserves_auto.
Qed.
#[local] Hint Resolve resize_ok_while_minimized : frame.

Lemma resize_ok_SetupFramebuffers_loop pass dv ext n i :
  resize_ok (SetupFramebuffers_loop pass dv ext n i).
Proof. revert i. induction n as [| n IH]; intros i; simpl; preserves_auto. Qed.
#[local] Hint Resolve resize_ok_SetupFramebuffers_loop : frame.

Lemma resize_ok_ResizeWindow : resize_ok ResizeWindow.
Proof. preserves_auto. Qed.
#[local] Hint Resolve resize_ok_ResizeWindow : frame.

(** ** The frame *)

(** What [RenderFrame] does before it calls [SubmitFrame]. *)
Definition frame_until_present : M unit :=
  PrepareFrame ;;
  modify (fun a =>
    let si := submitInfo a in
    set_submitInfo
      (mkSubmitInfo (pWaitDstStageMask si) (waitSemaphoreCount si) (pWaitSemaphores si)
         (signalSemaphoreCount si) (pSignalSemaphores si)
         1 (AddrDrawCmdBuffer (currentBuffer a))) a) ;;
  let* r := vkQueueSubmit in
  VK_CHECK_RESULT r.

Lemma RenderFrame_split s :
  RenderFrame s = bind frame_until_present (fun _ => SubmitFrame) s.
Proof.
  unfold RenderFrame, frame_until_present.
  rewrite bind_assoc. apply bind_ext. intros _ s1.
  rewrite bind_assoc. apply bind_ext. intros _ s2.
  rewrite bind_assoc. reflexivity.
Qed.

(** The end of a frame whose presentation succeeded with the flag unset. *)
Definition wait_after_present (s : St) : list Event * Res unit :=
  match vkResults (world s) with
  | [] => ([EvQueueWaitIdle], Blocked s)
  | VK_SUCCESS :: rs => ([EvQueueWaitIdle], Done tt (mkSt (app s) (set_vkResults rs (world s))))
  | _ :: rs => ([EvQueueWaitIdle], Fatal (mkSt (app s) (set_vkResults rs (world s))))
  end.

Lemma SubmitFrame_run s r rest :
  presents (world s) = r :: rest ->
  SubmitFrame s =
    let s1 := mkSt (app s) (set_presents rest (world s)) in
    let present := EvQueuePresent (currentBuffer (app s)) in
    if is_stale r || isFramebufferResized (app s) then
      let s2 := mkSt (set_isFramebufferResized false (app s1)) (world s1) in
      (present :: EvResizeFlagCleared :: trace (ResizeWindow s2), snd (ResizeWindow s2))
    else
      match r with
      | VK_SUCCESS => (present :: trace (wait_after_present s1), snd (wait_after_present s1))
      | _ => ([present], Fatal s1)
      end.
Proof.
  intros Hp. unfold SubmitFrame, Swapchain_QueuePresent, vkQueueWaitIdle, vk_call,
    next_vkResult, wait_after_present.
  autorewrite with run. cbv beta. rewrite Hp.
  autorewrite with run. cbn [app world].
  destruct (is_stale r || isFramebufferResized (app s)) eqn:Hc; cbv zeta.
  - autorewrite with run. cbn [app world]. reflexivity.
  - unfold VK_CHECK_RESULT.
    destruct r; autorewrite with run; cbn [app world trace fst snd]; try reflexivity.
    change (vkResults (set_presents rest (world s))) with (vkResults (world s)).
    destruct (vkResults (world s)) as [| [] rs]; autorewrite with run; reflexivity.
Qed.

(** Counting the events of a kind in a trace. *)
Fixpoint count_events (p : Event -> bool) (t : list Event) : nat :=
  match t with
  | [] => O
  | e :: t' => ((if p e then 1 else 0) + count_events p t')%nat
  end.

Lemma count_events_app p t1 t2 :
  count_events p (t1 ++ t2) = (count_events p t1 + count_events p t2)%nat.
Proof. induction t1 as [| e t1 IH]; simpl; [reflexivity | rewrite IH; lia]. Qed.

Lemma count_events_none p t :
  Forall (fun e => p e = false) t -> count_events p t = O.
Proof. induction 1 as [| e t He _ IH]; simpl; [reflexivity | rewrite He, IH; reflexivity]. Qed.

Definition is_flag_clear (e : Event) : bool :=
  match e with EvResizeFlagCleared => true | _ => false end.

Definition is_queue_submit (e : Event) : bool :=
  match e with EvQueueSubmit _ => true | _ => false end.

Lemma resize_event_not_flag_clear e : resize_event e = true -> is_flag_clear e = false.
Proof. destruct e; simpl; congruence. Qed.

Lemma ResizeWindow_no_flag_clear s :
  count_events is_flag_clear (trace (ResizeWindow s)) = O.
Proof.
  apply count_events_none. destruct (resize_ok_ResizeWindow s) as [_ H].
  eapply Forall_impl; [exact H | apply resize_event_not_flag_clear].
Qed.

(** Before the presentation step nothing reads or writes the flag: no
    event of that part of the frame is its clearing. *)
Lemma frame_until_present_no_flag_clear :
  preserves (same_on (fun _ => tt)) (fun e => is_flag_clear e = false) frame_until_present.
Proof.
  assert (preserves (same_on (fun _ => tt)) (fun e => is_flag_clear e = false) ResizeWindow).
  { eapply preserves_weaken; [| | apply resize_ok_ResizeWindow].
    - reflexivity.
    - apply resize_event_not_flag_clear. }
  unfold frame_until_present, PrepareFrame, Swapchain_AcquiredNextImage,
    vkQueueSubmit, vk_call, next_vkResult, VK_CHECK_RESULT.
  preserves_steps.
Qed.

(** ** A worked run *)

Definition example_config : Config := mkConfig "HelloTriangle" 640 480.

Definition example_score (dev : Handle) : Q :=
  if N.eqb dev 7 then 1 # 2 else 3 # 2.

(** A machine with two devices, where every call succeeds and the first
    swapchain has two images. *)
Definition example_world : World :=
  mkWorld [] [] [] [] (replicate 14 VK_SUCCESS)
    [Some (2%nat, mkExtent 640 480)] [7%N; 8%N] example_score ∅ 100 false.

Definition example_started : St :=
  final (OnInit example_config 1%N (mkSt VkBase_default example_world)).

(** The started application, with a new script for what follows. *)
Definition example_state (resized : bool) (sizes : list (Z * Z)) (events : list bool)
    (acq : list (VkResult * option N)) (pres : list VkResult)
    (results : list VkResult) (creates : list SwapchainAnswer) : St :=
  let w := world example_started in
  mkSt (set_isFramebufferResized resized (app example_started))
    (mkWorld sizes events acq pres results creates (physicalDevices w)
       (deviceScore w) (framebufferObjects w) (nextHandle w) (ndebug w)).

(** A steady frame: acquisition, submission and presentation succeed. *)
Definition example_steady : St :=
  example_state false [] [] [(VK_SUCCESS, Some 1%N)] [VK_SUCCESS]
    [VK_SUCCESS; VK_SUCCESS] [].

(** A frame whose acquisition reports that the swapchain is out of date,
    in a window of 800 by 600. *)
Definition example_out_of_date : St :=
  example_state false [(800, 600)] [] [(VK_ERROR_OUT_OF_DATE_KHR, None)] [VK_SUCCESS]
    (replicate 8 VK_SUCCESS) [Some (2%nat, mkExtent 800 600)].

(** The same, with the resize flag set by the window callback before. *)
Definition example_out_of_date_resized : St :=
  example_state true [(800, 600)] [] [(VK_ERROR_OUT_OF_DATE_KHR, None)] []
    (replicate 8 VK_SUCCESS) [Some (2%nat, mkExtent 800 600)].

(** A frame presented with success while the resize flag is set. *)
Definition example_resized : St :=
  example_state true [(0, 0); (0, 0); (1024, 768)] [false; true]
    [(VK_SUCCESS, Some 0%N)] [VK_SUCCESS]
    (replicate 8 VK_SUCCESS) [Some (3%nat, mkExtent 1024 768)].

(** * The frame loop *)

(** A stale acquisition does not end the frame: once [ResizeWindow] has
    returned, [RenderFrame] goes on to [vkQueueSubmit]. *)
Lemma RenderFrame_stale_acquire_submits s r index rest t1 s1 :
  acquires (world s) = (r, index) :: rest ->
  is_stale r = true ->
  let s0 :=
    mkSt (match index with Some i => set_currentBuffer i (app s) | None => app s end)
         (set_acquires rest (world s)) in
  ResizeWindow s0 = (t1, Done tt s1) ->
  exists info t2,
    trace (RenderFrame s) = EvAcquireNextImage :: t1 ++ EvQueueSubmit info :: t2.
Proof.
  intros Ha Hr s0 Hres.
  assert (Hprep : PrepareFrame s = (EvAcquireNextImage :: t1, Done tt s1)).
  { unfold PrepareFrame, Swapchain_AcquiredNextImage.
    autorewrite with run. cbv beta. rewrite Ha.
    subst s0. destruct index; autorewrite with run; cbn [app world] in *;
      rewrite Hr, Hres; reflexivity. }
  unfold RenderFrame. rewrite bind_run, Hprep. cbn [snd trace fst].
  unfold vkQueueSubmit, vk_call. autorewrite with run. cbn [trace fst].
  eexists _, _. reflexivity.
Qed.

(** C1 (code_bug).  The claim: a frame whose acquisition returns OutOfDate
    issues no [vkQueueSubmit].  The code, on the frame [example_out_of_date]
    (acquisition answers [VK_ERROR_OUT_OF_DATE_KHR], the window is 800 by
    600): [PrepareFrame] runs [ResizeWindow] and returns to [RenderFrame],
    which submits, presents and waits as in any other frame. *)
Theorem RenderFrame_out_of_date_still_submits :
  let after_acquire :=
    mkSt (app example_out_of_date) (set_acquires [] (world example_out_of_date)) in
  acquires (world example_out_of_date) = [(VK_ERROR_OUT_OF_DATE_KHR, None)] /\
  last (trace (ResizeWindow after_acquire)) = Some EvViewChanged /\
  trace (RenderFrame example_out_of_date) =
    EvAcquireNextImage :: trace (ResizeWindow after_acquire) ++
    [EvQueueSubmit
       (mkSubmitInfo AddrSubmitPipelineStages 1 AddrPresentComplete
          1 AddrRenderComplete 1 (AddrDrawCmdBuffer 0));
     EvQueuePresent 0; EvQueueWaitIdle] /\
  count_events is_queue_submit (trace (RenderFrame example_out_of_date)) = 1%nat /\
  returned (RenderFrame example_out_of_date) = true.
Proof.
  intros after_acquire. subst after_acquire.
  split; [reflexivity |].
  split; [vm_compute; reflexivity |].
  split; [vm_compute; reflexivity |].
  split; vm_compute; reflexivity.
Qed.

(** C4.  When the presentation of a frame returns success and the resize
    flag is unset, the call that follows [QueuePresent] is
    [vkQueueWaitIdle] and it is the last call of the frame; the frame
    returns exactly when that wait returned with success; and every call
    of the next frame comes after it. *)
Theorem RenderFrame_waits_for_queue_idle (s s1 : St) (t1 : list Event)
    (rest : list VkResult) :
  frame_until_present s = (t1, Done tt s1) ->
  presents (world s1) = VK_SUCCESS :: rest ->
  isFramebufferResized (app s1) = false ->
  trace (RenderFrame s) =
    t1 ++ [EvQueuePresent (currentBuffer (app s1)); EvQueueWaitIdle]
  /\ (returned (RenderFrame s) = true <->
      exists rs, vkResults (world s1) = VK_SUCCESS :: rs)
  /\ (forall n s', snd (RenderFrame s) = Done tt s' ->
      trace (frames (S n) s) = trace (RenderFrame s) ++ trace (frames n s')).
Proof.
  intros Hpre Hp Hflag.
  assert (Hrun : RenderFrame s =
    (t1 ++ EvQueuePresent (currentBuffer (app s1))
          :: trace (wait_after_present (mkSt (app s1) (set_presents rest (world s1)))),
     snd (wait_after_present (mkSt (app s1) (set_presents rest (world s1)))))).
  { rewrite RenderFrame_split. erewrite bind_Done_intro; [reflexivity | exact Hpre |].
    rewrite (SubmitFrame_run _ _ _ Hp). cbv zeta. rewrite Hflag. reflexivity. }
  split; [| split].
  - rewrite Hrun. unfold wait_after_present, trace. cbn [app world fst].
    change (vkResults (set_presents rest (world s1))) with (vkResults (world s1)).
    destruct (vkResults (world s1)) as [| [] rs]; reflexivity.
  - rewrite Hrun. unfold returned, wait_after_present. cbn [app world snd].
    change (vkResults (set_presents rest (world s1))) with (vkResults (world s1)).
    destruct (vkResults (world s1)) as [| [] rs]; cbn [snd]; split;
      try discriminate; try (intros [rs' [=]]); eauto.
  - intros n s' Hdone. cbn [frames]. unfold OnRender.
    rewrite bind_run, Hdone. reflexivity.
Qed.

Lemma RenderFrame_waits_for_queue_idle_witness :
  trace (RenderFrame example_steady) =
    trace (frame_until_present example_steady) ++ [EvQueuePresent 1; EvQueueWaitIdle]
  /\ returned (RenderFrame example_steady) = true.
Proof.
  destruct (RenderFrame_waits_for_queue_idle example_steady
              (final (frame_until_present example_steady))
              (trace (frame_until_present example_steady)) [])
    as (Htrace & Hret & _).
  - vm_compute. reflexivity.
  - vm_compute. reflexivity.
  - vm_compute. reflexivity.
  - split; [exact Htrace |]. apply Hret. exists []. vm_compute. reflexivity.
Defined.



(** * The semaphores and the submit-info template *)

Lemma preserves_run R E {A} (m : M A) s t r :
  preserves R E m -> m s = (t, r) -> R s (final (t, r)) /\ Forall E t.
Proof. intros Hm Hs. specialize (Hm s). rewrite Hs in Hm. exact Hm. Qed.

(** The fields of [submitInfo] assigned in [CreateSemaphores] only. *)
Definition submit_template (si : VkSubmitInfo) :=
  (pWaitDstStageMask si, waitSemaphoreCount si, pWaitSemaphores si,
   signalSemaphoreCount si, pSignalSemaphores si).

Definition semaphore_state (s : St) :=
  (semaphores (app s), submit_template (submitInfo (app s))).

Definition is_semaphore_create (e : Event) : bool :=
  match e with EvCreateSemaphore => true | _ => false end.

Definition is_semaphore_event (e : Event) : bool :=
  match e with EvCreateSemaphore | EvDestroySemaphore _ => true | _ => false end.

Abbreviation semaphores_kept :=
  (preserves (same_on semaphore_state) (fun e => is_semaphore_event e = false)).

Lemma semaphores_kept_fresh_n n : semaphores_kept (fresh_n n).
Proof. induction n; simpl; preserves_auto. Qed.
#[local] Hint Resolve semaphores_kept_fresh_n : frame.

Lemma semaphores_kept_CreateFence_loop n i : semaphores_kept (CreateFence_loop n i).
Proof. revert i. induction n as [| n IH]; intros i; simpl; preserves_auto. Qed.
#[local] Hint Resolve semaphores_kept_CreateFence_loop : frame.

Lemma semaphores_kept_SetupFramebuffers_loop pass dv ext n i :
  semaphores_kept (SetupFramebuffers_loop pass dv ext n i).
Proof. revert i. induction n as [| n IH]; intros i; simpl; preserves_auto. Qed.
#[local] Hint Resolve semaphores_kept_SetupFramebuffers_loop : frame.

Lemma semaphores_kept_while_minimized fuel w h :
  semaphores_kept (while_minimized fuel w h).
Proof.
  revert w h. induction fuel as [| fuel IH]; intros w h; simpl; preserves_auto.
Qed.
#[local] Hint Resolve semaphores_kept_while_minimized : frame.

Lemma semaphores_kept_ResizeWindow : semaphores_kept ResizeWindow.
Proof. preserves_auto. Qed.

Lemma semaphores_kept_OnPostInit : semaphores_kept OnPostInit.
Proof. preserves_auto. Qed.

Lemma semaphores_kept_CreateInstance name : semaphores_kept (CreateInstance name).
Proof. preserves_auto. Qed.

Lemma semaphores_kept_SelectPhysicalDevice : semaphores_kept SelectPhysicalDevice.
Proof. preserves_auto. Qed.

Lemma semaphores_kept_RenderFrame : semaphores_kept RenderFrame.
Proof. preserves_auto. Qed.

Lemma semaphores_kept_frames n : semaphores_kept (frames n).
Proof.
  induction n as [| n IH]; simpl.
  - preserves_steps.
  - apply preserves_bind; [exact _ | apply semaphores_kept_RenderFrame | intros _; exact IH].
Qed.

Lemma CreateSemaphores_Done s t s' :
  CreateSemaphores s = (t, Done tt s') ->
  t = [EvCreateSemaphore; EvCreateSemaphore] /\
  submitInfo (app s') =
    mkSubmitInfo AddrSubmitPipelineStages 1 AddrPresentComplete
                 1 AddrRenderComplete 0 NullPtr /\
  presentComplete (semaphores (app s')) = nextHandle (world s) /\
  renderComplete (semaphores (app s')) = N.succ (nextHandle (world s)).
Proof.
  unfold CreateSemaphores, vkCreateSemaphore, vk_call, next_vkResult, fresh, VK_CHECK_RESULT.
  intros H. run_inv H. injection H as <- <-. auto.
Qed.

Definition is_semaphore_destroy (e : Event) : bool :=
  match e with EvDestroySemaphore _ => true | _ => false end.

Lemma no_semaphore_event_counts t :
  Forall (fun e => is_semaphore_event e = false) t ->
  count_events is_semaphore_create t = 0%nat /\
  count_events is_semaphore_destroy t = 0%nat.
Proof.
  intros H. split; apply count_events_none; eapply Forall_impl; try exact H;
    intros []; simpl; congruence.
Qed.

(** [OnInit] creates the two semaphores and fills the template, once. *)
Lemma OnInit_creates_semaphores conf hwnd s t s' :
  OnInit conf hwnd s = (t, Done tt s') ->
  count_events is_semaphore_create t = 2%nat /\
  count_events is_semaphore_destroy t = 0%nat /\
  submit_template (submitInfo (app s')) =
    (AddrSubmitPipelineStages, 1%N, AddrPresentComplete, 1%N, AddrRenderComplete).
Proof.
  intros H.
  unfold OnInit, CreateInstance, SelectPhysicalDevice, Swapchain_Init, Device_Init,
    Device_CreateLogicalDevice, vkGetDeviceQueue, CreateSemaphores, vkCreateSemaphore,
    DebugMessenger_Setup, vk_call, next_vkResult, fresh, VK_CHECK_RESULT,
    BOOST_ASSERT_MSG in H.
  run_inv H.
  all: destruct (preserves_run _ _ _ _ _ _ semaphores_kept_OnPostInit H) as [HR HE].
  all: apply no_semaphore_event_counts in HE; destruct HE as [Hc Hd].
  all: cbn [count_events is_semaphore_create is_semaphore_destroy].
  all: rewrite Hc, Hd; repeat split; try reflexivity.
  all: unfold same_on, semaphore_state, submit_template, final in *; simpl in HR.
  all: congruence.
Qed.

(** C9.  [OnInit] creates the two semaphores and fills the submit-info
    template, exactly once.  No run of [ResizeWindow] creates or destroys
    a semaphore, or assigns [semaphores] or [submitInfo].  No run of
    [RenderFrame], and so no sequence of frames, creates or destroys a
    semaphore or changes the wait-stage, wait-semaphore and
    signal-semaphore fields of [submitInfo]; a frame assigns only its
    command-buffer count and pointer. *)
Theorem semaphores_and_submit_template_fixed (conf : Config) (hwnd : Handle)
    (s0 s1 : St) (t : list Event) :
  OnInit conf hwnd s0 = (t, Done tt s1) ->
  (count_events is_semaphore_create t = 2%nat /\
   count_events is_semaphore_destroy t = 0%nat /\
   submit_template (submitInfo (app s1)) =
     (AddrSubmitPipelineStages, 1%N, AddrPresentComplete, 1%N, AddrRenderComplete))
  /\ (forall s,
        semaphores (app (final (ResizeWindow s))) = semaphores (app s) /\
        submitInfo (app (final (ResizeWindow s))) = submitInfo (app s) /\
        Forall (fun e => is_semaphore_event e = false) (trace (ResizeWindow s)))
  /\ (forall s,
        semaphores (app (final (RenderFrame s))) = semaphores (app s) /\
        submit_template (submitInfo (app (final (RenderFrame s)))) =
          submit_template (submitInfo (app s)) /\
        Forall (fun e => is_semaphore_event e = false) (trace (RenderFrame s)))
  /\ (forall n,
        semaphores (app (final (frames n s1))) = semaphores (app s1) /\
        submit_template (submitInfo (app (final (frames n s1)))) =
          (AddrSubmitPipelineStages, 1%N, AddrPresentComplete, 1%N, AddrRenderComplete) /\
        Forall (fun e => is_semaphore_event e = false) (trace (frames n s1))).
Proof.
  intros Hinit. destruct (OnInit_creates_semaphores _ _ _ _ _ Hinit) as (Hc & Hd & Ht).
  split; [auto |]. split; [| split].
  - intros s. destruct (resize_ok_ResizeWindow s) as [[Hk _] HE].
    unfold kept_by_resize in Hk.
    split; [congruence |]. split; [congruence |].
    eapply Forall_impl; [exact HE |]. intros []; simpl; congruence.
  - intros s. destruct (semaphores_kept_RenderFrame s) as [HR HE].
    unfold same_on, semaphore_state in HR.
    split; [congruence |]. split; [congruence | exact HE].
  - intros n. destruct (semaphores_kept_frames n s1) as [HR HE].
    unfold same_on, semaphore_state in HR.
    split; [congruence |]. split; [congruence | exact HE].
Qed.

Lemma semaphores_and_submit_template_fixed_witness :
  count_events is_semaphore_create
    (trace (OnInit example_config 1%N (mkSt VkBase_default example_world))) = 2%nat
  /\ submit_template (submitInfo (app (final (RenderFrame example_resized)))) =
       submit_template (submitInfo (app example_resized)).
Proof.
  destruct (semaphores_and_submit_template_fixed example_config 1%N
              (mkSt VkBase_default example_world) example_started
              (trace (OnInit example_config 1%N (mkSt VkBase_default example_world))))
    as ((Hc & _) & _ & Hframe & _).
  - vm_compute. reflexivity.
  - split; [exact Hc | apply (Hframe example_resized)].
Defined.

(** * The resize path *)

(** ** The two parts of [ResizeWindow] *)

(** The wait for a framebuffer that is not empty. *)
Definition wait_for_size : M (Z * Z) :=
  let* (width, height) := glfwGetFramebufferSize in
  let* fuel := asks (fun w => length (fbSizes w)) in
  while_minimized fuel width height.

(** The rebuilding of what depends on the swapchain. *)
Definition rebuild_targets : M unit :=
  DestroyDepthStencil ;;
  SetupDepthStencil ;;
  let* fbs := gets framebuffers in
  for_each fbs vkDestroyFramebuffer ;;
  SetupFramebuffers ;;
  DestroyCommandBuffers ;;
  CreateCommandBuffers ;;
  BuildCommandBuffers ;;
  vkDeviceWaitIdle ;;
  ViewChanged.

Definition resize_at (width height : Z) : M unit :=
  vkDeviceWaitIdle ;;
  Swapchain_Create width height ;;
  rebuild_targets.

Lemma ResizeWindow_split s :
  ResizeWindow s = bind wait_for_size (fun size => resize_at (fst size) (snd size)) s.
Proof.
  unfold ResizeWindow, wait_for_size.
  rewrite bind_assoc. apply bind_ext. intros [w h] s1.
  rewrite bind_assoc. apply bind_ext. intros fuel s2.
  apply bind_ext. intros [w' h'] s3. reflexivity.
Qed.

(** ** The wait *)

Definition is_zero_size (p : Z * Z) : bool := (fst p =? 0) || (snd p =? 0).

(** The calls of the wait, from the sizes polled: the first poll stands
    before the loop, every later one is followed by [glfwWaitEvents]. *)
Definition loop_events (ps : list (Z * Z)) : list Event :=
  flat_map (fun p => [EvGetFramebufferSize (fst p) (snd p); EvWaitEvents]) ps.

Definition poll_events (ps : list (Z * Z)) : list Event :=
  match ps with
  | [] => []
  | p :: ps' => EvGetFramebufferSize (fst p) (snd p) :: loop_events ps'
  end.

(** The sizes polled in a trace. *)
Fixpoint polls_of (t : list Event) : list (Z * Z) :=
  match t with
  | [] => []
  | EvGetFramebufferSize w h :: t' => (w, h) :: polls_of t'
  | _ :: t' => polls_of t'
  end.

Lemma polls_of_app t1 t2 : polls_of (t1 ++ t2) = polls_of t1 ++ polls_of t2.
Proof.
  induction t1 as [| e t1 IH]; [reflexivity |].
  destruct e; simpl; rewrite ?IH; reflexivity.
Qed.

Lemma polls_of_loop_events ps : polls_of (loop_events ps) = ps.
Proof.
  induction ps as [| [w h] ps IH]; [reflexivity |].
  simpl. rewrite IH. reflexivity.
Qed.

Lemma polls_of_poll_events ps : polls_of (poll_events ps) = ps.
Proof.
  destruct ps as [| [w h] ps]; [reflexivity |].
  simpl. rewrite polls_of_loop_events. reflexivity.
Qed.

(** What a wait has seen: every size but the last is empty; when the wait
    returns, it returns the last size, which is not empty. *)
Definition wait_outcome (first : Z * Z) (later : list (Z * Z))
    (r : Res (Z * Z)) : Prop :=
  exists zeros last,
    first :: later = zeros ++ [last] /\
    Forall (fun p => is_zero_size p = true) zeros /\
    match r with
    | Done size _ => size = last /\ is_zero_size last = false
    | _ => True
    end.

Lemma wait_outcome_cons first p later r :
  is_zero_size first = true ->
  wait_outcome p later r -> wait_outcome first (p :: later) r.
Proof.
  intros Hz (zeros & last & Heq & Hzeros & Hr).
  exists (first :: zeros), last. rewrite Heq. repeat split; auto.
Qed.

Lemma while_minimized_polls fuel w h s :
  exists later,
    trace (while_minimized fuel w h s) = loop_events later /\
    wait_outcome (w, h) later (snd (while_minimized fuel w h s)).
Proof.
  revert w h s. induction fuel as [| fuel IH]; intros w h s; simpl.
  - destruct ((w =? 0) || (h =? 0)) eqn:Hz.
    + exists []. split; [reflexivity |]. exists [], (w, h). repeat split; auto.
    + exists []. split; [reflexivity |]. exists [], (w, h). repeat split; auto.
  - destruct ((w =? 0) || (h =? 0)) eqn:Hz.
    + unfold glfwGetFramebufferSize, glfwWaitEvents, OnResized.
      autorewrite with run. cbv beta.
      destruct (fbSizes (world s)) as [| [w1 h1] rest].
      * exists []. split; [reflexivity |]. exists [], (w, h). repeat split; auto.
      * autorewrite with run. cbn [app world trace fst snd].
        change (windowEvents (set_fbSizes rest (world s))) with (windowEvents (world s)).
        destruct (windowEvents (world s)) as [| ev evs].
        -- exists [(w1, h1)]. split; [reflexivity |].
           apply wait_outcome_cons; [exact Hz |].
           exists [], (w1, h1). repeat split; auto.
        -- assert (Hstep : forall s1, exists later,
             trace (while_minimized fuel w1 h1 s1) = loop_events later /\
             wait_outcome (w, h) ((w1, h1) :: later) (snd (while_minimized fuel w1 h1 s1))).
           { intros s1. destruct (IH w1 h1 s1) as (later & Ht & Ho).
             exists later. split; [exact Ht |].
             apply wait_outcome_cons; [exact Hz | exact Ho]. }
           destruct ev; autorewrite with run; cbn [app world];
             match goal with |- context [while_minimized fuel w1 h1 ?s1] =>
               destruct (Hstep s1) as (later & Ht & Ho) end;
             exists ((w1, h1) :: later); (split; [simpl; rewrite Ht; reflexivity | exact Ho]).
    + exists []. split; [reflexivity |]. exists [], (w, h). repeat split; auto.
Qed.

Lemma wait_for_size_polls s :
  (trace (wait_for_size s) = [] /\ returned (wait_for_size s) = false) \/
  exists first later,
    trace (wait_for_size s) = poll_events (first :: later) /\
    wait_outcome first later (snd (wait_for_size s)).
Proof.
  unfold wait_for_size, glfwGetFramebufferSize.
  autorewrite with run. cbv beta.
  destruct (fbSizes (world s)) as [| [w h] rest].
  - left. split; reflexivity.
  - right. autorewrite with run. cbn [app world trace fst snd].
    match goal with |- context [while_minimized ?f w h ?s1] =>
      destruct (while_minimized_polls f w h s1) as (later & Ht & Ho) end.
    exists (w, h), later. split; [rewrite Ht; reflexivity | exact Ho].
Qed.

(** The loop never stops for lack of fuel: any fuel that covers the sizes
    left in the script gives the same run. *)
Lemma while_minimized_fuel fuel fuel' w h s :
  (length (fbSizes (world s)) <= fuel)%nat ->
  (length (fbSizes (world s)) <= fuel')%nat ->
  while_minimized fuel w h s = while_minimized fuel' w h s.
Proof.
  revert fuel' w h s. induction fuel as [| fuel IH]; intros fuel' w h s H1 H2.
  - destruct (fbSizes (world s)) as [| p rest] eqn:Hs; [| simpl in H1; lia].
    destruct fuel'; simpl; [reflexivity |].
    destruct ((w =? 0) || (h =? 0)); [| reflexivity].
    unfold glfwGetFramebufferSize. autorewrite with run. rewrite Hs. reflexivity.
  - destruct fuel' as [| fuel'].
    + destruct (fbSizes (world s)) as [| p rest] eqn:Hs; [| simpl in H2; lia].
      simpl. destruct ((w =? 0) || (h =? 0)); [| reflexivity].
      unfold glfwGetFramebufferSize. autorewrite with run. rewrite Hs. reflexivity.
    + simpl. destruct ((w =? 0) || (h =? 0)); [| reflexivity].
      unfold glfwGetFramebufferSize, glfwWaitEvents, OnResized.
      autorewrite with run. cbv beta.
      destruct (fbSizes (world s)) as [| [w1 h1] rest] eqn:Hs; [reflexivity |].
      autorewrite with run. cbn [app world].
      change (windowEvents (set_fbSizes rest (world s))) with (windowEvents (world s)).
      destruct (windowEvents (world s)) as [| [] evs]; autorewrite with run;
        try reflexivity; cbn [app world];
        rewrite (IH fuel'); try reflexivity; simpl in *; lia.
Qed.

(** The wait ends: when the script holds a size that is not empty, after
    sizes that are, and [glfwWaitEvents] returns as often as the loop
    calls it, the wait returns that size. *)
Lemma while_minimized_returns zeros : forall fuel w0 h0 s w h rest,
  is_zero_size (w0, h0) = true ->
  fbSizes (world s) = zeros ++ (w, h) :: rest ->
  is_zero_size (w, h) = false ->
  Forall (fun p => is_zero_size p = true) zeros ->
  (length zeros < fuel)%nat ->
  (length zeros < length (windowEvents (world s)))%nat ->
  exists s1,
    while_minimized fuel w0 h0 s = (loop_events (zeros ++ [(w, h)]), Done (w, h) s1).
Proof.
  induction zeros as [| [wz hz] zeros IH];
    intros fuel w0 h0 s w h rest Hz0 Hsizes Hnz Hzeros Hfuel Hevents;
    cbn [Datatypes.app] in Hsizes.
  - destruct fuel as [| fuel]; [simpl in Hfuel; lia |].
    cbn [while_minimized]. unfold is_zero_size in Hz0. cbn [fst snd] in Hz0.
    rewrite Hz0. unfold glfwGetFramebufferSize, glfwWaitEvents, OnResized.
    autorewrite with run. cbv beta. rewrite Hsizes.
    autorewrite with run. cbn [app world].
    change (windowEvents (set_fbSizes rest (world s))) with (windowEvents (world s)).
    destruct (windowEvents (world s)) as [| ev evs]; [simpl in Hevents; lia |].
    assert (Hret : forall s1, while_minimized fuel w h s1 = ([], Done (w, h) s1)).
    { intros s1. unfold is_zero_size in Hnz. cbn [fst snd] in Hnz.
      destruct fuel; cbn [while_minimized]; rewrite Hnz; reflexivity. }
    destruct ev; autorewrite with run; cbn [app world]; rewrite Hret;
      eexists; reflexivity.
  - destruct fuel as [| fuel]; [simpl in Hfuel; lia |].
    cbn [while_minimized]. unfold is_zero_size in Hz0. cbn [fst snd] in Hz0.
    rewrite Hz0. unfold glfwGetFramebufferSize, glfwWaitEvents, OnResized.
    autorewrite with run. cbv beta. rewrite Hsizes.
    autorewrite with run. cbn [app world].
    change (windowEvents (set_fbSizes (zeros ++ (w, h) :: rest) (world s)))
      with (windowEvents (world s)).
    destruct (windowEvents (world s)) as [| ev evs] eqn:Hev; [simpl in Hevents; lia |].
    apply Forall_cons in Hzeros. destruct Hzeros as [Hz Hzeros].
    assert (Hstep : forall a, exists s1,
      while_minimized fuel wz hz
        (mkSt a (set_windowEvents evs (set_fbSizes (zeros ++ (w, h) :: rest) (world s))))
      = (loop_events (zeros ++ [(w, h)]), Done (w, h) s1)).
    { intros a. apply (IH fuel wz hz _ w h rest); auto; simpl in *; lia. }
    destruct ev; autorewrite with run; cbn [app world];
      match goal with |- context [while_minimized fuel wz hz (mkSt ?a _)] =>
        destruct (Hstep a) as [s1 Hs1] end;
      rewrite Hs1; eexists; reflexivity.
Qed.

Lemma wait_for_size_returns s zeros w h rest :
  fbSizes (world s) = zeros ++ (w, h) :: rest ->
  is_zero_size (w, h) = false ->
  Forall (fun p => is_zero_size p = true) zeros ->
  (length zeros <= length (windowEvents (world s)))%nat ->
  exists s1, wait_for_size s = (poll_events (zeros ++ [(w, h)]), Done (w, h) s1).
Proof.
  intros Hsizes Hnz Hzeros Hevents.
  unfold wait_for_size, glfwGetFramebufferSize.
  autorewrite with run. cbv beta. rewrite Hsizes.
  destruct zeros as [| [wz hz] zeros]; cbn [Datatypes.app];
    autorewrite with run; cbn [app world].
  - unfold is_zero_size in Hnz. cbn [fst snd] in Hnz.
    destruct (length (fbSizes (set_fbSizes rest (world s))));
      cbn [while_minimized]; rewrite Hnz; eexists; reflexivity.
  - apply Forall_cons in Hzeros. destruct Hzeros as [Hz Hzeros].
    match goal with |- context [while_minimized ?f wz hz ?s1] =>
      destruct (while_minimized_returns zeros f wz hz s1 w h rest) as [s2 Hs2] end;
      try assumption; try reflexivity.
    + change (fbSizes (set_fbSizes ?x (world s))) with x.
      rewrite length_app. simpl. lia.
    + rewrite Hs2. eexists. reflexivity.
Qed.

(** ** The calls after the wait *)

(** The handles the driver hands out from [h] on. *)
Fixpoint handles_from (h : N) (n : nat) : list Handle :=
  match n with
  | O => []
  | S n' => h :: handles_from (N.succ h) n'
  end.

Lemma length_handles_from h n : length (handles_from h n) = n.
Proof. revert h. induction n as [| n IH]; intros h; simpl; [| rewrite IH]; reflexivity. Qed.

Lemma fresh_n_run n s :
  fresh_n n s =
    ([], Done (handles_from (nextHandle (world s)) n)
              (mkSt (app s) (set_nextHandle (nextHandle (world s) + N.of_nat n)%N (world s)))).
Proof.
  revert s. induction n as [| n IH]; intros s.
  - simpl. unfold ret. destruct s as [a []]. cbn. rewrite N.add_0_r. reflexivity.
  - cbn [fresh_n]. unfold fresh. autorewrite with run. cbn [app world].
    rewrite bind_run, IH. cbn [snd trace fst app world nextHandle set_nextHandle].
    autorewrite with run. unfold set_nextHandle. cbn.
    replace (N.succ (nextHandle (world s)) + N.of_nat n)%N
      with (nextHandle (world s) + N.of_nat (S n))%N by lia.
    reflexivity.
Qed.

Lemma bind_fresh_n {B} n (f : list Handle -> M B) s :
  bind (fresh_n n) f s =
    f (handles_from (nextHandle (world s)) n)
      (mkSt (app s) (set_nextHandle (nextHandle (world s) + N.of_nat n)%N (world s))).
Proof. rewrite bind_run, fresh_n_run. cbn [snd trace fst]. symmetry. apply run_eta. Qed.

#[local] Hint Rewrite @bind_fresh_n : run inv.

Definition is_swapchain_create (e : Event) : bool :=
  match e with EvSwapchainCreate _ _ => true | _ => false end.

Lemma Swapchain_Create_trace w h s :
  trace (Swapchain_Create w h s) = [EvSwapchainCreate w h].
Proof.
  unfold Swapchain_Create. autorewrite with run. cbv beta.
  destruct (swapchainCreates (world s)) as [| [[n ext] |] rest];
    autorewrite with run; reflexivity.
Qed.

(** The calls [rebuild_targets] can make: no poll, no swapchain creation. *)
Definition rebuild_event (e : Event) : bool :=
  match e with
  | EvDeviceWaitIdle
  | EvDestroyImageView _ | EvDestroyImage _ | EvFreeMemory _
  | EvImageCreate _ _ | EvImageViewCreate _
  | EvDestroyFramebuffer _ | EvCreateFramebuffer _
  | EvFreeCommandBuffers _ | EvAllocateCommandBuffers _
  | EvBuildCommandBuffers | EvViewChanged => true
  | _ => false
  end.

Abbreviation rebuild_ok := (preserves resize_frame (fun e => rebuild_event e = true)).

Lemma rebuild_ok_fresh_n n : rebuild_ok (fresh_n n).
Proof. induction n; simpl; preserves_auto. Qed.
#[local] Hint Resolve rebuild_ok_fresh_n : frame.

Lemma rebuild_ok_SetupFramebuffers_loop pass dv ext n i :
  rebuild_ok (SetupFramebuffers_loop pass dv ext n i).
Proof. revert i. induction n as [| n IH]; intros i; simpl; preserves_auto. Qed.
#[local] Hint Resolve rebuild_ok_SetupFramebuffers_loop : frame.

Lemma rebuild_ok_rebuild_targets : rebuild_ok rebuild_targets.
Proof. unfold rebuild_targets. preserves_auto. Qed.

(** A trace splits in one way only around its single swapchain creation. *)
Lemma split_at_create (l1 l2 pre post : list Event) (c c' : Event) :
  Forall (fun e => is_swapchain_create e = false) l1 ->
  Forall (fun e => is_swapchain_create e = false) l2 ->
  is_swapchain_create c' = true ->
  l1 ++ c :: l2 = pre ++ c' :: post ->
  pre = l1 /\ c' = c /\ post = l2.
Proof.
  intros H1 H2 Hc'. revert pre. induction H1 as [| a l1 Ha _ IH]; intros pre Heq.
  - destruct pre as [| x pre]; simpl in Heq.
    + injection Heq as -> ->. auto.
    + injection Heq as -> ->. exfalso.
      rewrite Forall_app, Forall_cons in H2. destruct H2 as (_ & Hbad & _). congruence.
  - destruct pre as [| x pre]; simpl in Heq.
    + injection Heq as <- _. congruence.
    + injection Heq as <- Heq. destruct (IH _ Heq) as (-> & -> & ->). auto.
Qed.

Lemma resize_at_trace w h s :
  exists rest,
    trace (resize_at w h s) = EvDeviceWaitIdle :: EvSwapchainCreate w h :: rest /\
    Forall (fun e => rebuild_event e = true) rest.
Proof.
  unfold resize_at, vkDeviceWaitIdle. rewrite bind_emit. cbn [trace fst].
  rewrite bind_run.
  pose proof (Swapchain_Create_trace w h s) as Hc. unfold trace in Hc.
  destruct (Swapchain_Create w h s) as [tc [[] s1 | s1 | s1]]; cbn [fst snd] in *;
    subst tc.
  - exists (fst (rebuild_targets s1)). split; [reflexivity |].
    apply rebuild_ok_rebuild_targets.
  - exists []. split; [reflexivity | constructor].
  - exists []. split; [reflexivity | constructor].
Qed.

Lemma loop_events_no_create ps :
  Forall (fun e => is_swapchain_create e = false) (loop_events ps).
Proof. induction ps as [| p ps IH]; simpl; repeat constructor; exact IH. Qed.

Lemma poll_events_no_create ps :
  Forall (fun e => is_swapchain_create e = false) (poll_events ps).
Proof.
  destruct ps as [| p ps]; simpl; repeat constructor. apply loop_events_no_create.
Qed.

Lemma rebuild_event_no_create e : rebuild_event e = true -> is_swapchain_create e = false.
Proof. destruct e; simpl; congruence. Qed.

Lemma is_zero_size_false w h : is_zero_size (w, h) = false -> w <> 0 /\ h <> 0.
Proof. unfold is_zero_size. simpl. rewrite orb_false_iff, !Z.eqb_neq. auto. Qed.

(** C3.  In every run of [ResizeWindow], however it ends: when the trace
    has a call of [Swapchain::Create], at a size [w] by [h], then no
    other creation stands before it, and the sizes polled before it are
    a run of sizes with a zero dimension followed by one last poll, which
    reported [w] by [h], both not zero.  So as long as the polls report a
    zero dimension, the swapchain is not recreated. *)
Theorem swapchain_recreated_only_after_nonzero_poll (s : St)
    (pre post : list Event) (w h : Z) :
  trace (ResizeWindow s) = pre ++ EvSwapchainCreate w h :: post ->
  exists zeros,
    polls_of pre = zeros ++ [(w, h)] /\
    Forall (fun p => is_zero_size p = true) zeros /\
    w <> 0 /\ h <> 0 /\
    Forall (fun e => is_swapchain_create e = false) pre /\
    Forall (fun e => is_swapchain_create e = false) post.
Proof.
  intros Heq. rewrite ResizeWindow_split, bind_run in Heq.
  assert (Hno : forall t, Forall (fun e => is_swapchain_create e = false) t ->
                t = pre ++ EvSwapchainCreate w h :: post -> False).
  { intros t Ht ->. rewrite Forall_app, Forall_cons in Ht.
    destruct Ht as (_ & Hbad & _). discriminate Hbad. }
  destruct (wait_for_size_polls s) as [[Ht Hret] | (first & later & Ht & Ho)].
  - exfalso. unfold returned in Hret.
    destruct (snd (wait_for_size s)) as [size s1 | s1 | s1]; try discriminate;
      cbn [trace fst] in Heq; rewrite Ht in Heq;
      (eapply Hno; [| exact Heq]); constructor.
  - destruct (snd (wait_for_size s)) as [[w0 h0] s1 | s1 | s1];
      cbv beta in Heq; cbn [trace fst snd] in Heq.
    + destruct Ho as (zeros & last & Hps & Hzeros & <- & Hlast).
      destruct (resize_at_trace w0 h0 s1) as (rest & Hr & Hrest).
      rewrite Hr, Ht in Heq.
      change (poll_events (first :: later) ++ EvDeviceWaitIdle :: EvSwapchainCreate w0 h0 :: rest)
        with (poll_events (first :: later) ++ [EvDeviceWaitIdle] ++ EvSwapchainCreate w0 h0 :: rest)
        in Heq.
      rewrite app_assoc in Heq.
      assert (Hrest' : Forall (fun e => is_swapchain_create e = false) rest).
      { eapply Forall_impl; [exact Hrest | apply rebuild_event_no_create]. }
      apply split_at_create in Heq; auto.
      * destruct Heq as (-> & [= -> ->] & ->).
        exists zeros. rewrite polls_of_app, polls_of_poll_events, Hps.
        simpl. rewrite app_nil_r.
        destruct (is_zero_size_false _ _ Hlast) as [Hw Hh].
        repeat split; auto.
        apply Forall_app. split; [apply poll_events_no_create | repeat constructor].
      * apply Forall_app. split; [apply poll_events_no_create | repeat constructor].
    + exfalso. rewrite Ht in Heq.
      eapply Hno; [| exact Heq]. apply poll_events_no_create.
    + exfalso. rewrite Ht in Heq.
      eapply Hno; [| exact Heq]. apply poll_events_no_create.
Qed.

Lemma swapchain_recreated_only_after_nonzero_poll_witness :
  let s := example_state false [(0, 0); (0, 0); (1024, 768)] [false; true] [] []
             (replicate 8 VK_SUCCESS) [Some (3%nat, mkExtent 1024 768)] in
  exists zeros,
    polls_of (take 6 (trace (ResizeWindow s))) = zeros ++ [(1024, 768)] /\
    Forall (fun p => is_zero_size p = true) zeros /\
    1024 <> 0 /\ 768 <> 0 /\
    Forall (fun e => is_swapchain_create e = false) (take 6 (trace (ResizeWindow s))) /\
    Forall (fun e => is_swapchain_create e = false) (drop 7 (trace (ResizeWindow s))).
Proof.
  intros s.
  apply (swapchain_recreated_only_after_nonzero_poll s).
  vm_compute. reflexivity.
Defined.

(** ** The framebuffers *)

Definition framebuffer_info (pass depthView : Handle) (ext : VkExtent2D)
    (view : Handle) : VkFramebufferCreateInfo :=
  mkFramebufferCreateInfo pass [view; depthView] (ext_width ext) (ext_height ext) 1.

Lemma set_framebuffers_twice x y a :
  set_framebuffers x (set_framebuffers y a) = set_framebuffers x a.
Proof. reflexivity. Qed.

(** A run of the loop of [SetupFramebuffers] that returned: it made one
    creation call for each index from [i] on, wrote the handle of each new
    framebuffer in its slot, and changed nothing else. *)
Lemma SetupFramebuffers_loop_Done pass dv ext n : forall i s t s',
  SetupFramebuffers_loop pass dv ext n i s = (t, Done tt s') ->
  t = map (fun j => EvCreateFramebuffer
             (framebuffer_info pass dv ext
                (default VK_NULL_HANDLE (views (swapchain (app s)) !! j))))
          (seq i n)
  /\ app s' = set_framebuffers (framebuffers (app s')) (app s)
  /\ length (framebuffers (app s')) = length (framebuffers (app s))
  /\ (nextHandle (world s) <= nextHandle (world s'))%N
  /\ (forall h, (h < nextHandle (world s))%N ->
        framebufferObjects (world s') !! h = framebufferObjects (world s) !! h)
  /\ (forall j, (j < i)%nat ->
        framebuffers (app s') !! j = framebuffers (app s) !! j)
  /\ (forall j, (i <= j < i + n)%nat -> (j < length (framebuffers (app s)))%nat ->
        exists h,
          framebuffers (app s') !! j = Some h /\
          framebufferObjects (world s') !! h =
            Some (framebuffer_info pass dv ext
                    (default VK_NULL_HANDLE (views (swapchain (app s)) !! j)))).
Proof.
  induction n as [| n IH]; intros i s t s' H.
  - simpl in H. injection H as <- <-.
    repeat split; auto; try lia.
    destruct (app s); reflexivity.
  - cbn [SetupFramebuffers_loop] in H.
    unfold vkCreateFramebuffer, vk_call, next_vkResult, fresh, VK_CHECK_RESULT in H.
    run_inv H.
    apply IH in H. cbn [app world] in H.
    destruct H as (-> & Happ & Hlen & Hnext & Htab & Hlow & Hnew).
    cbn [nextHandle set_nextHandle framebufferObjects set_framebufferObjects
         set_vkResults] in *.
    change (views (swapchain (set_framebuffers ?x (app s)))) with (views (swapchain (app s))) in *.
    change (framebuffers (set_framebuffers ?x (app s))) with x in *.
    rewrite length_insert in *.
    split; [reflexivity |].
    split; [rewrite Happ; reflexivity |].
    split; [exact Hlen |].
    split; [lia |].
    split.
    { intros h Hh. rewrite Htab by lia. apply lookup_insert_ne. lia. }
    split.
    { intros j Hj. rewrite Hlow by lia. apply list_lookup_insert_ne. lia. }
    intros j Hj Hjlen.
    destruct (decide (j = i)) as [-> | Hne].
    + exists (nextHandle (world s)). split.
      * rewrite Hlow by lia. apply list_lookup_insert_eq. exact Hjlen.
      * rewrite Htab by lia. apply lookup_insert_eq.
    + apply Hnew; lia.
Qed.

Lemma length_vector_resize n v : length (vector_resize n v) = n.
Proof.
  unfold vector_resize. rewrite length_app, length_take, length_replicate. lia.
Qed.

Lemma map_seq_lookup {B} (f : Handle -> B) (l : list Handle) :
  map (fun j => f (default VK_NULL_HANDLE (l !! j))) (seq 0 (length l)) = map f l.
Proof.
  induction l as [| x l IH]; [reflexivity |].
  cbn [length seq map]. f_equal. rewrite <- seq_shift, map_map. exact IH.
Qed.

Lemma SetupFramebuffers_Done s t s' :
  SetupFramebuffers s = (t, Done tt s') ->
  t = map (fun v => EvCreateFramebuffer
             (framebuffer_info (renderPass (app s)) (ds_view (depthStencil (app s)))
                (extent (swapchain (app s))) v))
          (views (swapchain (app s)))
  /\ app s' = set_framebuffers (framebuffers (app s')) (app s)
  /\ length (framebuffers (app s')) = length (views (swapchain (app s)))
  /\ (forall fb, fb ∈ framebuffers (app s') ->
        exists info,
          framebufferObjects (world s') !! fb = Some info /\
          fci_renderPass info = renderPass (app s)).
Proof.
  unfold SetupFramebuffers. intros H. run_inv H.
  apply SetupFramebuffers_loop_Done in H. cbn [app world] in H.
  change (views (swapchain (set_framebuffers ?x (app s)))) with (views (swapchain (app s))) in H.
  change (framebuffers (set_framebuffers ?x (app s))) with x in H.
  rewrite length_vector_resize in H.
  destruct H as (-> & Happ & Hlen & _ & _ & _ & Hnew).
  split.
  { apply (map_seq_lookup (fun v => EvCreateFramebuffer
             (framebuffer_info (renderPass (app s)) (ds_view (depthStencil (app s)))
                (extent (swapchain (app s))) v))). }
  split; [rewrite Happ; reflexivity |].
  split; [exact Hlen |].
  intros fb Hfb. apply list_elem_of_lookup in Hfb. destruct Hfb as [j Hj].
  pose proof (lookup_lt_Some _ _ _ Hj) as Hlt. rewrite Hlen in Hlt.
  destruct (Hnew j) as (h & Hh & Htab); [lia | lia |].
  rewrite Hj in Hh. injection Hh as <-.
  eexists. split; [exact Htab | reflexivity].
Qed.

(** Destroying the framebuffers of a list: one call each, and the driver
    forgets them. *)
Lemma for_each_vkDestroyFramebuffer fbs s :
  for_each fbs vkDestroyFramebuffer s =
    (map EvDestroyFramebuffer fbs,
     Done tt (mkSt (app s)
                (set_framebufferObjects
                   (foldl (fun m fb => delete fb m) (framebufferObjects (world s)) fbs)
                   (world s)))).
Proof.
  revert s. induction fbs as [| fb fbs IH]; intros s.
  - simpl. unfold ret. destruct s as [a []]. reflexivity.
  - cbn [for_each]. unfold vkDestroyFramebuffer at 1. autorewrite with run.
    rewrite IH. reflexivity.
Qed.

(** Reduce the projections of the application object and of the world
    over the assignments made to them. *)
Ltac members_simpl :=
  cbn [app world
       config window instance swapchain device queue semaphores submitInfo
       drawCmdBuffers currentBuffer isFramebufferResized framebuffers depthStencil
       renderPass pipelineCache cmdPool waitFences descriptorPool
       set_config set_window set_instance set_swapchain set_device set_queue
       set_semaphores set_submitInfo set_drawCmdBuffers set_currentBuffer
       set_isFramebufferResized set_framebuffers set_depthStencil set_renderPass
       set_pipelineCache set_cmdPool set_waitFences
       images views extent sc_physicalDevice ds_image ds_memory ds_view
       ext_width ext_height
       fbSizes windowEvents acquires presents vkResults swapchainCreates
       physicalDevices deviceScore framebufferObjects nextHandle ndebug
       set_fbSizes set_windowEvents set_acquires set_presents set_vkResults
       set_swapchainCreates set_framebufferObjects set_nextHandle] in *.

(** The calls of [ResizeWindow] after the wait, at size [w] by [h], in
    terms of the application object before ([a]) and after ([a']). *)
Definition resize_calls (w h : Z) (a a' : VkBase) : list Event :=
  [EvDeviceWaitIdle;
   EvSwapchainCreate w h;
   EvDestroyImageView (ds_view (depthStencil a));
   EvDestroyImage (ds_image (depthStencil a));
   EvFreeMemory (ds_memory (depthStencil a));
   EvImageCreate (ext_width (extent (swapchain a'))) (ext_height (extent (swapchain a')));
   EvImageViewCreate (ds_image (depthStencil a'))]
  ++ map EvDestroyFramebuffer (framebuffers a)
  ++ map (fun v => EvCreateFramebuffer
            (framebuffer_info (renderPass a) (ds_view (depthStencil a'))
               (extent (swapchain a')) v))
         (views (swapchain a'))
  ++ [EvFreeCommandBuffers (drawCmdBuffers a);
      EvAllocateCommandBuffers (length (images (swapchain a')));
      EvBuildCommandBuffers;
      EvDeviceWaitIdle;
      EvViewChanged].

(** The objects that follow the swapchain are as many as its images, and
    every framebuffer was created for the render pass of the application. *)
Definition targets_match (s : St) : Prop :=
  let a := app s in
  length (images (swapchain a)) = length (views (swapchain a)) /\
  length (framebuffers a) = length (images (swapchain a)) /\
  length (drawCmdBuffers a) = length (images (swapchain a)) /\
  forall fb, fb ∈ framebuffers a ->
    exists info,
      framebufferObjects (world s) !! fb = Some info /\
      fci_renderPass info = renderPass a.

Lemma resize_at_Done w h s t s' :
  resize_at w h s = (t, Done tt s') ->
  t = resize_calls w h (app s) (app s') /\
  renderPass (app s') = renderPass (app s) /\
  targets_match s'.
Proof.
  intros H.
  unfold resize_at, rebuild_targets, vkDeviceWaitIdle, Swapchain_Create,
    DestroyDepthStencil, SetupDepthStencil, Image_Create, ImageView_Create,
    vk_call, next_vkResult, fresh, VK_CHECK_RESULT in H.
  run_inv H.
  bind_inv H H1. rewrite for_each_vkDestroyFramebuffer in H1. injection H1 as <- <-.
  bind_inv H H2. apply SetupFramebuffers_Done in H2.
  unfold DestroyCommandBuffers, CreateCommandBuffers, vkAllocateCommandBuffers,
    BuildCommandBuffers, ViewChanged, vk_call, next_vkResult, fresh, VK_CHECK_RESULT in H.
  run_inv H. injection H as <- <-.
  destruct H2 as (-> & Happ & Hlen & Htab).
  remember (framebuffers (app s1)) as fbs eqn:Hfbs.
  unfold resize_calls, targets_match.
  members_simpl. rewrite Happ in *. members_simpl.
  rewrite ?length_handles_from, ?length_vector_resize, ?length_handles_from in *.
  split; [reflexivity |]. split; [reflexivity |].
  repeat split; auto.
Qed.

(** The members that the calls after the wait read; the wait leaves them
    alone. *)
Definition read_by_resize (s : St) :=
  (swapchain (app s), framebuffers (app s), depthStencil (app s),
   drawCmdBuffers (app s), renderPass (app s)).

Abbreviation wait_keeps :=
  (preserves (same_on read_by_resize) (fun e => resize_event e = true)).

Lemma wait_keeps_while_minimized fuel w h : wait_keeps (while_minimized fuel w h).
Proof.
  revert w h. induction fuel as [| fuel IH]; intros w h; simpl; preserves_auto.
Qed.
#[local] Hint Resolve wait_keeps_while_minimized : frame.

Lemma wait_keeps_wait_for_size : wait_keeps wait_for_size.
Proof. unfold wait_for_size. preserves_auto. Qed.

Lemma resize_calls_same w h a1 a2 a' :
  (swapchain a1, framebuffers a1, depthStencil a1, drawCmdBuffers a1, renderPass a1) =
  (swapchain a2, framebuffers a2, depthStencil a2, drawCmdBuffers a2, renderPass a2) ->
  resize_calls w h a1 a' = resize_calls w h a2 a'.
Proof.
  intros [= _ Hfb Hds Hcmd Hpass]. unfold resize_calls.
  rewrite Hfb, Hds, Hcmd, Hpass. reflexivity.
Qed.

(** A run of [ResizeWindow] that returned: the wait, then the calls of
    [resize_calls] at the last size polled. *)
Lemma ResizeWindow_Done s t s' :
  ResizeWindow s = (t, Done tt s') ->
  exists zeros w h,
    Forall (fun p => is_zero_size p = true) zeros /\
    w <> 0 /\ h <> 0 /\
    t = poll_events (zeros ++ [(w, h)]) ++ resize_calls w h (app s) (app s') /\
    renderPass (app s') = renderPass (app s) /\
    targets_match s'.
Proof.
  intros H. rewrite ResizeWindow_split in H. bind_inv H Hw.
  destruct a as [w h]. cbn [fst snd] in H.
  destruct (preserves_run _ _ _ _ _ _ wait_keeps_wait_for_size Hw) as [Hkeep _].
  unfold same_on, read_by_resize, final in Hkeep. cbn [snd] in Hkeep.
  destruct (wait_for_size_polls s) as [[_ Hret] | (first & later & Ht & Ho)].
  { rewrite Hw in Hret. discriminate Hret. }
  rewrite Hw in Ht, Ho. cbn [trace fst snd] in Ht, Ho.
  destruct Ho as (zeros & last & Hps & Hzeros & <- & Hlast).
  destruct (is_zero_size_false _ _ Hlast) as [Hw0 Hh0].
  apply resize_at_Done in H. destruct H as (-> & Hpass & Hmatch).
  exists zeros, w, h.
  split; [exact Hzeros |]. split; [exact Hw0 |]. split; [exact Hh0 |].
  split; [| split; [| exact Hmatch]].
  - rewrite Ht, Hps. f_equal. apply resize_calls_same. exact Hkeep.
  - rewrite Hpass. congruence.
Qed.

(** C2 (amended).  A run of [ResizeWindow] that returns made exactly these
    calls, in this order: the polls of the framebuffer size, all with a
    zero dimension but the last; [vkDeviceWaitIdle]; [Swapchain::Create]
    at the last size polled; the destruction and creation of the
    depth/stencil attachment; the destruction of every old framebuffer and
    the creation of one per view; the release, allocation and recording of
    the draw command buffers; [vkDeviceWaitIdle]; [ViewChanged].  It
    never clears the resize flag: [SubmitFrame] does, just before it calls
    [ResizeWindow]; [PrepareFrame] calls [ResizeWindow] with the flag as
    it is. *)
Theorem ResizeWindow_sequence (s s' : St) (t : list Event) :
  ResizeWindow s = (t, Done tt s') ->
  (exists zeros w h,
     Forall (fun p => is_zero_size p = true) zeros /\
     w <> 0 /\ h <> 0 /\
     t = poll_events (zeros ++ [(w, h)]) ++ resize_calls w h (app s) (app s'))
  /\ count_events is_flag_clear t = 0%nat
  /\ (isFramebufferResized (app s) = true -> isFramebufferResized (app s') = true)
  /\ (forall sp r index rest,
        acquires (world sp) = (r, index) :: rest -> is_stale r = true ->
        exists s0,
          isFramebufferResized (app s0) = isFramebufferResized (app sp) /\
          PrepareFrame sp = (EvAcquireNextImage :: trace (ResizeWindow s0),
                             snd (ResizeWindow s0)))
  /\ (forall sp r rest,
        presents (world sp) = r :: rest ->
        is_stale r || isFramebufferResized (app sp) = true ->
        exists s0,
          isFramebufferResized (app s0) = false /\
          SubmitFrame sp =
            (EvQueuePresent (currentBuffer (app sp)) :: EvResizeFlagCleared
               :: trace (ResizeWindow s0),
             snd (ResizeWindow s0))).
Proof.
  intros H.
  split; [| split; [| split; [| split]]].
  - destruct (ResizeWindow_Done _ _ _ H) as (zeros & w & h & Hz & Hw & Hh & Ht & _).
    exists zeros, w, h. auto.
  - rewrite <- (ResizeWindow_no_flag_clear s), H. reflexivity.
  - destruct (resize_ok_ResizeWindow s) as [[_ Hflag] _].
    rewrite H in Hflag. exact Hflag.
  - intros sp r index rest Ha Hr.
    exists (mkSt (match index with
                  | Some i => set_currentBuffer i (app sp)
                  | None => app sp
                  end) (set_acquires rest (world sp))).
    split; [destruct index; reflexivity |].
    unfold PrepareFrame, Swapchain_AcquiredNextImage.
    autorewrite with run. cbv beta. rewrite Ha.
    destruct index; autorewrite with run; cbn [app world]; rewrite Hr; reflexivity.
  - intros sp r rest Hp Hc.
    exists (mkSt (set_isFramebufferResized false (app sp)) (set_presents rest (world sp))).
    split; [reflexivity |].
    rewrite (SubmitFrame_run _ _ _ Hp). cbv zeta. rewrite Hc. reflexivity.
Qed.

(** A minimized window that is restored to 800 by 600. *)
Definition example_minimized : St :=
  example_state true [(0, 0); (800, 600)] [false] [] []
    (replicate 8 VK_SUCCESS) [Some (2%nat, mkExtent 800 600)].

Lemma ResizeWindow_sequence_witness :
  exists zeros w h,
    Forall (fun p => is_zero_size p = true) zeros /\
    w <> 0 /\ h <> 0 /\
    trace (ResizeWindow example_minimized) =
      poll_events (zeros ++ [(w, h)]) ++
      resize_calls w h (app example_minimized)
        (app (final (ResizeWindow example_minimized))).
Proof.
  destruct (ResizeWindow_sequence example_minimized
              (final (ResizeWindow example_minimized))
              (trace (ResizeWindow example_minimized)))
    as (Hseq & _).
  - vm_compute. reflexivity.
  - exact Hseq.
Defined.

(** C2 (counterexample).  The frame [example_out_of_date_resized]: the
    resize flag is set and the acquisition answers
    [VK_ERROR_OUT_OF_DATE_KHR].  [PrepareFrame] runs [ResizeWindow] to its
    end, down to [ViewChanged]; the flag is not cleared, before or during
    that run, and is still set afterwards. *)
Lemma ResizeWindow_from_PrepareFrame_keeps_flag :
  let run := PrepareFrame example_out_of_date_resized in
  isFramebufferResized (app example_out_of_date_resized) = true /\
  returned run = true /\
  last (trace run) = Some EvViewChanged /\
  count_events is_swapchain_create (trace run) = 1%nat /\
  count_events is_flag_clear (trace run) = 0%nat /\
  isFramebufferResized (app (final run)) = true.
Proof. vm_compute. repeat split; reflexivity. Qed.

(** * The objects that follow the swapchain *)

(** ** What a run that returns maintains *)

Section Maintains.
Context (I : St -> Prop).

Definition maintains {A} (m : M A) : Prop :=
  forall s t a s', I s -> m s = (t, Done a s') -> I s'.

Lemma maintains_ret {A} (a : A) : maintains (ret a).
Proof. intros s t b s' Hs H. inversion H; subst. exact Hs. Qed.

Lemma maintains_fatal {A} : maintains (@fatal A).
Proof. intros s t b s' _ [=]. Qed.

Lemma maintains_block {A} : maintains (@block A).
Proof. intros s t b s' _ [=]. Qed.

Lemma maintains_gets {A} (g : VkBase -> A) : maintains (gets g).
Proof. intros s t b s' Hs H. inversion H; subst. exact Hs. Qed.

Lemma maintains_asks {A} (g : World -> A) : maintains (asks g).
Proof. intros s t b s' Hs H. inversion H; subst. exact Hs. Qed.

Lemma maintains_emit (e : Event) : maintains (emit e).
Proof. intros s t b s' Hs H. inversion H; subst. exact Hs. Qed.

Lemma maintains_modify (g : VkBase -> VkBase) :
  (forall s, I s -> I (mkSt (g (app s)) (world s))) -> maintains (modify g).
Proof. intros Hg s t b s' Hs H. inversion H; subst. apply Hg. exact Hs. Qed.

Lemma maintains_tell_world (g : World -> World) :
  (forall s, I s -> I (mkSt (app s) (g (world s)))) -> maintains (tell_world g).
Proof. intros Hg s t b s' Hs H. inversion H; subst. apply Hg. exact Hs. Qed.

Lemma maintains_bind {A B} (m : M A) (f : A -> M B) :
  maintains m -> (forall a, maintains (f a)) -> maintains (bind m f).
Proof.
  intros Hm Hf s t b s' Hs H.
  apply bind_Done in H. destruct H as (t1 & a & s1 & t2 & H1 & H2 & _).
  eapply Hf; [| exact H2]. eapply Hm; [exact Hs | exact H1].
Qed.
End Maintains.

Ltac maintains_step :=
  lazymatch goal with
  | |- forall _, _ => intros ?
  | |- maintains _ (bind _ _) => apply maintains_bind
  | |- maintains _ (ret _) => apply maintains_ret
  | |- maintains _ fatal => apply maintains_fatal
  | |- maintains _ block => apply maintains_block
  | |- maintains _ (gets _) => apply maintains_gets
  | |- maintains _ (asks _) => apply maintains_asks
  | |- maintains _ (emit _) => apply maintains_emit
  | |- maintains _ (modify _) => apply maintains_modify; intros ? ?; assumption
  | |- maintains _ (tell_world _) => apply maintains_tell_world; intros ? ?; assumption
  | |- maintains _ (match ?x with _ => _ end) => destruct x
  end.

(** The invariant of the frame loop: the render pass is [pass], and the
    framebuffers and draw command buffers follow the swapchain. *)
Definition targets_follow (pass : Handle) (s : St) : Prop :=
  renderPass (app s) = pass /\ targets_match s.

Lemma targets_follow_ResizeWindow pass : maintains (targets_follow pass) ResizeWindow.
Proof.
  intros s t [] s' [Hp _] H.
  destruct (ResizeWindow_Done _ _ _ H) as (_ & _ & _ & _ & _ & _ & _ & Hpass & Hm).
  split; [congruence | exact Hm].
Qed.

Lemma targets_follow_RenderFrame pass : maintains (targets_follow pass) RenderFrame.
Proof.
  pose proof (targets_follow_ResizeWindow pass) as Hres.
  unfold RenderFrame, PrepareFrame, SubmitFrame, Swapchain_AcquiredNextImage,
    Swapchain_QueuePresent, vkQueueSubmit, vkQueueWaitIdle, vk_call, next_vkResult,
    VK_CHECK_RESULT.
  repeat first [ assumption | maintains_step ].
Qed.

Lemma targets_follow_frames pass n : maintains (targets_follow pass) (frames n).
Proof.
  induction n as [| n IH]; simpl.
  - apply maintains_ret.
  - apply maintains_bind; [apply targets_follow_RenderFrame | intros _; exact IH].
Qed.

(** ** Initial setup *)

Lemma CreateFence_loop_Done n : forall i s t s',
  CreateFence_loop n i s = (t, Done tt s') ->
  app s' = set_waitFences (waitFences (app s')) (app s).
Proof.
  induction n as [| n IH]; intros i s t s' H.
  - simpl in H. injection H as _ <-. destruct (app s); reflexivity.
  - cbn [CreateFence_loop] in H.
    unfold vk_call, next_vkResult, fresh, VK_CHECK_RESULT in H.
    run_inv H. apply IH in H. cbn [app world] in H. rewrite H. reflexivity.
Qed.

Lemma OnPostInit_Done s t s' :
  OnPostInit s = (t, Done tt s') -> targets_match s'.
Proof.
  intros H.
  unfold OnPostInit, CreateSwapchain, Swapchain_Create, CreateCommandPool,
    CreateCommandBuffers, vkAllocateCommandBuffers, CreateFence,
    vk_call, next_vkResult, fresh, VK_CHECK_RESULT in H.
  run_inv H.
  bind_inv H Hfence. apply CreateFence_loop_Done in Hfence.
  unfold SetupDepthStencil, Image_Create, ImageView_Create, SetupRenderPass,
    CreatePipelineCache, vk_call, next_vkResult, fresh, VK_CHECK_RESULT in H.
  run_inv H.
  apply SetupFramebuffers_Done in H. destruct H as (_ & Happ & Hlen & Htab).
  remember (framebuffers (app s')) as fbs eqn:Hfbs.
  remember (waitFences (app s1)) as fences eqn:Hfences.
  unfold targets_match. rewrite Happ.
  members_simpl. rewrite Hfence in *. members_simpl.
  rewrite ?length_handles_from, ?length_vector_resize, ?length_handles_from in *.
  repeat split; auto.
Qed.

Lemma OnInit_Done conf hwnd s t s' :
  OnInit conf hwnd s = (t, Done tt s') -> targets_match s'.
Proof.
  intros H.
  unfold OnInit, CreateInstance, SelectPhysicalDevice, Swapchain_Init, Device_Init,
    Device_CreateLogicalDevice, vkGetDeviceQueue, CreateSemaphores, vkCreateSemaphore,
    DebugMessenger_Setup, vk_call, next_vkResult, fresh, VK_CHECK_RESULT,
    BOOST_ASSERT_MSG in H.
  run_inv H; eapply OnPostInit_Done; exact H.
Qed.

(** C6.  When [OnInit] returns, and whenever [ResizeWindow] returns, and
    so after any number of frames: there are as many framebuffers as
    swapchain images and as image views, and every framebuffer is an
    object created for the render pass of the application, which no
    resize changes. *)
Theorem framebuffers_follow_swapchain (conf : Config) (hwnd : Handle)
    (s0 s1 : St) (t0 : list Event) :
  OnInit conf hwnd s0 = (t0, Done tt s1) ->
  let follows (pass : Handle) (s : St) :=
    length (framebuffers (app s)) = length (images (swapchain (app s))) /\
    length (images (swapchain (app s))) = length (views (swapchain (app s))) /\
    renderPass (app s) = pass /\
    forall fb, fb ∈ framebuffers (app s) ->
      exists info,
        framebufferObjects (world s) !! fb = Some info /\
        fci_renderPass info = pass in
  follows (renderPass (app s1)) s1
  /\ (forall s t s', ResizeWindow s = (t, Done tt s') -> follows (renderPass (app s)) s')
  /\ (forall n t s', frames n s1 = (t, Done tt s') -> follows (renderPass (app s1)) s').
Proof.
  intros Hinit follows.
  assert (Hof : forall pass s, targets_follow pass s -> follows pass s).
  { intros pass s [Hp (Hiv & Hfb & _ & Htab)]. unfold follows.
    split; [exact Hfb |]. split; [exact Hiv |]. split; [exact Hp |].
    intros fb Hin. destruct (Htab fb Hin) as (info & Hi & Hr).
    exists info. split; [exact Hi | congruence]. }
  assert (H1 : targets_follow (renderPass (app s1)) s1).
  { split; [reflexivity | eapply OnInit_Done; exact Hinit]. }
  split; [apply Hof; exact H1 |]. split.
  - intros s t s' H. apply Hof.
    destruct (ResizeWindow_Done _ _ _ H) as (_ & _ & _ & _ & _ & _ & _ & Hpass & Hm).
    split; assumption.
  - intros n t s' H. apply Hof.
    eapply targets_follow_frames; [exact H1 | exact H].
Qed.

Lemma framebuffers_follow_swapchain_witness :
  length (framebuffers (app example_started)) =
    length (images (swapchain (app example_started)))
  /\ length (framebuffers (app (final (ResizeWindow example_minimized)))) =
     length (images (swapchain (app (final (ResizeWindow example_minimized)))))
  /\ renderPass (app (final (ResizeWindow example_minimized))) =
     renderPass (app example_minimized).
Proof.
  destruct (framebuffers_follow_swapchain example_config 1%N
              (mkSt VkBase_default example_world) example_started
              (trace (OnInit example_config 1%N (mkSt VkBase_default example_world))))
    as (Hinit & Hresize & _).
  - vm_compute. reflexivity.
  - split; [apply Hinit |].
    destruct (Hresize example_minimized (trace (ResizeWindow example_minimized))
                (final (ResizeWindow example_minimized)))
      as (Hfb & _ & Hpass & _).
    + vm_compute. reflexivity.
    + split; [exact Hfb | exact Hpass].
Defined.

(** C7.  When [OnInit] returns, and whenever [ResizeWindow] returns, and
    so after any number of frames: there are as many draw command buffers
    as swapchain images. *)
Theorem drawCmdBuffers_follow_swapchain (conf : Config) (hwnd : Handle)
    (s0 s1 : St) (t0 : list Event) :
  OnInit conf hwnd s0 = (t0, Done tt s1) ->
  length (drawCmdBuffers (app s1)) = length (images (swapchain (app s1)))
  /\ (forall s t s', ResizeWindow s = (t, Done tt s') ->
        length (drawCmdBuffers (app s')) = length (images (swapchain (app s'))))
  /\ (forall n t s', frames n s1 = (t, Done tt s') ->
        length (drawCmdBuffers (app s')) = length (images (swapchain (app s')))).
Proof.
  intros Hinit.
  assert (H1 : targets_follow (renderPass (app s1)) s1).
  { split; [reflexivity | eapply OnInit_Done; exact Hinit]. }
  split; [apply H1 |]. split.
  - intros s t s' H.
    destruct (ResizeWindow_Done _ _ _ H) as (_ & _ & _ & _ & _ & _ & _ & _ & Hm).
    apply Hm.
  - intros n t s' H.
    eapply (targets_follow_frames _ n s1 t tt s' H1 H).
Qed.

Lemma drawCmdBuffers_follow_swapchain_witness :
  length (drawCmdBuffers (app example_started)) =
    length (images (swapchain (app example_started)))
  /\ length (drawCmdBuffers (app (final (ResizeWindow example_minimized)))) =
     length (images (swapchain (app (final (ResizeWindow example_minimized))))).
Proof.
  destruct (drawCmdBuffers_follow_swapchain example_config 1%N
              (mkSt VkBase_default example_world) example_started
              (trace (OnInit example_config 1%N (mkSt VkBase_default example_world))))
    as (Hinit & Hresize & _).
  - vm_compute. reflexivity.
  - split; [exact Hinit |].
    apply (Hresize example_minimized (trace (ResizeWindow example_minimized))).
    vm_compute. reflexivity.
Defined.

(** * The choice of the physical device *)

(** ** The multimap of scores *)

Lemma elem_of_multimap_emplace k v m x :
  x ∈ multimap_emplace k v m <-> x = (k, v) \/ x ∈ m.
Proof.
  induction m as [| [k' v'] m IH]; simpl.
  - rewrite list_elem_of_singleton. rewrite elem_of_nil. tauto.
  - destruct (Qle_bool k' k).
    + rewrite !elem_of_cons, IH. tauto.
    + rewrite !elem_of_cons. tauto.
Qed.

(** The last entry has the greatest key. *)
Definition last_is_max (m : multimap) : Prop :=
  forall x, last m = Some x -> forall y, y ∈ m -> Qle (fst y) (fst x).

Lemma last_multimap_emplace_cons k v k' v' m :
  Qle_bool k' k = true ->
  last ((k', v') :: multimap_emplace k v m) = last (multimap_emplace k v m).
Proof.
  intros _. destruct m as [| [k2 v2] m]; simpl; [reflexivity |].
  destruct (Qle_bool k2 k); reflexivity.
Qed.

Lemma last_is_max_emplace k v m :
  last_is_max m -> last_is_max (multimap_emplace k v m).
Proof.
  induction m as [| [k' v'] m IH]; intros Hm; simpl.
  - intros x [= <-] y Hy. apply list_elem_of_singleton in Hy. subst y. apply Qle_refl.
  - destruct (Qle_bool k' k) eqn:Hle.
    + assert (Hm' : last_is_max m).
      { intros x Hx y Hy. apply (Hm x).
        - destruct m; [discriminate | exact Hx].
        - apply elem_of_cons. auto. }
      specialize (IH Hm'). intros x Hx y Hy.
      rewrite last_multimap_emplace_cons in Hx by exact Hle.
      apply elem_of_cons in Hy. destruct Hy as [-> | Hy].
      * apply Qle_trans with k; [apply Qle_bool_iff; exact Hle |].
        apply (IH x Hx (k, v)). apply elem_of_multimap_emplace. auto.
      * apply (IH x Hx y Hy).
    + intros x Hx y Hy.
      change (last ((k, v) :: (k', v') :: m)) with (last ((k', v') :: m)) in Hx.
      apply elem_of_cons in Hy. destruct Hy as [-> | Hy].
      * apply Qle_trans with k'.
        -- apply Qlt_le_weak, Qnot_le_lt. intros Hc.
           apply Qle_bool_iff in Hc. cbn [fst] in Hc. congruence.
        -- apply (Hm x Hx (k', v')). apply elem_of_cons. auto.
      * apply (Hm x Hx y Hy).
Qed.

(** The multimap [SelectPhysicalDevice] builds. *)
Definition device_scores (score : Handle -> Q) (devices : list Handle) : multimap :=
  foldl (fun m dev => multimap_emplace (score dev) dev m) [] devices.

Lemma device_scores_foldl score devices : forall acc,
  last_is_max acc ->
  let m := foldl (fun m dev => multimap_emplace (score dev) dev m) acc devices in
  last_is_max m /\
  (forall x, x ∈ m <-> x ∈ acc \/ exists dev, dev ∈ devices /\ x = (score dev, dev)).
Proof.
  induction devices as [| d devices IH]; intros acc Hacc; simpl.
  - split; [exact Hacc |]. intros x. split; [auto |].
    intros [H | (dev & Hd & _)]; [exact H |]. apply elem_of_nil in Hd. contradiction.
  - destruct (IH (multimap_emplace (score d) d acc)) as [Hmax Helem].
    { apply last_is_max_emplace. exact Hacc. }
    split; [exact Hmax |]. intros x. rewrite Helem, elem_of_multimap_emplace.
    split.
    + intros [[-> | H] | (dev & Hd & ->)]; auto.
      * right. exists d. split; [apply elem_of_cons; auto | reflexivity].
      * right. exists dev. split; [apply elem_of_cons; auto | reflexivity].
    + intros [H | (dev & Hd & ->)]; auto.
      apply elem_of_cons in Hd. destruct Hd as [-> | Hd]; auto.
      right. exists dev. auto.
Qed.

(** [scores.rbegin()] is an enumerated device with its score, and no
    enumerated device scores more. *)
Lemma device_scores_rbegin score devices best dev :
  multimap_rbegin (device_scores score devices) = Some (best, dev) ->
  dev ∈ devices /\ best = score dev /\
  forall d, d ∈ devices -> Qle (score d) (score dev).
Proof.
  intros Hlast. unfold multimap_rbegin, device_scores in *.
  destruct (device_scores_foldl score devices []) as [Hmax Helem].
  { intros x [=]. }
  assert (Hin : (best, dev) ∈ foldl (fun m d => multimap_emplace (score d) d m) [] devices).
  { apply last_Some_elem_of. exact Hlast. }
  apply Helem in Hin. destruct Hin as [Hin | (d & Hd & [= -> ->])].
  { apply elem_of_nil in Hin. contradiction. }
  split; [exact Hd |]. split; [reflexivity |].
  intros d' Hd'. apply (Hmax _ Hlast (score d', d')).
  apply Helem. right. exists d'. auto.
Qed.

Lemma device_scores_nonempty score devices :
  devices <> [] -> exists best dev,
    multimap_rbegin (device_scores score devices) = Some (best, dev).
Proof.
  intros Hne. unfold multimap_rbegin.
  destruct (last (device_scores score devices)) as [[best dev] |] eqn:Hlast; [eauto |].
  exfalso. apply last_None in Hlast.
  destruct devices as [| d devices]; [congruence |].
  destruct (device_scores_foldl score (d :: devices) []) as [_ Helem].
  { intros x [=]. }
  assert (Hin : (score d, d) ∈ device_scores score (d :: devices)).
  { apply Helem. right. exists d. split; [apply elem_of_cons; auto | reflexivity]. }
  rewrite Hlast in Hin. apply elem_of_nil in Hin. contradiction.
Qed.

(** ** [SelectPhysicalDevice] and what follows it in [OnInit] *)

Lemma SelectPhysicalDevice_run s :
  SelectPhysicalDevice s =
    let enumerated := [EvEnumeratePhysicalDevices; EvEnumeratePhysicalDevices] in
    match physicalDevices (world s) with
    | [] =>
        if ndebug (world s) then (enumerated, Fatal s)
        else ([EvEnumeratePhysicalDevices], Fatal s)
    | _ :: _ =>
        match multimap_rbegin
                (device_scores (deviceScore (world s)) (physicalDevices (world s))) with
        | Some (best, dev) =>
            if ndebug (world s) || Qle_bool score_threshold best
            then (enumerated, Done dev s)
            else (enumerated, Fatal s)
        | None => (enumerated, Fatal s)
        end
    end.
Proof.
  unfold SelectPhysicalDevice, BOOST_ASSERT_MSG, device_scores.
  autorewrite with run. cbv beta.
  destruct (physicalDevices (world s)) as [| d devices] eqn:Hd.
  - cbn [length Nat.eqb negb].
    destruct (ndebug (world s)) eqn:Hb; autorewrite with run; cbv beta zeta.
    + rewrite Hd. reflexivity.
    + reflexivity.
  - cbn [length Nat.eqb negb].
    destruct (ndebug (world s)) eqn:Hb; autorewrite with run; cbv beta zeta;
      rewrite Hd;
      (destruct (multimap_rbegin _) as [[best dev] |]; [| reflexivity]);
      autorewrite with run; cbv beta; rewrite Hb; cbn [orb].
    + reflexivity.
    + destruct (Qle_bool score_threshold best); autorewrite with run; reflexivity.
Qed.

(** [OnInit] from the call of [Swapchain::Init] on, for the device chosen. *)
Definition OnInit_with_device (physical : Handle) : M unit :=
  Swapchain_Init physical ;;
  Device_Init physical ;;
  let* r := Device_CreateLogicalDevice in
  VK_CHECK_RESULT r ;;
  vkGetDeviceQueue ;;
  CreateSemaphores ;;
  OnPostInit.

(** [OnInit] once [vkCreateDevice] has been called for [physical]. *)
Definition OnInit_with_logical_device (physical : Handle) : M unit :=
  let* r := next_vkResult in
  let* r :=
    match r with
    | VK_SUCCESS =>
        let* h := fresh in
        modify (set_device (mkDevice physical h)) ;;
        ret r
    | _ => ret r
    end in
  VK_CHECK_RESULT r ;;
  vkGetDeviceQueue ;;
  CreateSemaphores ;;
  OnPostInit.

Definition is_create_logical_device (e : Event) : bool :=
  match e with EvCreateLogicalDevice _ => true | _ => false end.

Abbreviation no_logical_device :=
  (preserves (same_on (fun _ => tt)) (fun e => is_create_logical_device e = false)).

Lemma no_logical_device_fresh_n n : no_logical_device (fresh_n n).
Proof. induction n; simpl; preserves_auto. Qed.
#[local] Hint Resolve no_logical_device_fresh_n : frame.

Lemma no_logical_device_CreateFence_loop n i : no_logical_device (CreateFence_loop n i).
Proof. revert i. induction n as [| n IH]; intros i; simpl; preserves_auto. Qed.
#[local] Hint Resolve no_logical_device_CreateFence_loop : frame.

Lemma no_logical_device_SetupFramebuffers_loop pass dv ext n i :
  no_logical_device (SetupFramebuffers_loop pass dv ext n i).
Proof. revert i. induction n as [| n IH]; intros i; simpl; preserves_auto. Qed.
#[local] Hint Resolve no_logical_device_SetupFramebuffers_loop : frame.

Lemma no_logical_device_after_creation physical :
  no_logical_device (OnInit_with_logical_device physical).
Proof. unfold OnInit_with_logical_device. preserves_auto. Qed.

Lemma OnInit_with_device_run physical s :
  exists s2,
    OnInit_with_device physical s =
      (EvSwapchainInit physical :: EvDeviceInit physical
         :: EvCreateLogicalDevice physical
         :: trace (OnInit_with_logical_device physical s2),
       snd (OnInit_with_logical_device physical s2)).
Proof.
  eexists.
  unfold OnInit_with_device, OnInit_with_logical_device, Swapchain_Init, Device_Init,
    Device_CreateLogicalDevice, vk_call.
  autorewrite with run. cbn [app world trace fst snd]. members_simpl.
  cbn [physicalDevice logicalDevice]. reflexivity.
Qed.

(** How [OnInit] goes on after [vkCreateInstance] succeeded: it stops for
    want of a device, it stops on the assertion about the best score (in a
    build that keeps assertions), or it creates the logical device of the
    best-scoring device. *)
Lemma select_then_init s :
  let devices := physicalDevices (world s) in
  let score := deviceScore (world s) in
  let run := bind SelectPhysicalDevice OnInit_with_device s in
  (devices = [] /\
   run = (if ndebug (world s)
          then [EvEnumeratePhysicalDevices; EvEnumeratePhysicalDevices]
          else [EvEnumeratePhysicalDevices],
          Fatal s))
  \/ (exists best dev,
        multimap_rbegin (device_scores score devices) = Some (best, dev) /\
        ndebug (world s) = false /\
        Qle_bool score_threshold best = false /\
        run = ([EvEnumeratePhysicalDevices; EvEnumeratePhysicalDevices], Fatal s))
  \/ (exists best dev s2,
        multimap_rbegin (device_scores score devices) = Some (best, dev) /\
        (ndebug (world s) = false -> Qle_bool score_threshold best = true) /\
        run = (EvEnumeratePhysicalDevices :: EvEnumeratePhysicalDevices
                 :: EvSwapchainInit dev :: EvDeviceInit dev
                 :: EvCreateLogicalDevice dev
                 :: trace (OnInit_with_logical_device dev s2),
               snd (OnInit_with_logical_device dev s2))).
Proof.
  intros devices score run. subst run.
  rewrite bind_run, SelectPhysicalDevice_run. fold devices. fold score.
  destruct devices as [| d ds] eqn:Hd.
  - left. cbv zeta. destruct (ndebug (world s)); auto.
  - right. cbv zeta.
    destruct (device_scores_nonempty score (d :: ds)) as (best & dev & Hlast);
      [discriminate |].
    rewrite Hlast.
    destruct (ndebug (world s) || Qle_bool score_threshold best) eqn:Hgo.
    + right. cbn [snd trace fst].
      destruct (OnInit_with_device_run dev s) as [s2 Hrun].
      exists best, dev, s2. rewrite Hrun. split; [reflexivity |]. split; [| reflexivity].
      intros Hb. rewrite Hb in Hgo. exact Hgo.
    + left. apply orb_false_iff in Hgo. destruct Hgo as [Hb Hle].
      exists best, dev. auto.
Qed.

(** The call of the debug messenger [e], made in a build without [NDEBUG]
    only. *)
Definition debug_call (release : bool) (e : Event) : list Event :=
  if release then [] else [e].

Lemma OnInit_cases conf hwnd s :
  ((forall rs, vkResults (world s) <> VK_SUCCESS :: rs) /\
   trace (OnInit conf hwnd s) = [EvCreateInstance (AppName conf)] /\
   returned (OnInit conf hwnd s) = false /\
   (vkResults (world s) <> [] -> exists s', snd (OnInit conf hwnd s) = Fatal s'))
  \/ exists rs s2,
       vkResults (world s) = VK_SUCCESS :: rs /\
       physicalDevices (world s2) = physicalDevices (world s) /\
       deviceScore (world s2) = deviceScore (world s) /\
       ndebug (world s2) = ndebug (world s) /\
       OnInit conf hwnd s =
         (EvCreateInstance (AppName conf)
            :: debug_call (ndebug (world s)) EvDebugMessengerSetup
            ++ trace (bind SelectPhysicalDevice OnInit_with_device s2),
          snd (bind SelectPhysicalDevice OnInit_with_device s2)).
Proof.
  unfold OnInit. fold OnInit_with_device.
  unfold CreateInstance, DebugMessenger_Setup, vk_call, next_vkResult, fresh,
    VK_CHECK_RESULT.
  autorewrite with run. cbn [app world trace fst snd]. members_simpl.
  cbn [AppName].
  destruct (vkResults (world s)) as [| r rs].
  - left. autorewrite with run. cbn. repeat split; congruence.
  - destruct r; autorewrite with run; cbn [app world trace fst snd];
      try (left; repeat split; eauto; fail).
    right. members_simpl.
    destruct (ndebug (world s)) eqn:Hb; autorewrite with run;
      cbn [debug_call Datatypes.app trace fst snd];
      eexists _, _; (split; [reflexivity |]);
      (split; [| split; [| split; [| reflexivity]]]); try reflexivity;
      members_simpl; auto.
Qed.

Lemma not_elem_of_no_logical_device d t :
  Forall (fun e => is_create_logical_device e = false) t ->
  EvCreateLogicalDevice d ∈ t -> False.
Proof.
  intros Hall Hin. rewrite Forall_forall in Hall.
  specialize (Hall _ Hin). discriminate Hall.
Qed.

Lemma elem_of_debug_call_logical_device release e d :
  is_create_logical_device e = false ->
  EvCreateLogicalDevice d ∈ debug_call release e -> False.
Proof.
  intros He Hin. destruct release; cbn [debug_call] in Hin.
  - apply elem_of_nil in Hin. exact Hin.
  - apply list_elem_of_singleton in Hin. subst e. discriminate He.
Qed.

(** The logical devices that a run of [OnInit] asks for. *)
Lemma OnInit_logical_devices conf hwnd s d :
  EvCreateLogicalDevice d ∈ trace (OnInit conf hwnd s) ->
  d ∈ physicalDevices (world s) /\
  (ndebug (world s) = false -> Qle score_threshold (deviceScore (world s) d)) /\
  forall d', d' ∈ physicalDevices (world s) ->
    Qle (deviceScore (world s) d') (deviceScore (world s) d).
Proof.
  destruct (OnInit_cases conf hwnd s)
    as [(_ & Ht & _ & _) | (rs & s2 & _ & Hd & Hs & Hb & Hrun)].
  { rewrite Ht. intros Hin. apply list_elem_of_singleton in Hin. discriminate. }
  rewrite Hrun. cbn [trace fst]. intros Hin.
  apply elem_of_cons in Hin. destruct Hin as [Hin | Hin]; [discriminate |].
  apply elem_of_app in Hin. destruct Hin as [Hin | Hin].
  { exfalso. eapply elem_of_debug_call_logical_device; [| exact Hin]. reflexivity. }
  destruct (select_then_init s2)
    as [[Hnil Hr] | [(best & dev & Hlast & _ & _ & Hr) | (best & dev & s3 & Hlast & Hle & Hr)]];
    cbv zeta in Hr; rewrite Hr in Hin; cbn [trace fst] in Hin;
    rewrite ?Hd, ?Hs, ?Hb in *.
  - exfalso. destruct (ndebug (world s));
      repeat (apply elem_of_cons in Hin; destruct Hin as [Hin | Hin]; [discriminate |]);
      apply elem_of_nil in Hin; exact Hin.
  - exfalso.
    repeat (apply elem_of_cons in Hin; destruct Hin as [Hin | Hin]; [discriminate |]).
    apply elem_of_nil in Hin. exact Hin.
  - destruct (device_scores_rbegin _ _ _ _ Hlast) as (Hdev & -> & Hmax).
    do 4 (apply elem_of_cons in Hin; destruct Hin as [Hin | Hin]; [discriminate |]).
    apply elem_of_cons in Hin. destruct Hin as [[= ->] | Hin].
    + split; [exact Hdev |]. split; [| exact Hmax].
      intros Hrel. apply Qle_bool_iff. auto.
    + exfalso. eapply not_elem_of_no_logical_device; [| exact Hin].
      apply no_logical_device_after_creation.
Qed.


(** A machine that enumerates no device, and one whose devices all score
    below the threshold, both with a build that keeps assertions. *)
Definition example_no_device : St :=
  mkSt VkBase_default
    (mkWorld [] [] [] [] (replicate 14 VK_SUCCESS)
       [Some (2%nat, mkExtent 640 480)] [] example_score ∅ 100 false).

Definition example_weak_devices : St :=
  mkSt VkBase_default
    (mkWorld [] [] [] [] (replicate 14 VK_SUCCESS)
       [Some (2%nat, mkExtent 640 480)] [7%N; 8%N] (fun _ => 0%Q) ∅ 100 false).

(** The machine of [example_weak_devices], with a build that defines
    [NDEBUG]. *)
Definition example_weak_devices_release : St :=
  mkSt VkBase_default
    (mkWorld [] [] [] [] (replicate 14 VK_SUCCESS)
       [Some (2%nat, mkExtent 640 480)] [7%N; 8%N] (fun _ => 0%Q) ∅ 100 true).



(** * Shutdown *)

Lemma for_each_emit {A} (xs : list A) (f : A -> Event) s :
  for_each xs (fun x => emit (f x)) s = (map f xs, Done tt s).
Proof.
  induction xs as [| x xs IH]; [reflexivity |].
  cbn [for_each]. rewrite bind_emit, IH. reflexivity.
Qed.

Lemma count_events_map_none {A} p (f : A -> Event) xs :
  (forall x, p (f x) = false) -> count_events p (map f xs) = 0%nat.
Proof.
  intros H. induction xs as [| x xs IH]; simpl; [reflexivity |].
  rewrite H, IH. reflexivity.
Qed.

(** The two semaphores live until [OnDestroy], which destroys each once. *)
Lemma OnDestroy_destroys_semaphores s :
  returned (OnDestroy s) = true /\
  count_events is_semaphore_destroy (trace (OnDestroy s)) = 2%nat /\
  count_events is_semaphore_create (trace (OnDestroy s)) = 0%nat.
Proof.
  unfold OnDestroy, OnPreDestroy, Swapchain_Destroy, DestroyCommandBuffers,
    DestroyDepthStencil, DestroySyncObjects, DebugMessenger_Cleanup.
  assert (Hpool : forall pool (k : unit -> M unit) s0,
    bind (if N.eqb pool VK_NULL_HANDLE then ret tt
          else emit (EvDestroyDescriptorPool pool)) k s0 =
    ((if N.eqb pool VK_NULL_HANDLE then [] else [EvDestroyDescriptorPool pool])
       ++ trace (k tt s0), snd (k tt s0))).
  { intros pool k s0. destruct (N.eqb pool VK_NULL_HANDLE); autorewrite with run.
    - apply run_eta.
    - reflexivity. }
  autorewrite with run. cbv beta. rewrite Hpool.
  autorewrite with run. cbv beta.
  rewrite bind_run, for_each_vkDestroyFramebuffer. cbn [snd trace fst].
  autorewrite with run. cbv beta. cbn [app world].
  rewrite bind_run, for_each_emit. cbn [snd trace fst].
  autorewrite with run. cbn [app world]. members_simpl.
  destruct (ndebug (world s)); autorewrite with run; cbn [trace fst snd returned];
  (split; [reflexivity |]);
  destruct (N.eqb (descriptorPool (app s)) VK_NULL_HANDLE);
    repeat first
      [ rewrite count_events_app
      | rewrite count_events_map_none by reflexivity
      | progress cbn [count_events is_semaphore_destroy is_semaphore_create Nat.add] ];
    split; reflexivity.
Qed.

(** * [Json::Parse] *)

Module Json.

(** The values of [nlohmann::json]. *)
#[local] Unset Elimination Schemes.
Inductive json : Type :=
| JNull
| JBool (b : bool)
| JNumber (n : Z)
| JString (s : string)
| JArray (items : list json)
| JObject (members : list (string * json)).
#[local] Set Elimination Schemes.

(** What [Parse] meets outside: the files that can be opened for reading,
    each with its contents, and what the library's [operator>>] makes of a
    document: the value it stores, or [None] when it throws
    [nlohmann::json::parse_error]. *)
Record Env : Type := mkEnv {
  files : gmap string string;
  extract : string -> option json
}.

(** How a call of [Parse] ends: it returns a [std::optional], or the
    exception of the extraction leaves it. *)
Inductive Result : Type :=
| Returned (config : option json)
| Thrown.

Definition Parse (env : Env) (filepath : string) : Result :=
  match files env !! filepath with
  | None => Returned None                      (* if (!ifs) return std::nullopt; *)
  | Some document =>
      match extract env document with          (* ifs >> config; *)
      | Some config => Returned (Some config)  (* return std::make_optional(config); *)
      | None => Thrown
      end
  end.

(** The library's answers on the documents of the examples below: the
    empty document is not a JSON text, and the document of two braces is
    the empty object.  No other document is used. *)
Definition example_extract (document : string) : option json :=
  if String.eqb document "{}" then Some (JObject []) else None.

Definition example_env : Env :=
  mkEnv (<["config.json" := "{}"]> (<["empty.json" := ""]> ∅)) example_extract.

(** C10 (amended).  [Parse] returns [nullopt] exactly when the file cannot
    be opened.  When the file can be opened, what [Parse] does is what the
    extraction does: it returns the value parsed from the contents, or,
    when the contents are not a JSON text, it does not return: the
    exception of the library leaves it. *)
Theorem Parse_result (env : Env) (filepath : string) :
  (Parse env filepath = Returned None <-> files env !! filepath = None)
  /\ (forall document, files env !! filepath = Some document ->
        Parse env filepath =
          match extract env document with
          | Some config => Returned (Some config)
          | None => Thrown
          end).
Proof.
  unfold Parse. split.
  - destruct (files env !! filepath) as [document |]; [| tauto].
    destruct (extract env document); split; discriminate.
  - intros document ->. reflexivity.
Qed.

Lemma Parse_result_witness :
  Parse example_env "config.json" = Returned (Some (JObject []))
  /\ Parse example_env "missing.json" = Returned None.
Proof.
  destruct (Parse_result example_env "config.json") as [_ Hopen].
  destruct (Parse_result example_env "missing.json") as [Hmissing _].
  split.
  - rewrite (Hopen "{}"); [reflexivity | vm_compute; reflexivity].
  - apply Hmissing. vm_compute. reflexivity.
Defined.

(** C10 (counterexample).  The file [empty.json] can be opened, and
    [Parse] returns no value for it, neither a JSON value nor [nullopt]. *)
Lemma Parse_throws_on_empty_file :
  files example_env !! "empty.json" = Some ""%string /\
  Parse example_env "empty.json" = Thrown /\
  ~ (forall env filepath,
       is_Some (files env !! filepath) ->
       exists config, Parse env filepath = Returned (Some config)).
Proof.
  assert (Hfile : files example_env !! "empty.json" = Some ""%string)
    by (vm_compute; reflexivity).
  assert (Hparse : Parse example_env "empty.json" = Thrown)
    by (vm_compute; reflexivity).
  split; [exact Hfile |]. split; [exact Hparse |].
  intros Hclaim.
  destruct (Hclaim example_env "empty.json") as [config Hc].
  - rewrite Hfile. eauto.
  - rewrite Hparse in Hc. discriminate Hc.
Qed.

End Json.

(** * Further properties of the frame *)

Lemma PrepareFrame_run s r index rest :
  acquires (world s) = (r, index) :: rest ->
  PrepareFrame s =
    let s0 :=
      mkSt (match index with
            | Some i => set_currentBuffer i (app s)
            | None => app s
            end) (set_acquires rest (world s)) in
    if is_stale r then
      (EvAcquireNextImage :: trace (ResizeWindow s0), snd (ResizeWindow s0))
    else
      match r with
      | VK_SUCCESS => ([EvAcquireNextImage], Done tt s0)
      | _ => ([EvAcquireNextImage], Fatal s0)
      end.
Proof.
  intros Ha. unfold PrepareFrame, Swapchain_AcquiredNextImage, VK_CHECK_RESULT.
  autorewrite with run. cbv beta. rewrite Ha. cbv zeta.
  destruct index; autorewrite with run; cbn [app world];
    destruct (is_stale r) eqn:Hr; try reflexivity;
    destruct r; try discriminate Hr; reflexivity.
Qed.

(** The submit-info as [RenderFrame] leaves it for image [i]. *)
Definition submit_for (i : N) (si : VkSubmitInfo) : VkSubmitInfo :=
  mkSubmitInfo (pWaitDstStageMask si) (waitSemaphoreCount si) (pWaitSemaphores si)
    (signalSemaphoreCount si) (pSignalSemaphores si) 1 (AddrDrawCmdBuffer i).

(** X1.  An acquisition that ends with any status but success, out-of-date and
    suboptimal ends the process there: nothing is submitted or presented. *)
Theorem RenderFrame_acquire_error_is_fatal (s : St) (r : VkResult)
    (index : option N) (rest : list (VkResult * option N)) :
  acquires (world s) = (r, index) :: rest ->
  is_stale r = false ->
  r <> VK_SUCCESS ->
  exists s', RenderFrame s = ([EvAcquireNextImage], Fatal s').
Proof.
  intros Ha Hstale Hr. unfold RenderFrame.
  rewrite bind_run, (PrepareFrame_run _ _ _ _ Ha). cbv zeta. rewrite Hstale.
  destruct r; try congruence; cbn [snd trace fst]; eexists; reflexivity.
Qed.

Lemma RenderFrame_acquire_error_is_fatal_witness :
  exists s',
    RenderFrame (example_state false [] [] [(VK_ERROR_DEVICE_LOST, None)] [] [] [])
    = ([EvAcquireNextImage], Fatal s').
Proof.
  apply (RenderFrame_acquire_error_is_fatal _ VK_ERROR_DEVICE_LOST None []).
  - reflexivity.
  - reflexivity.
  - discriminate.
Defined.

(** X2.  A submission that fails ends the process before the presentation: the
    frame made the acquisition and the submission, and no other call. *)
Theorem RenderFrame_submit_error_is_fatal (s : St) (index : option N)
    (rest : list (VkResult * option N)) (r : VkResult) (rs : list VkResult) :
  acquires (world s) = (VK_SUCCESS, index) :: rest ->
  vkResults (world s) = r :: rs ->
  r <> VK_SUCCESS ->
  let i := match index with Some i => i | None => currentBuffer (app s) end in
  exists s',
    RenderFrame s =
      ([EvAcquireNextImage; EvQueueSubmit (submit_for i (submitInfo (app s)))],
       Fatal s').
Proof.
  intros Ha Hv Hr i. subst i. unfold RenderFrame.
  rewrite bind_run, (PrepareFrame_run _ _ _ _ Ha). cbv zeta.
  cbn [is_stale VkResult_eqb orb snd trace fst].
  unfold vkQueueSubmit, vk_call, next_vkResult, VK_CHECK_RESULT, submit_for.
  autorewrite with run. cbn [app world]. members_simpl. rewrite Hv.
  destruct index; members_simpl;
    destruct r; try congruence; autorewrite with run; cbn [trace fst snd];
    eexists; reflexivity.
Qed.

Lemma RenderFrame_submit_error_is_fatal_witness :
  exists s',
    RenderFrame (example_state false [] [] [(VK_SUCCESS, Some 1%N)] [VK_SUCCESS]
                   [VK_ERROR_DEVICE_LOST] [])
    = ([EvAcquireNextImage;
        EvQueueSubmit
          (mkSubmitInfo AddrSubmitPipelineStages 1 AddrPresentComplete
             1 AddrRenderComplete 1 (AddrDrawCmdBuffer 1))],
       Fatal s').
Proof.
  apply (RenderFrame_submit_error_is_fatal
           (example_state false [] [] [(VK_SUCCESS, Some 1%N)] [VK_SUCCESS]
              [VK_ERROR_DEVICE_LOST] [])
           (Some 1%N) [] VK_ERROR_DEVICE_LOST []).
  - reflexivity.
  - reflexivity.
  - discriminate.
Defined.

(** X3.  An error status of the presentation (any but success, out-of-date and
    suboptimal) ends the process when the resize flag is unset.  When the
    flag is set the status is not looked at: the flag is cleared and
    [ResizeWindow] runs, as for a stale swapchain. *)
Theorem SubmitFrame_present_error (s : St) (r : VkResult) (rest : list VkResult) :
  presents (world s) = r :: rest ->
  is_stale r = false ->
  r <> VK_SUCCESS ->
  let present := EvQueuePresent (currentBuffer (app s)) in
  let s1 := mkSt (app s) (set_presents rest (world s)) in
  let s2 := mkSt (set_isFramebufferResized false (app s)) (set_presents rest (world s)) in
  (isFramebufferResized (app s) = false -> SubmitFrame s = ([present], Fatal s1))
  /\ (isFramebufferResized (app s) = true ->
      SubmitFrame s =
        (present :: EvResizeFlagCleared :: trace (ResizeWindow s2),
         snd (ResizeWindow s2))).
Proof.
  intros Hp Hstale Hr present s1 s2. subst present s1 s2.
  rewrite (SubmitFrame_run _ _ _ Hp). cbv zeta. rewrite Hstale.
  split; intros ->; cbn [orb]; [| reflexivity].
  destruct r; try congruence; reflexivity.
Qed.

(** A presentation that loses the device, with the resize flag set or not. *)
Definition example_present_lost (resized : bool) : St :=
  example_state resized [(800, 600)] [] [] [VK_ERROR_DEVICE_LOST]
    (replicate 8 VK_SUCCESS) [Some (2%nat, mkExtent 800 600)].

Lemma SubmitFrame_present_error_witness :
  (exists s1, SubmitFrame (example_present_lost false) =
                ([EvQueuePresent (currentBuffer (app (example_present_lost false)))],
                 Fatal s1))
  /\ (exists s2, SubmitFrame (example_present_lost true) =
                   (EvQueuePresent (currentBuffer (app (example_present_lost true)))
                      :: EvResizeFlagCleared :: trace (ResizeWindow s2),
                    snd (ResizeWindow s2))).
Proof.
  split.
  - destruct (SubmitFrame_present_error (example_present_lost false)
                VK_ERROR_DEVICE_LOST []) as [Hunset _].
    + vm_compute. reflexivity.
    + reflexivity.
    + discriminate.
    + eexists. apply Hunset. vm_compute. reflexivity.
  - destruct (SubmitFrame_present_error (example_present_lost true)
                VK_ERROR_DEVICE_LOST []) as [_ Hset].
    + vm_compute. reflexivity.
    + reflexivity.
    + discriminate.
    + eexists. apply Hset. vm_compute. reflexivity.
Defined.

(** X4.  The steady frame.  When the acquisition gives image [i], and the
    submission, the presentation and the wait succeed, with the resize flag
    unset: the frame makes four calls, acquire, submit, present, wait; it
    submits the command buffer of image [i], with the wait and signal
    fields of the template, and presents image [i]; of the application it
    changes [currentBuffer] and the command-buffer fields of [submitInfo]
    only. *)
Theorem RenderFrame_steady (s : St) (i : N) (rest : list (VkResult * option N))
    (rs : list VkResult) (ps : list VkResult) :
  acquires (world s) = (VK_SUCCESS, Some i) :: rest ->
  vkResults (world s) = VK_SUCCESS :: VK_SUCCESS :: rs ->
  presents (world s) = VK_SUCCESS :: ps ->
  isFramebufferResized (app s) = false ->
  RenderFrame s =
    ([EvAcquireNextImage;
      EvQueueSubmit (submit_for i (submitInfo (app s)));
      EvQueuePresent i;
      EvQueueWaitIdle],
     Done tt
       (mkSt (set_submitInfo (submit_for i (submitInfo (app s)))
                (set_currentBuffer i (app s)))
             (set_vkResults rs (set_presents ps (set_acquires rest (world s)))))).
Proof.
  intros Ha Hv Hp Hflag. unfold RenderFrame.
  rewrite bind_run, (PrepareFrame_run _ _ _ _ Ha). cbv zeta.
  cbn [is_stale VkResult_eqb orb snd trace fst].
  unfold vkQueueSubmit, vk_call, next_vkResult, VK_CHECK_RESULT.
  autorewrite with run. cbn [app world]. members_simpl. rewrite Hv.
  autorewrite with run. cbn [app world trace fst snd].
  erewrite SubmitFrame_run; [| cbn [app world]; members_simpl; exact Hp].
  cbv zeta. cbn [app world]. members_simpl. rewrite Hflag.
  cbn [is_stale VkResult_eqb orb]. unfold wait_after_present.
  cbn [app world]. members_simpl. cbn [trace fst snd].
  unfold submit_for, set_vkResults, set_presents, set_acquires. members_simpl.
  reflexivity.
Qed.

Lemma RenderFrame_steady_witness :
  trace (RenderFrame example_steady) =
    [EvAcquireNextImage;
     EvQueueSubmit (submit_for 1 (submitInfo (app example_steady)));
     EvQueuePresent 1;
     EvQueueWaitIdle].
Proof.
  rewrite (RenderFrame_steady example_steady 1%N [] [] []); reflexivity.
Defined.

(** * Further properties of the choice of the physical device *)

Lemma Qle_bool_false k k' : Qle_bool k' k = false -> Qlt k k'.
Proof.
  intros H. apply Qnot_le_lt. intros Hc. apply Qle_bool_iff in Hc. congruence.
Qed.

(** Where [emplace] leaves the last entry of a multimap whose last entry
    has the greatest key. *)
Lemma last_multimap_emplace k v m :
  last_is_max m ->
  last (multimap_emplace k v m) =
    match last m with
    | None => Some (k, v)
    | Some (k', v') => if Qle_bool k' k then Some (k, v) else Some (k', v')
    end.
Proof.
  induction m as [| [k1 v1] m IH]; intros Hm; [reflexivity |].
  cbn [multimap_emplace]. destruct (Qle_bool k1 k) eqn:Hle.
  - rewrite last_multimap_emplace_cons by exact Hle.
    destruct m as [| e m'].
    + cbn. rewrite Hle. reflexivity.
    + rewrite IH; [rewrite last_cons_cons; reflexivity |].
      intros x Hx y Hy. apply (Hm x); [rewrite last_cons_cons; exact Hx |].
      apply elem_of_cons. auto.
  - change (last ((k, v) :: (k1, v1) :: m)) with (last ((k1, v1) :: m)).
    destruct (last ((k1, v1) :: m)) as [[k' v'] |] eqn:Hlast;
      [| apply last_None in Hlast; discriminate Hlast].
    assert (Hk1 : Qle k1 k').
    { apply (Hm _ Hlast (k1, v1)). apply elem_of_cons. auto. }
    destruct (Qle_bool k' k) eqn:Hle'; [| reflexivity].
    exfalso. apply Qle_bool_iff in Hle'.
    apply (Qlt_not_le _ _ (Qle_bool_false _ _ Hle)).
    apply Qle_trans with k'; assumption.
Qed.

Lemma device_scores_last_is_max score devices :
  last_is_max (device_scores score devices).
Proof.
  destruct (device_scores_foldl score devices []) as [Hmax _]; [| exact Hmax].
  intros x [=].
Qed.

(** [scores.rbegin()] is the last of the devices with the greatest score:
    no device enumerated before it scores more, and every device
    enumerated after it scores less. *)
Lemma device_scores_rbegin_last score devices : forall best dev,
  multimap_rbegin (device_scores score devices) = Some (best, dev) ->
  exists before after,
    devices = before ++ dev :: after /\
    best = score dev /\
    (forall d, d ∈ before -> Qle (score d) (score dev)) /\
    (forall d, d ∈ after -> Qlt (score d) (score dev)).
Proof.
  induction devices as [| d devices IH] using rev_ind; intros best dev Hlast.
  - discriminate Hlast.
  - unfold multimap_rbegin, device_scores in *. rewrite foldl_snoc in Hlast.
    rewrite last_multimap_emplace in Hlast by apply device_scores_last_is_max.
    fold (device_scores score devices) in *.
    destruct (last (device_scores score devices)) as [[k' v'] |] eqn:Hprev.
    + destruct (Qle_bool k' (score d)) eqn:Hle.
      * injection Hlast as <- <-.
        exists devices, []. repeat split; auto.
        -- intros d' Hd'.
           destruct (device_scores_rbegin score devices k' v' Hprev) as (_ & -> & Hmax).
           apply Qle_trans with (score v'); [apply Hmax; exact Hd' |].
           apply Qle_bool_iff. exact Hle.
        -- intros d' Hd'. apply elem_of_nil in Hd'. contradiction.
      * injection Hlast as <- <-.
        destruct (IH k' v' eq_refl) as (before & after & -> & -> & Hb & Ha).
        exists before, (after ++ [d]). rewrite <- app_assoc. repeat split; auto.
        intros d' Hd'. apply elem_of_app in Hd'. destruct Hd' as [Hd' | Hd'].
        -- apply Ha. exact Hd'.
        -- apply list_elem_of_singleton in Hd'. subst d'.
           apply Qle_bool_false. exact Hle.
    + injection Hlast as <- <-.
      apply last_None in Hprev.
      destruct devices as [| d0 devices].
      * exists [], []. repeat split; auto; intros d' Hd';
          apply elem_of_nil in Hd'; contradiction.
      * exfalso.
        destruct (device_scores_nonempty score (d0 :: devices)) as (b & v & Hsome);
          [discriminate |].
        unfold multimap_rbegin in Hsome. rewrite Hprev in Hsome. discriminate Hsome.
Qed.

(** X5.  [SelectPhysicalDevice] returns the device with the greatest score, the
    last enumerated of them when several share it, and it leaves the
    application as it was.  In a build that keeps assertions it returns
    only when that score reaches the threshold; with [NDEBUG] it returns
    that device whatever its score. *)
Theorem SelectPhysicalDevice_returns_last_best (s s' : St) (t : list Event)
    (dev : Handle) :
  SelectPhysicalDevice s = (t, Done dev s') ->
  let score := deviceScore (world s) in
  s' = s /\
  (ndebug (world s) = false -> Qle score_threshold (score dev)) /\
  exists before after,
    physicalDevices (world s) = before ++ dev :: after /\
    (forall d, d ∈ before -> Qle (score d) (score dev)) /\
    (forall d, d ∈ after -> Qlt (score d) (score dev)).
Proof.
  intros H score. subst score. rewrite SelectPhysicalDevice_run in H.
  cbv zeta in H.
  destruct (physicalDevices (world s)) as [| d0 ds] eqn:Hd;
    [destruct (ndebug (world s)); discriminate H |].
  destruct (multimap_rbegin _) as [[best dev'] |] eqn:Hlast; [| discriminate H].
  destruct (ndebug (world s) || Qle_bool score_threshold best) eqn:Hgo;
    [| discriminate H].
  injection H as _ <- <-.
  destruct (device_scores_rbegin_last _ _ _ _ Hlast) as (before & after & Heq & -> & Hb & Ha).
  split; [reflexivity |]. split.
  - intros Hbuild. rewrite Hbuild in Hgo. apply Qle_bool_iff. exact Hgo.
  - exists before, after. auto.
Qed.

(** With [NDEBUG], a device below the threshold is returned all the same:
    nothing but the greatest score decides. *)
Lemma SelectPhysicalDevice_release_returns s best dev :
  ndebug (world s) = true ->
  multimap_rbegin (device_scores (deviceScore (world s)) (physicalDevices (world s)))
    = Some (best, dev) ->
  SelectPhysicalDevice s =
    ([EvEnumeratePhysicalDevices; EvEnumeratePhysicalDevices], Done dev s).
Proof.
  intros Hbuild Hlast. rewrite SelectPhysicalDevice_run. cbv zeta.
  destruct (physicalDevices (world s)) as [| d0 ds] eqn:Hd.
  - discriminate Hlast.
  - rewrite Hlast, Hbuild. reflexivity.
Qed.

(** Two devices with the same score. *)
Definition example_tied_devices : St :=
  mkSt VkBase_default
    (mkWorld [] [] [] [] [] [] [7%N; 8%N] (fun _ => 1%Q) ∅ 100 false).

Lemma SelectPhysicalDevice_returns_last_best_witness :
  exists before after,
    physicalDevices (world example_tied_devices) = before ++ 8%N :: after /\
    (forall d, d ∈ before -> Qle 1 1) /\
    (forall d, d ∈ after -> Qlt 1 1).
Proof.
  destruct (SelectPhysicalDevice_returns_last_best example_tied_devices
              example_tied_devices
              [EvEnumeratePhysicalDevices; EvEnumeratePhysicalDevices] 8%N)
    as (_ & _ & Hsplit).
  - vm_compute. reflexivity.
  - exact Hsplit.
Defined.

(** * Further properties of the resize path *)

(** ** A window that stays minimized *)

(** The wait takes the sizes from the script in order, one per poll, and
    it never fails. *)
Lemma while_minimized_account fuel : forall w h s,
  polls_of (trace (while_minimized fuel w h s))
    ++ fbSizes (world (final (while_minimized fuel w h s))) = fbSizes (world s)
  /\ (forall s', snd (while_minimized fuel w h s) <> Fatal s').
Proof.
  induction fuel as [| fuel IH]; intros w h s; cbn [while_minimized].
  - destruct ((w =? 0) || (h =? 0)); split; try reflexivity; discriminate.
  - destruct ((w =? 0) || (h =? 0)); [| split; [reflexivity | discriminate]].
    unfold glfwGetFramebufferSize, glfwWaitEvents, OnResized.
    autorewrite with run. cbv beta.
    destruct (fbSizes (world s)) as [| [w1 h1] rest] eqn:Hs.
    { autorewrite with run. unfold final. cbn. rewrite Hs.
      split; [reflexivity | discriminate]. }
    autorewrite with run. cbn [app world].
    change (windowEvents (set_fbSizes rest (world s))) with (windowEvents (world s)).
    destruct (windowEvents (world s)) as [| ev evs].
    { autorewrite with run. unfold final. cbn. split; [reflexivity | discriminate]. }
    assert (Hstep : forall a,
      let s1 := mkSt a (set_windowEvents evs (set_fbSizes rest (world s))) in
      polls_of (trace (while_minimized fuel w1 h1 s1))
        ++ fbSizes (world (final (while_minimized fuel w1 h1 s1))) = rest
      /\ (forall s', snd (while_minimized fuel w1 h1 s1) <> Fatal s')).
    { intros a s1. destruct (IH w1 h1 s1) as [Heq Hnf]. split; [exact Heq | exact Hnf]. }
    destruct ev; autorewrite with run; cbn [app world];
      match goal with |- context [while_minimized fuel w1 h1 (mkSt ?a _)] =>
        destruct (Hstep a) as [Heq Hnf] end;
      clear Hstep IH; unfold final, trace in *; cbn [fst snd polls_of] in *;
      (split; [cbn [Datatypes.app]; f_equal; exact Heq | exact Hnf]).
Qed.

Lemma wait_for_size_account s :
  polls_of (trace (wait_for_size s))
    ++ fbSizes (world (final (wait_for_size s))) = fbSizes (world s)
  /\ (forall s', snd (wait_for_size s) <> Fatal s').
Proof.
  unfold wait_for_size, glfwGetFramebufferSize.
  autorewrite with run. cbv beta.
  destruct (fbSizes (world s)) as [| [w h] rest] eqn:Hs.
  { autorewrite with run. unfold final. cbn. rewrite Hs.
    split; [reflexivity | discriminate]. }
  autorewrite with run. cbn [app world].
  match goal with |- context [while_minimized ?f w h ?s1] =>
    destruct (while_minimized_account f w h s1) as [Heq Hnf] end.
  unfold final, trace in *. cbn [fst snd polls_of app world] in *.
  change (fbSizes (set_fbSizes rest (world s))) with rest in Heq.
  split; [cbn [Datatypes.app]; f_equal; exact Heq | exact Hnf].
Qed.

Definition is_poll_or_wait (e : Event) : bool :=
  match e with EvGetFramebufferSize _ _ | EvWaitEvents => true | _ => false end.

Lemma poll_events_poll_or_wait ps :
  Forall (fun e => is_poll_or_wait e = true) (poll_events ps).
Proof.
  destruct ps as [| p ps]; [constructor |]. cbn [poll_events]. constructor; [reflexivity |].
  induction ps as [| q ps IH]; simpl; repeat constructor. exact IH.
Qed.

(** X6.  While the window reports a zero dimension at every poll,
    [ResizeWindow] does not return and does not fail: it is blocked, and
    it has made no call but polls of the size and waits for events, the
    polls answered by the sizes of the script in order. *)
Theorem ResizeWindow_minimized (s : St) :
  Forall (fun p => is_zero_size p = true) (fbSizes (world s)) ->
  (exists s', snd (ResizeWindow s) = Blocked s') /\
  Forall (fun e => is_poll_or_wait e = true) (trace (ResizeWindow s)) /\
  exists left, polls_of (trace (ResizeWindow s)) ++ left = fbSizes (world s).
Proof.
  intros Hall.
  destruct (wait_for_size_account s) as [Hacc Hnf].
  assert (Hwait : exists s', snd (wait_for_size s) = Blocked s').
  { destruct (wait_for_size_polls s) as [[_ Hret] | (first & later & Ht & Ho)].
    - unfold returned in Hret.
      destruct (snd (wait_for_size s)) as [? ? | s1 | s1] eqn:Hs;
        [discriminate | exfalso; eapply Hnf; reflexivity | eauto].
    - destruct (snd (wait_for_size s)) as [size s1 | s1 | s1] eqn:Hs;
        [| exfalso; eapply Hnf; reflexivity | eauto].
      exfalso. destruct Ho as (zeros & last & Hps & _ & -> & Hlast).
      rewrite Ht, polls_of_poll_events, Hps in Hacc.
      rewrite <- Hacc in Hall. rewrite <- app_assoc in Hall.
      apply Forall_app in Hall. destruct Hall as [_ Hall].
      apply Forall_cons in Hall. destruct Hall as [Hz _]. congruence. }
  destruct Hwait as [s' Hs'].
  assert (Hrun : ResizeWindow s = (trace (wait_for_size s), Blocked s')).
  { rewrite ResizeWindow_split, bind_run, Hs'. reflexivity. }
  rewrite Hrun. cbn [snd trace fst]. split; [eauto |]. split.
  - destruct (wait_for_size_polls s) as [[Ht _] | (first & later & Ht & _)];
      rewrite Ht; [constructor | apply poll_events_poll_or_wait].
  - eexists. exact Hacc.
Qed.

Lemma ResizeWindow_minimized_witness :
  exists s',
    snd (ResizeWindow (example_state false [(0, 0); (0, 600)] [false; false] [] []
                         [] [])) = Blocked s'.
Proof.
  destruct (ResizeWindow_minimized
              (example_state false [(0, 0); (0, 600)] [false; false] [] [] [] []))
    as (Hb & _).
  - repeat constructor.
  - exact Hb.
Defined.

(** * Runs that return *)

(** [returns x P]: the run [x] returned, with a value and in a state that
    satisfy [P]. *)
Definition returns {A} (x : list Event * Res A) (P : A -> St -> Prop) : Prop :=
  exists t a s', x = (t, Done a s') /\ P a s'.

Lemma returns_Done {A} t (a : A) s (P : A -> St -> Prop) :
  P a s -> returns (t, Done a s) P.
Proof. intros H. exists t, a, s. auto. Qed.

Lemma returns_emit e s (P : unit -> St -> Prop) : P tt s -> returns (emit e s) P.
Proof. apply returns_Done. Qed.

Lemma returns_bind {A B} (m : M A) (f : A -> M B) s (P : B -> St -> Prop) :
  returns (m s) (fun a s1 => returns (f a s1) P) -> returns (bind m f s) P.
Proof.
  intros (t1 & a & s1 & Hm & t2 & b & s2 & Hf & HP).
  exists (t1 ++ t2), b, s2. split; [| exact HP].
  eapply bind_Done_intro; eauto.
Qed.

Lemma returns_bind_emit {B} e (f : unit -> M B) s (P : B -> St -> Prop) :
  returns (f tt s) P -> returns (bind (emit e) f s) P.
Proof. intros H. apply returns_bind, returns_emit, H. Qed.

Lemma returns_weaken {A} (x : list Event * Res A) (P Q : A -> St -> Prop) :
  returns x P -> (forall a s, P a s -> Q a s) -> returns x Q.
Proof. intros (t & a & s & Hx & HP) HPQ. exists t, a, s. auto. Qed.

Ltac returns_step :=
  lazymatch goal with
  | |- returns _ _ =>
      first
        [ apply returns_bind_emit
        | apply returns_Done
        | apply returns_emit
        | progress autorewrite with inv
        | progress (cbn [app world]; members_simpl) ]
  end.

(** ** A resize in a cooperating environment *)

(** The part of the script the wait does not read. *)
Definition script_after_wait (s : St) :=
  (swapchainCreates (world s), vkResults (world s)).

Abbreviation wait_keeps_script :=
  (preserves (same_on script_after_wait) (fun e => resize_event e = true)).

Lemma wait_keeps_script_while_minimized fuel w h :
  wait_keeps_script (while_minimized fuel w h).
Proof.
  revert w h. induction fuel as [| fuel IH]; intros w h; simpl; preserves_auto.
Qed.
#[local] Hint Resolve wait_keeps_script_while_minimized : frame.

Lemma wait_keeps_script_wait_for_size : wait_keeps_script wait_for_size.
Proof. unfold wait_for_size. preserves_auto. Qed.

(** When every creation succeeds, the loop of [SetupFramebuffers] returns,
    having read one result per framebuffer. *)
Lemma SetupFramebuffers_loop_returns pass dv ext n : forall i s rs,
  vkResults (world s) = replicate n VK_SUCCESS ++ rs ->
  returns (SetupFramebuffers_loop pass dv ext n i s)
    (fun _ s' =>
       vkResults (world s') = rs /\
       swapchainCreates (world s') = swapchainCreates (world s)).
Proof.
  induction n as [| n IH]; intros i s rs Hv.
  - apply returns_Done. auto.
  - cbn [SetupFramebuffers_loop].
    unfold vkCreateFramebuffer, vk_call, next_vkResult, fresh, VK_CHECK_RESULT.
    repeat returns_step. rewrite Hv. cbn [replicate Datatypes.app].
    repeat returns_step.
    eapply returns_weaken; [apply (IH (S i) _ rs); reflexivity |].
    cbn beta. intros _ s'. members_simpl. auto.
Qed.

Lemma resize_at_returns w h s n ext creates results :
  swapchainCreates (world s) = Some (n, ext) :: creates ->
  vkResults (world s) =
    VK_SUCCESS :: VK_SUCCESS :: replicate n VK_SUCCESS ++ VK_SUCCESS :: results ->
  returns (resize_at w h s)
    (fun _ s' =>
       length (images (swapchain (app s'))) = n /\
       extent (swapchain (app s')) = ext /\
       vkResults (world s') = results /\
       swapchainCreates (world s') = creates).
Proof.
  intros Hc Hv.
  unfold resize_at, rebuild_targets, vkDeviceWaitIdle, Swapchain_Create,
    DestroyDepthStencil, SetupDepthStencil, Image_Create, ImageView_Create,
    SetupFramebuffers, vk_call, next_vkResult, fresh, VK_CHECK_RESULT.
  repeat returns_step. rewrite Hc.
  repeat returns_step. rewrite Hv.
  repeat returns_step.
  apply returns_bind. rewrite for_each_vkDestroyFramebuffer. apply returns_Done.
  repeat returns_step.
  apply returns_bind.
  match goal with |- returns (SetupFramebuffers_loop ?p ?d ?e ?k 0 ?s2) _ =>
    pose proof (SetupFramebuffers_loop_returns p d e k 0%nat s2 (VK_SUCCESS :: results))
      as Hloop
  end.
  destruct Hloop as (tl & [] & s3 & Hrun & Hv3 & Hc3).
  { members_simpl. rewrite length_vector_resize, length_handles_from. reflexivity. }
  destruct (SetupFramebuffers_loop_Done _ _ _ _ _ _ _ _ Hrun) as (_ & Happ3 & _).
  rewrite Hrun. apply returns_Done. clear Hrun.
  unfold DestroyCommandBuffers, CreateCommandBuffers, vkAllocateCommandBuffers,
    BuildCommandBuffers, ViewChanged, vk_call, next_vkResult, VK_CHECK_RESULT.
  repeat returns_step. rewrite Hv3.
  repeat returns_step.
  rewrite Happ3. members_simpl. rewrite length_handles_from. auto.
Qed.

(** X7.  [ResizeWindow] recovers: when the window comes to report a size that
    is not empty, [glfwWaitEvents] returns as often as the wait calls it,
    the surface gives a swapchain of [n] images, and the creations of the
    depth image, its view, the [n] framebuffers and the command buffers
    succeed, then [ResizeWindow] returns, with the new swapchain in place
    and exactly those [n + 3] results read. *)
Theorem ResizeWindow_returns (s : St) (zeros : list (Z * Z)) (w h : Z)
    (rest : list (Z * Z)) (n : nat) (ext : VkExtent2D)
    (creates : list SwapchainAnswer) (results : list VkResult) :
  fbSizes (world s) = zeros ++ (w, h) :: rest ->
  Forall (fun p => is_zero_size p = true) zeros ->
  is_zero_size (w, h) = false ->
  (length zeros <= length (windowEvents (world s)))%nat ->
  swapchainCreates (world s) = Some (n, ext) :: creates ->
  vkResults (world s) =
    VK_SUCCESS :: VK_SUCCESS :: replicate n VK_SUCCESS ++ VK_SUCCESS :: results ->
  exists t s',
    ResizeWindow s = (t, Done tt s') /\
    length (images (swapchain (app s'))) = n /\
    extent (swapchain (app s')) = ext /\
    vkResults (world s') = results /\
    swapchainCreates (world s') = creates.
Proof.
  intros Hsizes Hzeros Hnz Hev Hc Hv.
  destruct (wait_for_size_returns s zeros w h rest Hsizes Hnz Hzeros Hev) as [s1 Hwait].
  destruct (preserves_run _ _ _ _ _ _ wait_keeps_script_wait_for_size Hwait) as [Hkeep _].
  unfold same_on, script_after_wait, final in Hkeep. cbn [snd] in Hkeep.
  injection Hkeep as Hc1 Hv1. rewrite Hc in Hc1. rewrite Hv in Hv1.
  destruct (resize_at_returns w h s1 n ext creates results)
    as (t & [] & s' & Hrun & HP); [congruence | congruence |].
  exists (poll_events (zeros ++ [(w, h)]) ++ t), s'.
  split; [| exact HP].
  rewrite ResizeWindow_split. eapply bind_Done_intro; [exact Hwait | exact Hrun].
Qed.

(** A window that was minimized and comes back at 800 by 600, with a
    surface that now gives three images. *)
Definition example_restored : St :=
  example_state false [(0, 0); (800, 600)] [false] [] []
    (replicate 6 VK_SUCCESS) [Some (3%nat, mkExtent 800 600)].

Lemma ResizeWindow_returns_witness :
  exists t s',
    ResizeWindow example_restored = (t, Done tt s') /\
    length (images (swapchain (app s'))) = 3%nat /\
    extent (swapchain (app s')) = mkExtent 800 600 /\
    vkResults (world s') = [] /\
    swapchainCreates (world s') = [].
Proof.
  apply (ResizeWindow_returns example_restored [(0, 0)] 800 600 [] 3
           (mkExtent 800 600) [] []).
  - vm_compute. reflexivity.
  - repeat constructor.
  - vm_compute. reflexivity.
  - vm_compute. lia.
  - vm_compute. reflexivity.
  - vm_compute. reflexivity.
Defined.

(** * The live framebuffers *)

(** The framebuffer objects alive in the driver are exactly those of the
    list [framebuffers]: one for each view of the swapchain, in order,
    created for the render pass, the depth view and the extent the
    application holds now. *)
Definition framebuffers_exact (s : St) : Prop :=
  forall h info,
    framebufferObjects (world s) !! h = Some info <->
    exists j v,
      framebuffers (app s) !! j = Some h /\
      views (swapchain (app s)) !! j = Some v /\
      info = framebuffer_info (renderPass (app s)) (ds_view (depthStencil (app s)))
               (extent (swapchain (app s))) v.

(** Every live framebuffer object is in the list [framebuffers]. *)
Definition live_in_list (s : St) : Prop :=
  forall h, is_Some (framebufferObjects (world s) !! h) -> h ∈ framebuffers (app s).

Lemma framebuffers_exact_live s : framebuffers_exact s -> live_in_list s.
Proof.
  intros Hex h [info Hh]. apply Hex in Hh. destruct Hh as (j & _ & Hj & _).
  eapply list_elem_of_lookup_2. exact Hj.
Qed.

Lemma lookup_foldl_delete (fbs : list Handle)
    (m : gmap Handle VkFramebufferCreateInfo) (h : Handle) :
  foldl (fun m fb => delete fb m) m fbs !! h =
    if decide (h ∈ fbs) then None else m !! h.
Proof.
  revert m. induction fbs as [| fb fbs IH]; intros m; cbn [foldl].
  - destruct (decide (h ∈ [])) as [Hin | _]; [| reflexivity].
    apply elem_of_nil in Hin. destruct Hin.
  - rewrite IH.
    destruct (decide (h ∈ fbs)) as [Hin | Hnin].
    + rewrite decide_True by (right; exact Hin). reflexivity.
    + destruct (decide (h = fb)) as [-> | Hne].
      * rewrite decide_True by left. apply lookup_delete_eq.
      * rewrite decide_False by (intros Hin; apply elem_of_cons in Hin; tauto).
        apply lookup_delete_ne. congruence.
Qed.

(** The loop of [SetupFramebuffers] adds to the live objects those it
    wrote in the list, and no other. *)
Lemma SetupFramebuffers_loop_table pass dv ext n : forall i s t s',
  SetupFramebuffers_loop pass dv ext n i s = (t, Done tt s') ->
  (i + n <= length (framebuffers (app s)))%nat ->
  forall h info,
    framebufferObjects (world s') !! h = Some info ->
    framebufferObjects (world s) !! h = Some info \/
    exists j,
      (i <= j < i + n)%nat /\
      framebuffers (app s') !! j = Some h /\
      info = framebuffer_info pass dv ext
               (default VK_NULL_HANDLE (views (swapchain (app s)) !! j)).
Proof.
  induction n as [| n IH]; intros i s t s' H Hlen h info Hh.
  - simpl in H. injection H as _ <-. left. exact Hh.
  - cbn [SetupFramebuffers_loop] in H.
    unfold vkCreateFramebuffer, vk_call, next_vkResult, fresh, VK_CHECK_RESULT in H.
    run_inv H.
    pose proof (SetupFramebuffers_loop_Done _ _ _ _ _ _ _ _ H)
      as (_ & _ & _ & _ & _ & Hlow & _).
    apply IH with (h := h) (info := info) in H; [| | exact Hh].
    + cbn [app world] in H, Hlow.
      cbn [nextHandle set_nextHandle framebufferObjects set_framebufferObjects
           set_vkResults] in *.
      change (views (swapchain (set_framebuffers ?x (app s))))
        with (views (swapchain (app s))) in *.
      change (framebuffers (set_framebuffers ?x (app s))) with x in *.
      destruct H as [Hold | (j & Hj & Hlist & Hinfo)].
      * destruct (decide (h = nextHandle (world s))) as [-> | Hne].
        -- rewrite lookup_insert_eq in Hold. injection Hold as <-.
           right. exists i. split; [lia |]. split; [| reflexivity].
           rewrite Hlow by lia. apply list_lookup_insert_eq. lia.
        -- rewrite lookup_insert_ne in Hold by congruence. left. exact Hold.
      * right. exists j. split; [lia |]. split; assumption.
    + cbn [app world].
      change (framebuffers (set_framebuffers ?x (app s))) with x.
      rewrite length_insert. lia.
Qed.

(** [SetupFramebuffers], run while no framebuffer is alive. *)
Lemma SetupFramebuffers_exact s t s' :
  SetupFramebuffers s = (t, Done tt s') ->
  (forall h, framebufferObjects (world s) !! h = None) ->
  framebuffers_exact s'.
Proof.
  unfold SetupFramebuffers. intros H Hempty. run_inv H.
  pose proof (SetupFramebuffers_loop_Done _ _ _ _ _ _ _ _ H)
    as (_ & Happ & Hlen & _ & _ & _ & Hnew).
  pose proof (SetupFramebuffers_loop_table _ _ _ _ _ _ _ _ H) as Htab.
  cbn [app world] in *.
  change (views (swapchain (set_framebuffers ?x (app s))))
    with (views (swapchain (app s))) in *.
  change (framebuffers (set_framebuffers ?x (app s))) with x in *.
  rewrite length_vector_resize in *.
  intros h info. rewrite Happ. members_simpl. split.
  - intros Hh. destruct (Htab ltac:(lia) h info Hh) as [Hold | (j & Hj & Hlist & ->)].
    + rewrite Hempty in Hold. discriminate Hold.
    + destruct (lookup_lt_is_Some_2 (views (swapchain (app s))) j) as [v Hv]; [lia |].
      exists j, v. rewrite Hv. auto.
  - intros (j & v & Hj & Hv & ->).
    pose proof (lookup_lt_Some _ _ _ Hv) as Hlt.
    destruct (Hnew j) as (h0 & Hh0 & Hinfo); [lia | lia |].
    rewrite Hv in Hinfo. rewrite Hj in Hh0. injection Hh0 as <-. exact Hinfo.
Qed.

(** The calls of [ResizeWindow] after the wait destroy every framebuffer
    of the list before [SetupFramebuffers] makes the new ones. *)
Lemma resize_at_exact w h s t s' :
  resize_at w h s = (t, Done tt s') -> live_in_list s -> framebuffers_exact s'.
Proof.
  intros H Hlive.
  unfold resize_at, rebuild_targets, vkDeviceWaitIdle, Swapchain_Create,
    DestroyDepthStencil, SetupDepthStencil, Image_Create, ImageView_Create,
    vk_call, next_vkResult, fresh, VK_CHECK_RESULT in H.
  run_inv H.
  bind_inv H H1. rewrite for_each_vkDestroyFramebuffer in H1. injection H1 as <- <-.
  bind_inv H H2. apply SetupFramebuffers_exact in H2.
  - unfold DestroyCommandBuffers, CreateCommandBuffers, vkAllocateCommandBuffers,
      BuildCommandBuffers, ViewChanged, vk_call, next_vkResult, fresh, VK_CHECK_RESULT in H.
    run_inv H. injection H as <- <-.
    intros fb info. specialize (H2 fb info). members_simpl. exact H2.
  - intros fb. members_simpl. rewrite lookup_foldl_delete.
    destruct (decide (fb ∈ framebuffers (app s))) as [_ | Hnin]; [reflexivity |].
    destruct (framebufferObjects (world s) !! fb) as [info |] eqn:Hfb; [| reflexivity].
    exfalso. apply Hnin, Hlive. rewrite Hfb. eauto.
Qed.

(** The wait leaves the live objects and the list alone. *)
Definition live_part (s : St) :=
  (framebufferObjects (world s), framebuffers (app s)).

Abbreviation wait_keeps_live :=
  (preserves (same_on live_part) (fun e => resize_event e = true)).

Lemma wait_keeps_live_while_minimized fuel w h :
  wait_keeps_live (while_minimized fuel w h).
Proof.
  revert w h. induction fuel as [| fuel IH]; intros w h; simpl; preserves_auto.
Qed.
#[local] Hint Resolve wait_keeps_live_while_minimized : frame.

Lemma wait_keeps_live_wait_for_size : wait_keeps_live wait_for_size.
Proof. unfold wait_for_size. preserves_auto. Qed.

Lemma ResizeWindow_exact s t s' :
  ResizeWindow s = (t, Done tt s') -> live_in_list s -> framebuffers_exact s'.
Proof.
  intros H Hlive. rewrite ResizeWindow_split in H. bind_inv H Hw.
  destruct (preserves_run _ _ _ _ _ _ wait_keeps_live_wait_for_size Hw) as [Hkeep _].
  unfold same_on, live_part, final in Hkeep. cbn [snd] in Hkeep.
  injection Hkeep as Htab Hlist.
  eapply resize_at_exact; [exact H |].
  intros fb. rewrite Htab, Hlist. apply Hlive.
Qed.

Lemma framebuffers_exact_ResizeWindow : maintains framebuffers_exact ResizeWindow.
Proof.
  intros s t [] s' Hs H.
  eapply ResizeWindow_exact; [exact H | apply framebuffers_exact_live, Hs].
Qed.

Lemma framebuffers_exact_RenderFrame : maintains framebuffers_exact RenderFrame.
Proof.
  pose proof framebuffers_exact_ResizeWindow as Hres.
  unfold RenderFrame, PrepareFrame, SubmitFrame, Swapchain_AcquiredNextImage,
    Swapchain_QueuePresent, vkQueueSubmit, vkQueueWaitIdle, vk_call, next_vkResult,
    VK_CHECK_RESULT.
  repeat first [ assumption | maintains_step ].
Qed.

Lemma framebuffers_exact_frames n : maintains framebuffers_exact (frames n).
Proof.
  induction n as [| n IH]; simpl.
  - apply maintains_ret.
  - apply maintains_bind; [apply framebuffers_exact_RenderFrame | intros _; exact IH].
Qed.

(** What [OnInit] does before [SetupFramebuffers] creates no framebuffer. *)
Definition live_objects (s : St) := framebufferObjects (world s).

Abbreviation keeps_live_objects :=
  (preserves (same_on live_objects) (fun _ => True)).

Lemma keeps_live_objects_CreateFence_loop n i :
  keeps_live_objects (CreateFence_loop n i).
Proof.
  revert i. induction n as [| n IH]; intros i; simpl; preserves_auto.
Qed.

Lemma OnPostInit_exact s t s' :
  OnPostInit s = (t, Done tt s') ->
  (forall h, framebufferObjects (world s) !! h = None) ->
  framebuffers_exact s'.
Proof.
  intros H Hempty.
  unfold OnPostInit, CreateSwapchain, Swapchain_Create, CreateCommandPool,
    CreateCommandBuffers, vkAllocateCommandBuffers, CreateFence,
    vk_call, next_vkResult, fresh, VK_CHECK_RESULT in H.
  run_inv H.
  bind_inv H Hfence.
  destruct (preserves_run _ _ _ _ _ _ (keeps_live_objects_CreateFence_loop _ _) Hfence)
    as [Hkeep _].
  unfold same_on, live_objects, final in Hkeep. cbn [snd] in Hkeep.
  unfold SetupDepthStencil, Image_Create, ImageView_Create, SetupRenderPass,
    CreatePipelineCache, vk_call, next_vkResult, fresh, VK_CHECK_RESULT in H.
  run_inv H.
  apply SetupFramebuffers_exact in H; [exact H |].
  intros fb. members_simpl. rewrite Hkeep. apply Hempty.
Qed.

Lemma OnInit_exact conf hwnd s t s' :
  OnInit conf hwnd s = (t, Done tt s') ->
  (forall h, framebufferObjects (world s) !! h = None) ->
  framebuffers_exact s'.
Proof.
  intros H Hempty.
  unfold OnInit, CreateInstance, SelectPhysicalDevice, Swapchain_Init, Device_Init,
    Device_CreateLogicalDevice, vkGetDeviceQueue, CreateSemaphores, vkCreateSemaphore,
    DebugMessenger_Setup, vk_call, next_vkResult, fresh, VK_CHECK_RESULT,
    BOOST_ASSERT_MSG in H.
  run_inv H; (eapply OnPostInit_exact; [exact H |]);
    intros fb; members_simpl; apply Hempty.
Qed.

(** X8.  Started with a driver that holds no framebuffer, the application keeps
    the live framebuffers in step with the swapchain: when [OnInit] has
    returned, and after any number of frames, the framebuffer objects
    alive are exactly those of the list [framebuffers], the one at index
    [j] created for the render pass, the view [j] of the swapchain, the
    depth view and the extent that the application holds at that time.
    No framebuffer of an earlier swapchain is left alive, and none is
    listed twice. *)
Theorem live_framebuffers_follow_swapchain (conf : Config) (hwnd : Handle)
    (s0 s1 : St) (t0 : list Event) :
  OnInit conf hwnd s0 = (t0, Done tt s1) ->
  framebufferObjects (world s0) = ∅ ->
  forall n t s', frames n s1 = (t, Done tt s') ->
    forall h info,
      framebufferObjects (world s') !! h = Some info <->
      exists j v,
        framebuffers (app s') !! j = Some h /\
        views (swapchain (app s')) !! j = Some v /\
        info = framebuffer_info (renderPass (app s')) (ds_view (depthStencil (app s')))
                 (extent (swapchain (app s'))) v.
Proof.
  intros Hinit Hempty n t s' H.
  assert (H1 : framebuffers_exact s1).
  { eapply OnInit_exact; [exact Hinit |].
    intros h. rewrite Hempty. apply lookup_empty. }
  exact (framebuffers_exact_frames n s1 t tt s' H1 H).
Qed.

(** * Shutdown: the calls of [OnDestroy] *)

(** The calls of [OnDestroy], for the application object [a]; [release]
    says whether the build defines [NDEBUG]. *)
Definition destroy_calls (release : bool) (a : VkBase) : list Event :=
  [EvSwapchainDestroy]
  ++ (if N.eqb (descriptorPool a) VK_NULL_HANDLE then []
      else [EvDestroyDescriptorPool (descriptorPool a)])
  ++ [EvFreeCommandBuffers (drawCmdBuffers a);
      EvDestroyRenderPass (renderPass a)]
  ++ map EvDestroyFramebuffer (framebuffers a)
  ++ [EvDestroyImageView (ds_view (depthStencil a));
      EvDestroyImage (ds_image (depthStencil a));
      EvFreeMemory (ds_memory (depthStencil a));
      EvDestroyPipelineCache (pipelineCache a);
      EvDestroyCommandPool (cmdPool a)]
  ++ map EvDestroyFence (waitFences a)
  ++ [EvDestroySemaphore (renderComplete (semaphores a));
      EvDestroySemaphore (presentComplete (semaphores a));
      EvDeviceDestroy]
  ++ debug_call release EvDebugMessengerCleanup
  ++ [EvDestroyInstance].

Lemma OnDestroy_run s :
  OnDestroy s =
    (destroy_calls (ndebug (world s)) (app s),
     Done tt (mkSt (app s)
                (set_framebufferObjects
                   (foldl (fun m fb => delete fb m) (framebufferObjects (world s))
                      (framebuffers (app s)))
                   (world s)))).
Proof.
  unfold OnDestroy, OnPreDestroy, Swapchain_Destroy, DestroyCommandBuffers,
    DestroyDepthStencil, DestroySyncObjects, DebugMessenger_Cleanup.
  assert (Hpool : forall pool (k : unit -> M unit) s0,
    bind (if N.eqb pool VK_NULL_HANDLE then ret tt
          else emit (EvDestroyDescriptorPool pool)) k s0 =
    ((if N.eqb pool VK_NULL_HANDLE then [] else [EvDestroyDescriptorPool pool])
       ++ trace (k tt s0), snd (k tt s0))).
  { intros pool k s0. destruct (N.eqb pool VK_NULL_HANDLE); autorewrite with run.
    - apply run_eta.
    - reflexivity. }
  autorewrite with run. cbv beta. rewrite Hpool.
  autorewrite with run. cbv beta.
  rewrite bind_run, for_each_vkDestroyFramebuffer. cbn [snd trace fst].
  autorewrite with run. cbv beta. cbn [app world].
  rewrite bind_run, for_each_emit. cbn [snd trace fst].
  autorewrite with run. cbn [app world]. members_simpl.
  destruct (ndebug (world s)); autorewrite with run; cbn [trace fst snd];
    reflexivity.
Qed.

(** X9.  [OnDestroy] never fails and never waits: whatever the state of the
    application, it returns after exactly the calls of [destroy_calls], in
    that order.  The render pass goes before the framebuffers made for
    it, the descriptor pool is destroyed only if there is one, the debug
    messenger is cleaned up in a build without [NDEBUG] only, and the
    members of the application keep the handles of the destroyed objects. *)
Theorem OnDestroy_sequence (s : St) :
  returned (OnDestroy s) = true /\
  trace (OnDestroy s) = destroy_calls (ndebug (world s)) (app s) /\
  app (final (OnDestroy s)) = app s.
Proof. rewrite OnDestroy_run. repeat split. Qed.

(** X10.  An application that started with a driver holding no framebuffer and
    rendered any number of frames, through any number of resizes, leaves
    no framebuffer alive when [OnDestroy] returns. *)
Theorem OnDestroy_leaves_no_framebuffer (conf : Config) (hwnd : Handle)
    (s0 s1 s : St) (t0 t : list Event) (n : nat) :
  OnInit conf hwnd s0 = (t0, Done tt s1) ->
  framebufferObjects (world s0) = ∅ ->
  frames n s1 = (t, Done tt s) ->
  framebufferObjects (world (final (OnDestroy s))) = ∅.
Proof.
  intros Hinit Hempty H.
  assert (H1 : framebuffers_exact s1).
  { eapply OnInit_exact; [exact Hinit |].
    intros h. rewrite Hempty. apply lookup_empty. }
  pose proof (framebuffers_exact_live _ (framebuffers_exact_frames n s1 t tt s H1 H))
    as Hlive.
  rewrite OnDestroy_run. unfold final. cbn [snd world].
  apply map_empty. intros h. members_simpl. rewrite lookup_foldl_delete.
  destruct (decide (h ∈ framebuffers (app s))) as [_ | Hnin]; [reflexivity |].
  destruct (framebufferObjects (world s) !! h) as [info |] eqn:Hh; [| reflexivity].
  exfalso. apply Hnin, Hlive. rewrite Hh. eauto.
Qed.

(** A start followed by a frame whose acquisition finds the swapchain out
    of date, in a window of 800 by 600 whose surface now gives three
    images. *)
Definition example_world_resizing : World :=
  mkWorld [(800, 600)] [] [(VK_ERROR_OUT_OF_DATE_KHR, None)] [VK_SUCCESS]
    (replicate 40 VK_SUCCESS)
    [Some (2%nat, mkExtent 640 480); Some (3%nat, mkExtent 800 600)]
    [7%N; 8%N] example_score ∅ 100 false.

Definition example_started_resizing : St :=
  final (OnInit example_config 1%N (mkSt VkBase_default example_world_resizing)).

Definition example_after_resize : St := final (frames 1 example_started_resizing).

Lemma live_framebuffers_follow_swapchain_witness :
  framebufferObjects (world example_after_resize)
    !! default VK_NULL_HANDLE (framebuffers (app example_after_resize) !! 0%nat) =
  Some (framebuffer_info (renderPass (app example_after_resize))
          (ds_view (depthStencil (app example_after_resize)))
          (extent (swapchain (app example_after_resize)))
          (default VK_NULL_HANDLE (views (swapchain (app example_after_resize)) !! 0%nat))).
Proof.
  apply (live_framebuffers_follow_swapchain example_config 1%N
           (mkSt VkBase_default example_world_resizing) example_started_resizing
           (trace (OnInit example_config 1%N
                     (mkSt VkBase_default example_world_resizing)))
           ltac:(vm_compute; reflexivity) ltac:(vm_compute; reflexivity)
           1%nat (trace (frames 1 example_started_resizing)) example_after_resize
           ltac:(vm_compute; reflexivity)).
  exists 0%nat,
    (default VK_NULL_HANDLE (views (swapchain (app example_after_resize)) !! 0%nat)).
  split; [vm_compute; reflexivity |]. split; [vm_compute; reflexivity | reflexivity].
Defined.

Lemma OnDestroy_leaves_no_framebuffer_witness :
  framebufferObjects (world (final (OnDestroy example_after_resize))) = ∅.
Proof.
  apply (OnDestroy_leaves_no_framebuffer example_config 1%N
           (mkSt VkBase_default example_world_resizing) example_started_resizing
           example_after_resize
           (trace (OnInit example_config 1%N
                     (mkSt VkBase_default example_world_resizing)))
           (trace (frames 1 example_started_resizing)) 1%nat).
  - vm_compute. reflexivity.
  - vm_compute. reflexivity.
  - vm_compute. reflexivity.
Defined.

(** * The objects made once *)

(** The members assigned during [OnInit] that no frame assigns. *)
Definition fixed_objects (s : St) :=
  let a := app s in
  (config a, window a, instance a, device a, queue a, renderPass a,
   pipelineCache a, cmdPool a, waitFences a, descriptorPool a).

(** The calls that create or destroy one of them. *)
Definition is_fixed_object_call (e : Event) : bool :=
  match e with
  | EvCreateInstance _ | EvDestroyInstance
  | EvCreateLogicalDevice _ | EvDeviceDestroy | EvGetDeviceQueue
  | EvCreateRenderPass | EvDestroyRenderPass _
  | EvCreatePipelineCache | EvDestroyPipelineCache _
  | EvCreateCommandPool | EvDestroyCommandPool _
  | EvCreateFence | EvDestroyFence _
  | EvDestroyDescriptorPool _ => true
  | _ => false
  end.

Abbreviation fixed_kept :=
  (preserves (same_on fixed_objects) (fun e => is_fixed_object_call e = false)).

Lemma fixed_kept_fresh_n n : fixed_kept (fresh_n n).
Proof. induction n; simpl; preserves_auto. Qed.
#[local] Hint Resolve fixed_kept_fresh_n : frame.

Lemma fixed_kept_SetupFramebuffers_loop pass dv ext n i :
  fixed_kept (SetupFramebuffers_loop pass dv ext n i).
Proof. revert i. induction n as [| n IH]; intros i; simpl; preserves_auto. Qed.
#[local] Hint Resolve fixed_kept_SetupFramebuffers_loop : frame.

Lemma fixed_kept_while_minimized fuel w h : fixed_kept (while_minimized fuel w h).
Proof.
  revert w h. induction fuel as [| fuel IH]; intros w h; simpl; preserves_auto.
Qed.
#[local] Hint Resolve fixed_kept_while_minimized : frame.

Lemma fixed_kept_RenderFrame : fixed_kept RenderFrame.
Proof. preserves_auto. Qed.

Lemma fixed_kept_frames n : fixed_kept (frames n).
Proof.
  induction n as [| n IH]; simpl.
  - preserves_steps.
  - apply preserves_bind; [exact _ | apply fixed_kept_RenderFrame | intros _; exact IH].
Qed.

(** X11.  However the frames end, they leave alone the configuration, the window,
    the instance, the device and its queue, the render pass, the pipeline
    cache, the command pool, the fences and the descriptor pool, and they
    make no call that creates or destroys one of these objects: a resize
    rebuilds none of them. *)
Theorem frames_keep_fixed_objects (n : nat) (s : St) :
  fixed_objects (final (frames n s)) = fixed_objects s /\
  Forall (fun e => is_fixed_object_call e = false) (trace (frames n s)).
Proof. apply fixed_kept_frames. Qed.

(** ** The fences *)

Definition is_fence_create (e : Event) : bool :=
  match e with EvCreateFence => true | _ => false end.

Lemma CreateFence_loop_trace n : forall i s t s',
  CreateFence_loop n i s = (t, Done tt s') ->
  t = replicate n EvCreateFence /\
  length (waitFences (app s')) = length (waitFences (app s)).
Proof.
  induction n as [| n IH]; intros i s t s' H.
  - simpl in H. injection H as <- <-. auto.
  - cbn [CreateFence_loop] in H.
    unfold vk_call, next_vkResult, fresh, VK_CHECK_RESULT in H.
    run_inv H. apply IH in H. cbn [app world] in H. destruct H as [-> Hlen].
    members_simpl. rewrite length_insert in Hlen. auto.
Qed.

Lemma count_events_replicate p e n :
  count_events p (replicate n e) = if p e then n else 0%nat.
Proof.
  induction n as [| n IH]; simpl.
  - destruct (p e); reflexivity.
  - rewrite IH. destruct (p e); reflexivity.
Qed.

Lemma OnPostInit_fences s t s' :
  OnPostInit s = (t, Done tt s') ->
  length (waitFences (app s')) = length (images (swapchain (app s'))) /\
  count_events is_fence_create t = length (images (swapchain (app s'))).
Proof.
  intros H.
  unfold OnPostInit, CreateSwapchain, Swapchain_Create, CreateCommandPool,
    CreateCommandBuffers, vkAllocateCommandBuffers, CreateFence,
    vk_call, next_vkResult, fresh, VK_CHECK_RESULT in H.
  run_inv H.
  bind_inv H Hfence.
  pose proof (CreateFence_loop_Done _ _ _ _ _ Hfence) as Happ1.
  apply CreateFence_loop_trace in Hfence. destruct Hfence as [-> Hlen].
  unfold SetupDepthStencil, Image_Create, ImageView_Create, SetupRenderPass,
    CreatePipelineCache, vk_call, next_vkResult, fresh, VK_CHECK_RESULT in H.
  run_inv H.
  apply SetupFramebuffers_Done in H. destruct H as (-> & Happ & _ & _).
  remember (framebuffers (app s')) as fbs eqn:Hfbs.
  remember (waitFences (app s1)) as fences eqn:Hfences.
  rewrite Happ. members_simpl. rewrite Happ1 in *. members_simpl.
  rewrite ?length_handles_from, ?length_vector_resize, ?length_handles_from in *.
  split; [exact Hlen |].
  cbn [count_events is_fence_create].
  rewrite count_events_app, count_events_replicate.
  cbn [count_events is_fence_create].
  rewrite count_events_map_none by reflexivity. lia.
Qed.

Lemma OnInit_fences conf hwnd s t s' :
  OnInit conf hwnd s = (t, Done tt s') ->
  length (waitFences (app s')) = length (images (swapchain (app s'))) /\
  count_events is_fence_create t = length (images (swapchain (app s'))).
Proof.
  intros H.
  unfold OnInit, CreateInstance, SelectPhysicalDevice, Swapchain_Init, Device_Init,
    Device_CreateLogicalDevice, vkGetDeviceQueue, CreateSemaphores, vkCreateSemaphore,
    DebugMessenger_Setup, vk_call, next_vkResult, fresh, VK_CHECK_RESULT,
    BOOST_ASSERT_MSG in H.
  run_inv H; apply OnPostInit_fences in H; destruct H as [Hlen Hcount];
    (split; [exact Hlen |]);
    cbn [count_events is_fence_create Nat.add]; exact Hcount.
Qed.

(** X12.  The fences are made once, in [OnInit]: one for each image of the first
    swapchain.  The frames that follow keep them and create no fence,
    whatever number of images a later swapchain has. *)
Theorem fences_made_once (conf : Config) (hwnd : Handle) (s0 s1 : St)
    (t0 : list Event) :
  OnInit conf hwnd s0 = (t0, Done tt s1) ->
  length (waitFences (app s1)) = length (images (swapchain (app s1))) /\
  count_events is_fence_create t0 = length (images (swapchain (app s1))) /\
  forall n,
    waitFences (app (final (frames n s1))) = waitFences (app s1) /\
    count_events is_fence_create (trace (frames n s1)) = 0%nat.
Proof.
  intros Hinit. destruct (OnInit_fences _ _ _ _ _ Hinit) as [Hlen Hcount].
  split; [exact Hlen |]. split; [exact Hcount |].
  intros n. destruct (fixed_kept_frames n s1) as [Hkeep Hev].
  unfold same_on, fixed_objects in Hkeep. split; [congruence |].
  apply count_events_none. eapply Forall_impl; [exact Hev |].
  intros []; simpl; congruence.
Qed.

Lemma fences_made_once_witness :
  length (waitFences (app example_started_resizing)) =
    length (images (swapchain (app example_started_resizing))) /\
  waitFences (app (final (frames 1 example_started_resizing))) =
    waitFences (app example_started_resizing).
Proof.
  destruct (fences_made_once example_config 1%N
              (mkSt VkBase_default example_world_resizing) example_started_resizing
              (trace (OnInit example_config 1%N
                        (mkSt VkBase_default example_world_resizing))))
    as (Hlen & _ & Hframes).
  - vm_compute. reflexivity.
  - split; [exact Hlen | apply Hframes].
Defined.

(** * The calls of [OnInit] *)

(** A loop that returned read one result for each of its iterations, and
    every one was a success. *)
Lemma CreateFence_loop_results n : forall i s t s',
  CreateFence_loop n i s = (t, Done tt s') ->
  vkResults (world s) = replicate n VK_SUCCESS ++ vkResults (world s').
Proof.
  induction n as [| n IH]; intros i s t s' H.
  - simpl in H. injection H as _ <-. reflexivity.
  - cbn [CreateFence_loop] in H.
    unfold vk_call, next_vkResult, fresh, VK_CHECK_RESULT in H.
    run_inv H. apply IH in H. cbn [app world] in H. members_simpl. subst.
    reflexivity.
Qed.

Lemma SetupFramebuffers_loop_results pass dv ext n : forall i s t s',
  SetupFramebuffers_loop pass dv ext n i s = (t, Done tt s') ->
  vkResults (world s) = replicate n VK_SUCCESS ++ vkResults (world s').
Proof.
  induction n as [| n IH]; intros i s t s' H.
  - simpl in H. injection H as _ <-. reflexivity.
  - cbn [SetupFramebuffers_loop] in H.
    unfold vkCreateFramebuffer, vk_call, next_vkResult, fresh, VK_CHECK_RESULT in H.
    run_inv H. apply IH in H. cbn [app world] in H. members_simpl. subst.
    reflexivity.
Qed.

(** The calls of [OnPostInit], in terms of the application object [a] it
    leaves. *)
Definition post_init_calls (a : VkBase) : list Event :=
  [EvSwapchainCreate (Width (config a)) (Height (config a));
   EvCreateCommandPool;
   EvAllocateCommandBuffers (length (images (swapchain a)))]
  ++ replicate (length (images (swapchain a))) EvCreateFence
  ++ [EvImageCreate (ext_width (extent (swapchain a))) (ext_height (extent (swapchain a)));
      EvImageViewCreate (ds_image (depthStencil a));
      EvCreateRenderPass;
      EvCreatePipelineCache]
  ++ map (fun v => EvCreateFramebuffer
            (framebuffer_info (renderPass a) (ds_view (depthStencil a))
               (extent (swapchain a)) v))
         (views (swapchain a)).

Lemma OnPostInit_sequence s t s' :
  OnPostInit s = (t, Done tt s') ->
  t = post_init_calls (app s') /\
  vkResults (world s) =
    replicate (6 + 2 * length (images (swapchain (app s')))) VK_SUCCESS
      ++ vkResults (world s') /\
  (config (app s'), window (app s'), instance (app s'), device (app s'),
   queue (app s'), semaphores (app s'), submitInfo (app s')) =
  (config (app s), window (app s), instance (app s), device (app s),
   queue (app s), semaphores (app s), submitInfo (app s)).
Proof.
  intros H.
  unfold OnPostInit, CreateSwapchain, Swapchain_Create, CreateCommandPool,
    CreateCommandBuffers, vkAllocateCommandBuffers, CreateFence,
    vk_call, next_vkResult, fresh, VK_CHECK_RESULT in H.
  run_inv H.
  bind_inv H Hfence.
  pose proof (CreateFence_loop_Done _ _ _ _ _ Hfence) as Happ1.
  pose proof (CreateFence_loop_results _ _ _ _ _ Hfence) as Hres1.
  apply CreateFence_loop_trace in Hfence. destruct Hfence as [-> Hlen].
  unfold SetupDepthStencil, Image_Create, ImageView_Create, SetupRenderPass,
    CreatePipelineCache, vk_call, next_vkResult, fresh, VK_CHECK_RESULT in H.
  run_inv H.
  unfold SetupFramebuffers in H. run_inv H.
  pose proof (SetupFramebuffers_loop_results _ _ _ _ _ _ _ _ H) as Hres2.
  apply SetupFramebuffers_loop_Done in H. destruct H as (-> & Happ & _).
  remember (framebuffers (app s')) as fbs eqn:Hfbs.
  remember (waitFences (app s1)) as fences eqn:Hfences.
  rewrite Happ. members_simpl. rewrite Happ1 in *. members_simpl.
  rewrite ?length_handles_from, ?length_vector_resize, ?length_handles_from in *.
  subst.
  split; [| split; [| reflexivity]].
  - unfold post_init_calls. members_simpl. rewrite ?length_handles_from.
    cbn [Datatypes.app]. do 3 f_equal. f_equal. do 4 f_equal.
    etransitivity;
      [| apply (map_seq_lookup (fun v0 => EvCreateFramebuffer (framebuffer_info _ _ _ v0)))].
    rewrite length_handles_from. reflexivity.
  - replace (6 + 2 * length fences)%nat
      with (2 + (length fences + (4 + length fences)))%nat by lia.
    rewrite !replicate_add. cbn [replicate Datatypes.app].
    rewrite <- !app_assoc. reflexivity.
Qed.

(** The calls of [OnInit], in terms of the application object [a] it
    leaves; [release] says whether the build defines [NDEBUG]. *)
Definition init_calls (release : bool) (a : VkBase) : list Event :=
  [EvCreateInstance (AppName (config a))]
  ++ debug_call release EvDebugMessengerSetup
  ++ [EvEnumeratePhysicalDevices;
   EvEnumeratePhysicalDevices;
   EvSwapchainInit (physicalDevice (device a));
   EvDeviceInit (physicalDevice (device a));
   EvCreateLogicalDevice (physicalDevice (device a));
   EvGetDeviceQueue;
   EvCreateSemaphore;
   EvCreateSemaphore]
  ++ post_init_calls a.

(** X13.  A run of [OnInit] that returns made exactly the calls of [init_calls],
    in that order: the instance, the debug messenger (in a build without
    [NDEBUG] only), the choice of the physical device, the
    logical device and its queue, the two semaphores, then the swapchain
    at the configured size, the command pool, one command buffer and one
    fence for each image, the depth image and its view, the render pass,
    the pipeline cache, and one framebuffer for each view.  Every result
    it looked at (ten, and two for each image) was a success, and it read
    no other; the configuration and the window are those it was given. *)
Theorem OnInit_sequence (conf : Config) (hwnd : Handle) (s s' : St)
    (t : list Event) :
  OnInit conf hwnd s = (t, Done tt s') ->
  t = init_calls (ndebug (world s)) (app s') /\
  vkResults (world s) =
    replicate (10 + 2 * length (images (swapchain (app s')))) VK_SUCCESS
      ++ vkResults (world s') /\
  config (app s') = conf /\
  window (app s') = hwnd.
Proof.
  intros H.
  unfold OnInit, CreateInstance, SelectPhysicalDevice, Swapchain_Init, Device_Init,
    Device_CreateLogicalDevice, vkGetDeviceQueue, CreateSemaphores, vkCreateSemaphore,
    DebugMessenger_Setup, vk_call, next_vkResult, fresh, VK_CHECK_RESULT,
    BOOST_ASSERT_MSG in H.
  run_inv H; apply OnPostInit_sequence in H; destruct H as (Ht & Hres & Hkeep);
    members_simpl; injection Hkeep as Hconf Hwin _ Hdev _ _ _;
    (split; [| split; [| split; [exact Hconf | exact Hwin]]]).
  1, 3: unfold init_calls; rewrite Hdev, Hconf, Ht; reflexivity.
  all: rewrite Hres;
    replace (10 + 2 * length (images (swapchain (app s'))))%nat
      with (4 + (6 + 2 * length (images (swapchain (app s')))))%nat by lia;
    rewrite replicate_add; reflexivity.
Qed.

Lemma OnInit_sequence_witness :
  trace (OnInit example_config 1%N (mkSt VkBase_default example_world)) =
    init_calls false (app example_started) /\
  vkResults example_world =
    replicate (10 + 2 * length (images (swapchain (app example_started)))) VK_SUCCESS
      ++ vkResults (world example_started).
Proof.
  destruct (OnInit_sequence example_config 1%N (mkSt VkBase_default example_world)
              example_started
              (trace (OnInit example_config 1%N (mkSt VkBase_default example_world))))
    as (Ht & Hres & _).
  - vm_compute. reflexivity.
  - split; [exact Ht | exact Hres].
Defined.

(** * What a resize that returns has read *)

Abbreviation keeps_creates :=
  (preserves (same_on (fun s => swapchainCreates (world s))) (fun _ => True)).

Lemma keeps_creates_SetupFramebuffers_loop pass dv ext n i :
  keeps_creates (SetupFramebuffers_loop pass dv ext n i).
Proof. revert i. induction n as [| n IH]; intros i; simpl; preserves_auto. Qed.

Lemma resize_at_results w h s t s' :
  resize_at w h s = (t, Done tt s') ->
  swapchainCreates (world s) =
    Some (length (images (swapchain (app s'))), extent (swapchain (app s')))
      :: swapchainCreates (world s') /\
  vkResults (world s) =
    replicate (length (images (swapchain (app s'))) + 3) VK_SUCCESS
      ++ vkResults (world s').
Proof.
  intros H.
  unfold resize_at, rebuild_targets, vkDeviceWaitIdle, Swapchain_Create,
    DestroyDepthStencil, SetupDepthStencil, Image_Create, ImageView_Create,
    vk_call, next_vkResult, fresh, VK_CHECK_RESULT in H.
  run_inv H.
  bind_inv H H1. rewrite for_each_vkDestroyFramebuffer in H1. injection H1 as <- <-.
  bind_inv H H2. unfold SetupFramebuffers in H2. run_inv H2.
  pose proof (SetupFramebuffers_loop_results _ _ _ _ _ _ _ _ H2) as Hres.
  pose proof (preserves_run _ _ _ _ _ _
                (keeps_creates_SetupFramebuffers_loop _ _ _ _ _) H2) as [Hkeep _].
  apply SetupFramebuffers_loop_Done in H2. destruct H2 as (_ & Happ & _).
  unfold DestroyCommandBuffers, CreateCommandBuffers, vkAllocateCommandBuffers,
    BuildCommandBuffers, ViewChanged, vk_call, next_vkResult, fresh, VK_CHECK_RESULT in H.
  run_inv H. injection H as <- <-.
  unfold same_on, final in Hkeep. cbn [snd] in Hkeep.
  members_simpl. rewrite Happ in *. members_simpl.
  rewrite ?length_handles_from, ?length_vector_resize, ?length_handles_from in *.
  split; [rewrite Hkeep; reflexivity |].
  rewrite Hres. replace (n + 3)%nat with (2 + (n + 1))%nat by lia.
  rewrite !replicate_add. cbn [replicate Datatypes.app].
  rewrite <- app_assoc. reflexivity.
Qed.

(** X14.  A run of [ResizeWindow] that returns took one answer of the surface,
    the swapchain it now holds, and read three results and one for each
    image of that swapchain, every one of them a success: the creation of
    the depth image, of its view, of each framebuffer and of the command
    buffers.  With any other result, [ResizeWindow] does not return. *)
Theorem ResizeWindow_reads_only_successes (s s' : St) (t : list Event) :
  ResizeWindow s = (t, Done tt s') ->
  swapchainCreates (world s) =
    Some (length (images (swapchain (app s'))), extent (swapchain (app s')))
      :: swapchainCreates (world s') /\
  vkResults (world s) =
    replicate (length (images (swapchain (app s'))) + 3) VK_SUCCESS
      ++ vkResults (world s').
Proof.
  intros H. rewrite ResizeWindow_split in H. bind_inv H Hw.
  destruct (preserves_run _ _ _ _ _ _ wait_keeps_script_wait_for_size Hw) as [Hkeep _].
  unfold same_on, script_after_wait, final in Hkeep. cbn [snd] in Hkeep.
  injection Hkeep as Hc Hv.
  apply resize_at_results in H. rewrite Hc, Hv in H. exact H.
Qed.

Lemma ResizeWindow_reads_only_successes_witness :
  vkResults (world example_restored) =
    replicate (length (images (swapchain (app (final (ResizeWindow example_restored)))))
               + 3) VK_SUCCESS
      ++ vkResults (world (final (ResizeWindow example_restored))).
Proof.
  destruct (ResizeWindow_reads_only_successes example_restored
              (final (ResizeWindow example_restored))
              (trace (ResizeWindow example_restored)))
    as [_ Hres].
  - vm_compute. reflexivity.
  - exact Hres.
Defined.

(** * [Shader::Create] *)

Module Shader.

Definition SHADER_ENTRY_POINT : string := "main".

Record VkShaderModuleCreateInfo : Set := mkShaderModuleCreateInfo {
  codeSize : nat;
  pCode : list Ascii.ascii
}.

Record VkPipelineShaderStageCreateInfo : Set := mkShaderStage {
  stage : N;
  module : Handle;
  pName : string;
  pSpecializationInfo : Ptr
}.

(** What [Create] meets outside: the files that can be opened, each with
    its contents; the answer of [vkCreateShaderModule], a status and the
    value the variable [module] holds after the call; and whether the
    build keeps the assertions of Boost (no [NDEBUG]). *)
Record Env : Type := mkEnv {
  files : gmap string (list Ascii.ascii);
  vkCreateShaderModule : VkShaderModuleCreateInfo -> VkResult * Handle;
  assertions : bool
}.

(** What [Create] does that can be seen from outside. *)
Inductive Effect : Type :=
| Cerr (text : string)
| CallCreateShaderModule (create : VkShaderModuleCreateInfo).

(** How a call of [Create] ends: it returns the stage, a failed assertion
    aborts the process, or [std::get] throws [std::bad_variant_access]. *)
Inductive Outcome : Type :=
| Returned (info : VkPipelineShaderStageCreateInfo)
| Aborted
| Thrown.

Definition endl : string := String (Ascii.ascii_of_nat 10) EmptyString.

(** [std::variant<std::string, std::vector<char>>]: the message, or the
    bytes of the file. *)
Definition ReadFile (env : Env) (filename : string) : string + list Ascii.ascii :=
  match files env !! filename with
  | None => inl (String.append "Failed to open file: " filename)
  | Some contents => inr contents   (* [size] bytes read from the start *)
  end.

Definition Create (env : Env) (filepath : string) (stage : N)
    (specialization : Ptr) : list Effect * Outcome :=
  match ReadFile env filepath with
  | inl message =>
      (* the message, then the assertion; without it [std::get] throws *)
      ([Cerr (String.append message endl)],
       if assertions env then Aborted else Thrown)
  | inr code =>
      let create := mkShaderModuleCreateInfo (length code) code in
      let '(result, module) := vkCreateShaderModule env create in
      let info := mkShaderStage stage module SHADER_ENTRY_POINT specialization in
      if VkResult_eqb result VK_SUCCESS then
        ([CallCreateShaderModule create], Returned info)
      else
        ([CallCreateShaderModule create;
          Cerr (String.append "Failed to create shader module: " filepath)],
         if assertions env then Aborted else Returned info)
  end.

Definition is_call (e : Effect) : bool :=
  match e with CallCreateShaderModule _ => true | Cerr _ => false end.

(** X15.  In either build, [Create] does not return for a file that cannot be
    opened: it writes the message of [ReadFile] to [std::cerr] and stops,
    by the assertion or by the exception of [std::get], without a call of
    [vkCreateShaderModule]. *)
Theorem Create_unreadable_file (env : Env) (filepath : string) (stage : N)
    (specialization : Ptr) :
  files env !! filepath = None ->
  fst (Create env filepath stage specialization) =
    [Cerr (String.append (String.append "Failed to open file: " filepath) endl)] /\
  snd (Create env filepath stage specialization) =
    (if assertions env then Aborted else Thrown) /\
  forall info, snd (Create env filepath stage specialization) <> Returned info.
Proof.
  intros Hfile. unfold Create, ReadFile. rewrite Hfile. cbn [fst snd].
  split; [reflexivity |]. split; [reflexivity |].
  intros info. destruct (assertions env); discriminate.
Qed.

(** X16.  A stage that [Create] returns: the file could be opened, the one call
    of [vkCreateShaderModule] was given all its bytes, whatever their
    number, and the stage names the module of that call, the entry point
    [main] and the stage and the specialization asked for.  In a build
    that keeps the assertions the call succeeded and nothing was written
    to [std::cerr]; without them [Create] returns also when it failed. *)
Theorem Create_returns (env : Env) (filepath : string) (stage0 : N)
    (specialization : Ptr) (t : list Effect)
    (info : VkPipelineShaderStageCreateInfo) :
  Create env filepath stage0 specialization = (t, Returned info) ->
  exists code,
    files env !! filepath = Some code /\
    let create := mkShaderModuleCreateInfo (length code) code in
    filter (fun e => is_call e) t = [CallCreateShaderModule create] /\
    info = mkShaderStage stage0 (snd (vkCreateShaderModule env create))
             SHADER_ENTRY_POINT specialization /\
    (assertions env = true ->
       fst (vkCreateShaderModule env create) = VK_SUCCESS /\
       t = [CallCreateShaderModule create]).
Proof.
  unfold Create, ReadFile. intros H.
  destruct (files env !! filepath) as [code |]; [| destruct (assertions env); discriminate H].
  exists code. split; [reflexivity |]. cbv zeta.
  destruct (vkCreateShaderModule env (mkShaderModuleCreateInfo (length code) code))
    as [result module0].
  cbn [fst snd].
  destruct result; cbn [VkResult_eqb] in H;
    try (destruct (assertions env); [discriminate H |]);
    injection H as <- <-; repeat split; try reflexivity; try discriminate;
    intros; congruence.
Qed.

(** A vertex shader of four bytes, and a driver that refuses an empty
    module. *)
Definition example_env : Env :=
  mkEnv (<["triangle.vert.spv" := [Ascii.ascii_of_nat 3; Ascii.ascii_of_nat 2;
                                   Ascii.ascii_of_nat 35; Ascii.ascii_of_nat 7]]> ∅)
    (fun create =>
       if Nat.eqb (codeSize create) 0 then (VK_ERROR_OUT_OF_HOST_MEMORY, VK_NULL_HANDLE)
       else (VK_SUCCESS, 42%N))
    true.

Lemma Create_unreadable_file_witness :
  snd (Create example_env "missing.spv" 1 NullPtr) = Aborted.
Proof.
  destruct (Create_unreadable_file example_env "missing.spv" 1 NullPtr)
    as (_ & Hout & _).
  - vm_compute. reflexivity.
  - exact Hout.
Defined.

Lemma Create_returns_witness :
  exists code, files example_env !! "triangle.vert.spv" = Some code /\ length code = 4%nat.
Proof.
  destruct (Create_returns example_env "triangle.vert.spv" 1 NullPtr
              (fst (Create example_env "triangle.vert.spv" 1 NullPtr))
              (mkShaderStage 1 42%N SHADER_ENTRY_POINT NullPtr))
    as (code & Hfile & _).
  - vm_compute. reflexivity.
  - exists code. split; [exact Hfile |].
    assert (Hcode : Some code = Some [Ascii.ascii_of_nat 3; Ascii.ascii_of_nat 2;
                                      Ascii.ascii_of_nat 35; Ascii.ascii_of_nat 7]).
    { rewrite <- Hfile. vm_compute. reflexivity. }
    injection Hcode as ->. reflexivity.
Defined.

End Shader.
